(** * quiz-server: the real-time session coordination engine

    A shallow embedding of the Go sources
      - internal/models   (quiz.go, dto.go)
      - internal/quiz     (repository.go, service.go)
      - pkg/cache         (redis.go)
      - pkg/websocket     (hub.go)
    and the properties of the scoring function, the progress tracker, the
    session sequencer and the connection hub.

    Conventions.
      - Go's [int] is the 64-bit two's complement integer of the amd64 and
        arm64 targets: a [Z] wrapped by [wrap64] after every arithmetic
        operation.  [uint] identifiers are only ever compared: [nat].
      - A [*Client] is an address ([ptr]); the structs the addresses point
        to live in the hub's [heap], so that aliasing through the hub's maps
        is kept.
      - A Go [map] is a [gmap], a [map[*Client]bool] used as a set a [gset].
      - A buffered channel is the list of the values queued in it together
        with a closed flag; an unbuffered channel that is served by
        [Hub.Run] is modelled by running the handler at the send.
      - [go f(...)] appends a [Task] to the list of started goroutines; the
        scheduler runs any of them.  A call of the hub (made under its
        mutex) and a call to the store are atomic, and so is, in this
        model, each goroutine.
      - A run-time panic is the [Panic] outcome, with the state at the panic.
      - Calls to the relational store and to the cache may fail: each call
        consumes one entry of the fault oracle [faults]. *)

From Stdlib Require Import ZArith Lia.
From stdpp Require Import gmap strings list fin_maps sorting.

Set Warnings "-clear-no-such-hyp".

Local Open Scope string_scope.
Local Open Scope list_scope.
Local Open Scope Z_scope.

(** ** Machine integers *)

Module GoInt.

Definition min_int : Z := - 2 ^ 63.
Definition max_int : Z := 2 ^ 63 - 1.

(** Two's complement wrap-around of a 64-bit signed integer. *)
Definition wrap64 (z : Z) : Z := (z + 2 ^ 63) mod 2 ^ 64 - 2 ^ 63.

Definition in_range (z : Z) : Prop := min_int <= z <= max_int.

Definition add (a b : Z) : Z := wrap64 (a + b).
Definition sub (a b : Z) : Z := wrap64 (a - b).
Definition mul (a b : Z) : Z := wrap64 (a * b).

End GoInt.

(** ** internal/models *)

Module models.

Definition uint := nat.

Record User := {
  User_ID : uint;
  User_Username : string;
}.

(** [DeletedAt] columns are kept as the flag "deleted_at IS NOT NULL";
    the time stamps [CreatedAt] and [UpdatedAt] are not read by the code.
    The preloaded [Questions] of a [Quiz] are never read by the service:
    it always asks the repository for them. *)
Record Quiz := {
  Quiz_ID : uint;
  Quiz_Deleted : bool;
  Title : string;
  Description : string;
  CreatorID : uint;
  Quiz_TimeLimit : uint;
  QuizCode : string;
  IsActive : bool;
}.

Record Option_ := {
  Option_ID : uint;
  Option_QuestionID : uint;
  Option_Text : string;
  Option_Deleted : bool;
}.

Record Question := {
  Question_ID : uint;
  Question_Deleted : bool;
  Question_QuizID : uint;
  Text : string;
  Options : list Option_;
  CorrectAnswer : string;
  TimeLimit : Z;
}.

Record UserQuizResponse := {
  Response_Deleted : bool;
  Response_UserID : uint;
  Response_QuizID : uint;
  QuestionID : uint;
  Answer : string;
  Score : Z;
  TimeSpent : Z;
}.

Record QuizParticipant := {
  Participant_Deleted : bool;
  Participant_QuizID : uint;
  Participant_UserID : uint;
}.

Record LeaderboardEntry := {
  Username : string;
  TotalScore : Z;
}.

Record UserQuizProgress := {
  Progress_ID : uint;
  Progress_UserID : uint;
  Progress_QuizID : uint;
  NextIndex : Z;
}.

(** dto.go *)

Record OptionDTO := {
  OptionDTO_ID : uint;
  OptionDTO_Text : string;
}.

(** [DTO_CorrectAnswer] carries the tag [json:"correct_answer,omitempty"]:
    the key is present in the encoded payload exactly when the string is
    not empty. *)
Record QuestionDTO := {
  DTO_ID : uint;
  DTO_Text : string;
  DTO_Options : list OptionDTO;
  DTO_TimeLimit : Z;
  DTO_CorrectAnswer : string;
}.

Definition ToDTO (q : Question) (isHost : bool) : QuestionDTO :=
  let optionDTOs :=
    map (fun opt => {| OptionDTO_ID := Option_ID opt;
                       OptionDTO_Text := Option_Text opt |}) (Options q) in
  let timeLimit := TimeLimit q in
  let timeLimit := if timeLimit <=? 0 then 30 else timeLimit in
  {| DTO_ID := Question_ID q;
     DTO_Text := Text q;
     DTO_Options := optionDTOs;
     DTO_TimeLimit := timeLimit;
     DTO_CorrectAnswer := if isHost then CorrectAnswer q else "" |}.

(** The encoded question carries the [correct_answer] key. *)
Definition has_correct_answer_marker (d : QuestionDTO) : bool :=
  negb (String.eqb (DTO_CorrectAnswer d) "").

End models.

(** ** Outcomes and the state monad of the model *)

(** A Go function either returns, with a result and the state it leaves, or
    panics, in the state reached at the panic.  Go's [error] results are
    ordinary values ([error], [result]) inside [Ok]. *)
Inductive outcome (S A : Type) : Type :=
| Ok (r : A * S)
| Panic (reason : string) (s : S).
Arguments Ok {S A} r.
Arguments Panic {S A} reason s.

Definition M (S A : Type) : Type := S -> outcome S A.

Definition ret {S A} (a : A) : M S A := fun s => Ok (a, s).

Definition bind {S A B} (m : M S A) (k : A -> M S B) : M S B :=
  fun s => match m s with
           | Ok (a, s') => k a s'
           | Panic r s1 => Panic r s1
           end.

Definition get {S} : M S S := fun s => Ok (s, s).
Definition modify {S} (f : S -> S) : M S unit := fun s => Ok (tt, f s).
Definition panic {S A} (reason : string) : M S A := fun s => Panic reason s.

Notation "'let*' x ':=' m 'in' k" := (bind m (fun x => k))
  (at level 10, x pattern, m at level 100, k at level 200).
Notation "m ';;' k" := (bind m (fun _ => k))
  (at level 100, k at level 200, right associativity).

(** [for _, x := range l { body x }] *)
Fixpoint forM_ {S A} (l : list A) (body : A -> M S unit) : M S unit :=
  match l with
  | [] => ret tt
  | x :: l' => body x ;; forM_ l' body
  end.

(** [error]: [None] is [nil]. *)
Definition error := option string.

(** A Go result pair [(v, err)]. *)
Inductive result (A : Type) : Type :=
| Val (v : A)
| Err (e : string).
Arguments Val {A} v.
Arguments Err {A} e.

(** ** pkg/websocket (hub.go) *)

Module websocket.

Definition uint := nat.

(** A [*Client]. *)
Definition ptr := nat.

Record UserInfo := {
  UserID : uint;
  Username : string;
  Email : string;
}.

(** The values stored in [Message.Data] (an [interface{}]): first what
    [json.Unmarshal] yields for an inbound message (a JSON number is a
    [float64]; the numbers of the protocol are identifiers and indices and
    are kept as integers), then the Go values the server puts into an
    outbound message.  A [map[string]interface{}] literal is the list of
    its entries. *)
Local Unset Elimination Schemes.
Inductive any : Type :=
| Nil
| Bool (b : bool)
| Float64 (z : Z)
| String_ (s : string)
| Slice (l : list any)
| Map (m : list (string * any))
| Int (z : Z)
| Uint (n : uint)
| QuestionDTO_ (q : models.QuestionDTO)
| UserInfos (l : list UserInfo)
| UserInfoPtr (u : option UserInfo)
| Leaderboard (l : option (list models.LeaderboardEntry))
| StringMap (m : list (string * string)).
Local Set Elimination Schemes.

(** [m[key]] on a decoded object: the zero value [Nil] when absent. *)
Fixpoint index (m : list (string * any)) (key : string) : any :=
  match m with
  | [] => Nil
  | (k, v) :: m' => if String.eqb k key then v else index m' key
  end.

(** The envelope.  The bytes [json.Marshal] produces for an outbound
    message are identified with the message. *)
Record Message := {
  Type_ : string;
  Data : any;
}.

(** The goroutines started with [go]. *)
Inductive Task : Type :=
| GoBroadcastMessage (quizCode messageType : string) (data : any)
| GoSendParticipantList (quizCode : string)
| GoRemoveParticipantFromDB (quizCode : string) (userID : uint)
| GoHandleNextQuestionForUser (userID : uint) (quizCode : string) (nextIndex : Z).

(** [send] is [make(chan []byte, 256)], [done] is [make(chan struct{})];
    the transport handle [conn] is not part of the model. *)
Record Client := {
  send : list Message;
  send_closed : bool;
  quizCode : string;
  user : option UserInfo;
  isHost : bool;
  done_closed : bool;
}.

Definition send_capacity : nat := 256.

Record Hub := {
  clients : gset ptr;
  quizRooms : gmap string (gset ptr);
  participants : gmap string Z;
  clientsByUser : gmap uint ptr;
  hosts : gmap uint ptr;
  (** the [Client] structs the addresses point to *)
  heap : gmap ptr Client;
  (** goroutines started and not yet run, oldest first *)
  goroutines : list Task;
}.

Definition NewHub : Hub :=
  {| clients := ∅; quizRooms := ∅; participants := ∅;
     clientsByUser := ∅; hosts := ∅; heap := ∅; goroutines := [] |}.

(** An address that [NewClient] never returned holds no usable channel. *)
Definition zero_Client : Client :=
  {| send := []; send_closed := true; quizCode := ""; user := None;
     isHost := false; done_closed := true |}.

Definition deref (h : Hub) (c : ptr) : Client :=
  default zero_Client (heap h !! c).

(** Field updates. *)
Definition set_clients (f : gset ptr -> gset ptr) (h : Hub) : Hub :=
  {| clients := f (clients h); quizRooms := quizRooms h;
     participants := participants h; clientsByUser := clientsByUser h;
     hosts := hosts h; heap := heap h; goroutines := goroutines h |}.
Definition set_quizRooms
    (f : gmap string (gset ptr) -> gmap string (gset ptr)) (h : Hub) : Hub :=
  {| clients := clients h; quizRooms := f (quizRooms h);
     participants := participants h; clientsByUser := clientsByUser h;
     hosts := hosts h; heap := heap h; goroutines := goroutines h |}.
Definition set_participants
    (f : gmap string Z -> gmap string Z) (h : Hub) : Hub :=
  {| clients := clients h; quizRooms := quizRooms h;
     participants := f (participants h); clientsByUser := clientsByUser h;
     hosts := hosts h; heap := heap h; goroutines := goroutines h |}.
Definition set_clientsByUser
    (f : gmap uint ptr -> gmap uint ptr) (h : Hub) : Hub :=
  {| clients := clients h; quizRooms := quizRooms h;
     participants := participants h; clientsByUser := f (clientsByUser h);
     hosts := hosts h; heap := heap h; goroutines := goroutines h |}.
Definition set_hosts (f : gmap uint ptr -> gmap uint ptr) (h : Hub) : Hub :=
  {| clients := clients h; quizRooms := quizRooms h;
     participants := participants h; clientsByUser := clientsByUser h;
     hosts := f (hosts h); heap := heap h; goroutines := goroutines h |}.
Definition set_heap (f : gmap ptr Client -> gmap ptr Client) (h : Hub) : Hub :=
  {| clients := clients h; quizRooms := quizRooms h;
     participants := participants h; clientsByUser := clientsByUser h;
     hosts := hosts h; heap := f (heap h); goroutines := goroutines h |}.
Definition set_goroutines (f : list Task -> list Task) (h : Hub) : Hub :=
  {| clients := clients h; quizRooms := quizRooms h;
     participants := participants h; clientsByUser := clientsByUser h;
     hosts := hosts h; heap := heap h; goroutines := f (goroutines h) |}.

Definition set_send (f : list Message -> list Message) (cl : Client) : Client :=
  {| send := f (send cl); send_closed := send_closed cl;
     quizCode := quizCode cl; user := user cl; isHost := isHost cl;
     done_closed := done_closed cl |}.
Definition set_closed (cl : Client) : Client :=
  {| send := send cl; send_closed := true;
     quizCode := quizCode cl; user := user cl; isHost := isHost cl;
     done_closed := true |}.
Definition set_user (u : option UserInfo) (host : bool) (cl : Client) : Client :=
  {| send := send cl; send_closed := send_closed cl;
     quizCode := quizCode cl; user := u; isHost := host;
     done_closed := done_closed cl |}.

(** [go f(...)] *)
Definition go (t : Task) : M Hub unit :=
  modify (set_goroutines (fun g => g ++ [t])).

(** [NewClient]: the fresh address [c] with open, empty channels. *)
Definition NewClient (c : ptr) (quizCode : string) : M Hub ptr :=
  modify (set_heap <[c := {| send := []; send_closed := false;
                            quizCode := quizCode; user := None;
                            isHost := false; done_closed := false |}]>) ;;
  ret c.

(** *** Channel operations *)

Inductive send_result := Queued | Full | SendOnClosed.

(** [select { case c.send <- message: ...; default: ... }]: the send
    never blocks; it panics on a closed channel. *)
Definition try_send (c : ptr) (message : Message) : M Hub send_result :=
  fun h =>
    let cl := deref h c in
    if send_closed cl then Ok (SendOnClosed, h)
    else if decide (length (send cl) < send_capacity)%nat then
      Ok (Queued, set_heap <[c := set_send (fun q => q ++ [message]) cl]> h)
    else Ok (Full, h).

(** [close(client.send); close(client.done)] *)
Definition close_channels (c : ptr) : M Hub unit :=
  fun h =>
    let cl := deref h c in
    if send_closed cl then Panic "close of closed channel" h
    else if done_closed cl then Panic "close of closed channel" h
    else Ok (tt, set_heap <[c := set_closed cl]> h).

(** *** Hub.Run: the loop that serves the [register] and [unregister]
    channels; one iteration per received client. *)

Definition count_payload (count : Z) : any := Map [("count", Int count)].

Definition Run_register (client : ptr) : M Hub unit :=
  modify (set_clients (fun s => s ∪ {[client]})) ;;
  let* h := get in
  let code := quizCode (deref h client) in
  if negb (String.eqb code "") then
    (match quizRooms h !! code with
     | None => modify (set_quizRooms <[code := ∅]>)
     | Some _ => ret tt
     end) ;;
    modify (set_quizRooms (fun r =>
              <[code := default ∅ (r !! code) ∪ {[client]}]> r)) ;;
    modify (set_participants (fun p =>
              <[code := GoInt.add (default 0 (p !! code)) 1]> p)) ;;
    let* h := get in
    let count := default 0 (participants h !! code) in
    go (GoBroadcastMessage code "participant_update" (count_payload count))
  else ret tt.

Definition Run_unregister (client : ptr) : M Hub unit :=
  let* h := get in
  if decide (client ∈ clients h) then
    let code := quizCode (deref h client) in
    (if negb (String.eqb code "") then
       match quizRooms h !! code with
       | Some room =>
           modify (set_quizRooms <[code := room ∖ {[client]}]>) ;;
           modify (set_participants (fun p =>
                     <[code := GoInt.sub (default 0 (p !! code)) 1]> p)) ;;
           let* h := get in
           let count := default 0 (participants h !! code) in
           go (GoBroadcastMessage code "participant_update"
                 (count_payload count))
       | None => ret tt
       end
     else ret tt) ;;
    modify (set_clients (fun s => s ∖ {[client]})) ;;
    close_channels client
  else ret tt.

Inductive RunEvent := register (client : ptr) | unregister (client : ptr).

Definition Run_step (e : RunEvent) : M Hub unit :=
  match e with
  | register client => Run_register client
  | unregister client => Run_unregister client
  end.

(** *** Broadcast and targeted send *)

(** The body of the loop of [BroadcastToQuiz]; [h.unregister <- c] hands
    [c] to [Hub.Run].  A send on a closed channel panics, and the deferred
    [recover] hands [c] to [Hub.Run] as well. *)
Definition send_or_unregister (message : Message) (c : ptr) : M Hub unit :=
  let* r := try_send c message in
  match r with
  | Queued => ret tt
  | Full => Run_unregister c
  | SendOnClosed => Run_unregister c
  end.

Definition BroadcastToQuiz (quizCode : string) (message : Message) : M Hub unit :=
  let* h := get in
  let clients := default ∅ (quizRooms h !! quizCode) in
  if decide (size clients = 0%nat) then ret tt
  else
    let clientsCopy := elements clients in
    forM_ clientsCopy (send_or_unregister message).

Definition BroadcastMessage (quizCode messageType : string) (data : any)
  : M Hub unit :=
  BroadcastToQuiz quizCode {| Type_ := messageType; Data := data |}.

Definition SendMessageToUser (userID : uint) (messageType : string) (data : any)
  : M Hub unit :=
  let* h := get in
  match clientsByUser h !! userID with
  | None => ret tt
  | Some client =>
      let* r := try_send client {| Type_ := messageType; Data := data |} in
      match r with
      | Queued => ret tt
      | Full => Run_unregister client
      | SendOnClosed => panic "send on closed channel"
      end
  end.

(** *** Membership *)

(** The users of the room's clients that have announced themselves, split
    by the [isHost] flag, in the order the room is ranged over. *)
Definition room_participants (h : Hub) (room : list ptr) : list UserInfo :=
  omap (fun c => let cl := deref h c in
                 if isHost cl then None else user cl) room.
Definition room_hosts (h : Hub) (room : list ptr) : list UserInfo :=
  omap (fun c => let cl := deref h c in
                 if isHost cl then user cl else None) room.

Definition list_payload (ps : list UserInfo) (count : Z) (host : option UserInfo)
  : any :=
  Map [("participants", UserInfos ps); ("count", Int count);
       ("host", UserInfoPtr host)].

(** The test of the counting loop of [RegisterClient]: the user is known
    and is not a key of [h.hosts]. *)
Definition counted (h : Hub) (c : ptr) : bool :=
  match user (deref h c) with
  | Some u => bool_decide (hosts h !! UserID u = None)
  | None => false
  end.

Definition RegisterClient (client : ptr) (quizCode : string) : M Hub unit :=
  let* h := get in
  (match quizRooms h !! quizCode with
   | None => modify (set_quizRooms <[quizCode := ∅]>)
   | Some _ => ret tt
   end) ;;
  modify (set_quizRooms (fun r =>
            <[quizCode := default ∅ (r !! quizCode) ∪ {[client]}]> r)) ;;
  modify (set_clients (fun s => s ∪ {[client]})) ;;
  let* h := get in
  let room := elements (default ∅ (quizRooms h !! quizCode)) in
  let count := Z.of_nat (length (filter (fun c => counted h c) room)) in
  modify (set_participants <[quizCode := count]>) ;;
  go (GoBroadcastMessage quizCode "participant_update" (count_payload count)) ;;
  go (GoSendParticipantList quizCode).

Definition UnregisterClient (client : ptr) : M Hub unit :=
  let* h := get in
  let cl := deref h client in
  let quizCode := quizCode cl in
  match quizRooms h !! quizCode with
  | Some room =>
      let room := room ∖ {[client]} in
      modify (set_quizRooms <[quizCode := room]>) ;;
      modify (set_clients (fun s => s ∖ {[client]})) ;;
      (match user cl with
       | Some u =>
           modify (set_clientsByUser (delete (UserID u))) ;;
           modify (set_hosts (delete (UserID u)))
       | None => ret tt
       end) ;;
      let* h := get in
      let participants := room_participants h (elements room) in
      let count := Z.of_nat (length participants) in
      let hostInfo := last (room_hosts h (elements room)) in
      modify (set_participants <[quizCode := count]>) ;;
      (match user cl with
       | Some u =>
           if negb (isHost cl)
           then go (GoRemoveParticipantFromDB quizCode (UserID u))
           else ret tt
       | None => ret tt
       end) ;;
      close_channels client ;;
      BroadcastMessage quizCode "participant_list"
        (list_payload participants count hostInfo) ;;
      BroadcastMessage quizCode "participant_update" (count_payload count)
  | None => ret tt
  end.

Definition SendParticipantList (quizCode : string) : M Hub unit :=
  let* h := get in
  match quizRooms h !! quizCode with
  | None => ret tt
  | Some room =>
      let participants := room_participants h (elements room) in
      let hostInfo := last (room_hosts h (elements room)) in
      let count := Z.of_nat (length participants) in
      BroadcastMessage quizCode "participant_list"
        (list_payload participants count hostInfo) ;;
      BroadcastMessage quizCode "participant_update" (count_payload count)
  end.

End websocket.

(** ** pkg/cache (redis.go) and the relational store *)

Module store.
Import models.

(** The tables the repository reads and writes, each in primary-key
    order. *)
Record DB := {
  users : list User;
  quizzes : list Quiz;
  questions : list Question;
  user_quiz_responses : list UserQuizResponse;
  user_quiz_progress : list UserQuizProgress;
  quiz_participants : list QuizParticipant;
}.

(** The keys ["quiz:" + code] and the sorted sets ["leaderboard:" + code]. *)
Record RedisCache := {
  quiz_keys : gmap string Quiz;
  leaderboard_keys : gmap string (gmap string Z);
}.

Record World := {
  db : DB;
  cache : RedisCache;
  wsHub : websocket.Hub;
  (** the outcome of the coming calls to the store and to the cache:
      [true] is a failed call; every call succeeds once the list is used
      up *)
  faults : list bool;
}.

Definition set_db (f : DB -> DB) (w : World) : World :=
  {| db := f (db w); cache := cache w; wsHub := wsHub w; faults := faults w |}.
Definition set_cache (f : RedisCache -> RedisCache) (w : World) : World :=
  {| db := db w; cache := f (cache w); wsHub := wsHub w; faults := faults w |}.
Definition set_wsHub (f : websocket.Hub -> websocket.Hub) (w : World) : World :=
  {| db := db w; cache := cache w; wsHub := f (wsHub w); faults := faults w |}.
Definition set_faults (f : list bool -> list bool) (w : World) : World :=
  {| db := db w; cache := cache w; wsHub := wsHub w; faults := f (faults w) |}.

Definition set_quizzes (f : list Quiz -> list Quiz) (d : DB) : DB :=
  {| users := users d; quizzes := f (quizzes d); questions := questions d;
     user_quiz_responses := user_quiz_responses d;
     user_quiz_progress := user_quiz_progress d;
     quiz_participants := quiz_participants d |}.
Definition set_responses
    (f : list UserQuizResponse -> list UserQuizResponse) (d : DB) : DB :=
  {| users := users d; quizzes := quizzes d; questions := questions d;
     user_quiz_responses := f (user_quiz_responses d);
     user_quiz_progress := user_quiz_progress d;
     quiz_participants := quiz_participants d |}.
Definition set_progress
    (f : list UserQuizProgress -> list UserQuizProgress) (d : DB) : DB :=
  {| users := users d; quizzes := quizzes d; questions := questions d;
     user_quiz_responses := user_quiz_responses d;
     user_quiz_progress := f (user_quiz_progress d);
     quiz_participants := quiz_participants d |}.
Definition set_quiz_participants
    (f : list QuizParticipant -> list QuizParticipant) (d : DB) : DB :=
  {| users := users d; quizzes := quizzes d; questions := questions d;
     user_quiz_responses := user_quiz_responses d;
     user_quiz_progress := user_quiz_progress d;
     quiz_participants := f (quiz_participants d) |}.

Definition set_quiz_keys
    (f : gmap string Quiz -> gmap string Quiz) (c : RedisCache) : RedisCache :=
  {| quiz_keys := f (quiz_keys c); leaderboard_keys := leaderboard_keys c |}.
Definition set_leaderboard_keys
    (f : gmap string (gmap string Z) -> gmap string (gmap string Z))
    (c : RedisCache) : RedisCache :=
  {| quiz_keys := quiz_keys c; leaderboard_keys := f (leaderboard_keys c) |}.

(** Run a hub operation on the hub of the world. *)
Definition liftHub {A} (m : M websocket.Hub A) : M World A :=
  fun w => match m (wsHub w) with
           | Ok (a, h) => Ok (a, set_wsHub (fun _ => h) w)
           | Panic r h => Panic r (set_wsHub (fun _ => h) w)
           end.

(** One call to an external service: does it fail? *)
Definition external_call : M World bool :=
  fun w => match faults w with
           | [] => Ok (false, w)
           | b :: fs => Ok (b, set_faults (fun _ => fs) w)
           end.

Definition ErrRecordNotFound : string := "record not found".
Definition ErrStore : string := "store unavailable".
Definition ErrRedisNil : string := "redis: nil".

(** A query: fails as a whole when the call fails. *)
Definition query {A} (f : DB -> result A) : M World (result A) :=
  let* failed := external_call in
  if failed : bool then ret (Err ErrStore)
  else let* w := get in ret (f (db w)).

(** A statement: changes the tables unless the call fails. *)
Definition exec (f : DB -> DB) : M World error :=
  let* failed := external_call in
  if failed : bool then ret (Some ErrStore)
  else modify (set_db f) ;; ret None.

(** [First]: the first row in primary-key order. *)
Definition First {A} (rows : list A) : result A :=
  match rows with
  | [] => Err ErrRecordNotFound
  | r :: _ => Val r
  end.

(** *** cache *)

Definition cache_GetQuiz (code : string) : M World (result Quiz) :=
  let* failed := external_call in
  if failed : bool then ret (Err ErrStore)
  else
    let* w := get in
    match quiz_keys (cache w) !! code with
    | Some quiz => ret (Val quiz)
    | None => ret (Err ErrRedisNil)
    end.

Definition cache_SetQuiz (quiz : Quiz) : M World error :=
  let* failed := external_call in
  if failed : bool then ret (Some ErrStore)
  else modify (set_cache (set_quiz_keys <[QuizCode quiz := quiz]>)) ;; ret None.

(** [Del] of the key, then a pipeline of one [ZAdd] per score. *)
Definition cache_SetLeaderboard (quizCode : string) (scores : gmap string Z)
  : M World error :=
  let* failed := external_call in
  if failed : bool then ret (Some ErrStore)
  else
    modify (set_cache (set_leaderboard_keys (delete quizCode))) ;;
    let* failed := external_call in
    if failed : bool then ret (Some ErrStore)
    else
      (if decide (scores = ∅) then ret tt
       else modify (set_cache (set_leaderboard_keys <[quizCode := scores]>))) ;;
      ret None.

(** [ORDER BY total_score DESC]; rows of equal score keep the order they
    are produced in. *)
Definition by_score_desc (a b : LeaderboardEntry) : Prop :=
  TotalScore b <= TotalScore a.

#[export] Instance by_score_desc_dec a b : Decision (by_score_desc a b).
Proof. unfold by_score_desc. apply _. Defined.

(** The reverse of the order of a sorted set: by descending score, members
    of equal score by descending byte order. *)
Definition zrev_order (a b : LeaderboardEntry) : Prop :=
  TotalScore b < TotalScore a
  \/ (TotalScore b = TotalScore a /\ String.leb (Username b) (Username a) = true).

#[export] Instance zrev_order_dec a b : Decision (zrev_order a b).
Proof. unfold zrev_order. apply _. Defined.

(** [ZRevRangeWithScores key 0 -1]; the scores are the integers that were
    stored. *)
Definition cache_GetLeaderboard (quizCode : string)
  : M World (result (list LeaderboardEntry)) :=
  let* failed := external_call in
  if failed : bool then ret (Err ErrStore)
  else
    let* w := get in
    let zset := default ∅ (leaderboard_keys (cache w) !! quizCode) in
    ret (Val (merge_sort zrev_order
                (map (fun '(member, score) =>
                        {| Username := member; TotalScore := score |})
                     (map_to_list zset)))).

Definition cache_RemoveUserQuizData (quizCode : string) (userID : uint)
  : M World error :=
  let* failed := external_call in
  if failed : bool then ret (Some ErrStore) else ret None.

End store.

(** ** internal/quiz *)

Module quiz.
Import models store.

(** *** repository.go *)

Module Repository.

Definition is_progress_of (userID quizID : uint) (p : UserQuizProgress) : bool :=
  bool_decide (Progress_UserID p = userID) && bool_decide (Progress_QuizID p = quizID).

(** The next value of the primary-key sequence of the progress table. *)
Definition next_progress_id (rows : list UserQuizProgress) : uint :=
  S (foldr Nat.max 0%nat (map Progress_ID rows)).

(** [db.Create(&progress)] *)
Definition Create_progress (userID quizID : uint) (nextIndex : Z) (d : DB) : DB :=
  set_progress (fun rows =>
    rows ++ [{| Progress_ID := next_progress_id rows;
                Progress_UserID := userID; Progress_QuizID := quizID;
                NextIndex := nextIndex |}]) d.

(** [db.Save(&progress)]: update the row of that primary key, insert
    when there is none. *)
Definition Save_progress (p : UserQuizProgress) (d : DB) : DB :=
  set_progress (fun rows =>
    if existsb (fun r => bool_decide (Progress_ID r = Progress_ID p)) rows
    then map (fun r => if bool_decide (Progress_ID r = Progress_ID p)
                       then p else r) rows
    else rows ++ [p]) d.

Definition Save_quiz (q : Quiz) (d : DB) : DB :=
  set_quizzes (fun rows =>
    if existsb (fun r => bool_decide (Quiz_ID r = Quiz_ID q)) rows
    then map (fun r => if bool_decide (Quiz_ID r = Quiz_ID q) then q else r) rows
    else rows ++ [q]) d.

Definition UpdateQuiz (quiz : Quiz) : M World error :=
  exec (Save_quiz quiz).

Definition GetUserQuestionIndex (userID quizID : uint) : M World (result Z) :=
  let* r := query (fun d =>
              First (List.filter (is_progress_of userID quizID)
                                 (user_quiz_progress d))) in
  match r with
  | Err err =>
      if String.eqb err ErrRecordNotFound then
        let* createErr := exec (Create_progress userID quizID 0) in
        match createErr with
        | Some e => ret (Err e)
        | None => ret (Val 0)
        end
      else ret (Err err)
  | Val progress => ret (Val (NextIndex progress))
  end.

Definition UpdateUserQuestionIndex (userID quizID : uint) (newIndex : Z)
  : M World error :=
  let* r := query (fun d =>
              First (List.filter (is_progress_of userID quizID)
                                 (user_quiz_progress d))) in
  match r with
  | Err err => ret (Some err)
  | Val progress =>
      exec (Save_progress {| Progress_ID := Progress_ID progress;
                             Progress_UserID := Progress_UserID progress;
                             Progress_QuizID := Progress_QuizID progress;
                             NextIndex := newIndex |})
  end.

(** [Preload("Options", "deleted_at IS NULL")] *)
Definition preload_options (q : Question) : Question :=
  {| Question_ID := Question_ID q; Question_Deleted := Question_Deleted q;
     Question_QuizID := Question_QuizID q; Text := Text q;
     Options := List.filter (fun o => negb (Option_Deleted o)) (Options q);
     CorrectAnswer := CorrectAnswer q; TimeLimit := TimeLimit q |}.

Definition quiz_questions (d : DB) (quizID : uint) : list Question :=
  map preload_options
    (List.filter (fun q => bool_decide (Question_QuizID q = quizID)
                           && negb (Question_Deleted q))
       (questions d)).

Definition GetQuizQuestions (quizID : uint) : M World (result (list Question)) :=
  query (fun d => Val (quiz_questions d quizID)).

Definition GetQuizByCode (code : string) : M World (result Quiz) :=
  query (fun d =>
    First (List.filter (fun q => String.eqb (QuizCode q) code
                                 && negb (Quiz_Deleted q)) (quizzes d))).

Definition GetQuizByID (quizID : uint) : M World (result Quiz) :=
  query (fun d =>
    First (List.filter (fun q => bool_decide (Quiz_ID q = quizID)
                                 && negb (Quiz_Deleted q)) (quizzes d))).

Definition GetQuestion (questionID : uint) : M World (result Question) :=
  query (fun d =>
    match First (List.filter (fun q => bool_decide (Question_ID q = questionID)
                                       && negb (Question_Deleted q))
                   (questions d)) with
    | Val q => Val (preload_options q)
    | Err e => Err e
    end).

Definition SaveResponse (response : UserQuizResponse) : M World error :=
  exec (set_responses (fun rows => rows ++ [response])).

Definition AddParticipant (quizID userID : uint) : M World error :=
  exec (set_quiz_participants (fun rows =>
          rows ++ [{| Participant_Deleted := false;
                      Participant_QuizID := quizID;
                      Participant_UserID := userID |}])).

(** [Delete] on a model with a [DeletedAt] column marks the rows. *)
Definition RemoveParticipant (quizID userID : uint) : M World error :=
  exec (set_quiz_participants
          (map (fun r =>
             if bool_decide (Participant_QuizID r = quizID)
                && bool_decide (Participant_UserID r = userID)
             then {| Participant_Deleted := true;
                     Participant_QuizID := Participant_QuizID r;
                     Participant_UserID := Participant_UserID r |}
             else r))).

Definition delete_response (r : UserQuizResponse) : UserQuizResponse :=
  {| Response_Deleted := true; Response_UserID := Response_UserID r;
     Response_QuizID := Response_QuizID r; QuestionID := QuestionID r;
     Answer := Answer r; Score := Score r; TimeSpent := TimeSpent r |}.

Definition ClearUserProgress (quizID userID : uint) : M World error :=
  exec (set_responses
          (map (fun r =>
             if bool_decide (Response_QuizID r = quizID)
                && bool_decide (Response_UserID r = userID)
             then delete_response r else r))).

(** The live responses of a quiz. *)
Definition quiz_responses (d : DB) (quizID : uint) : list UserQuizResponse :=
  List.filter (fun r => bool_decide (Response_QuizID r = quizID)
                        && negb (Response_Deleted r))
    (user_quiz_responses d).

(** The rows of [users JOIN user_quiz_responses] for a quiz. *)
Definition joined_scores (d : DB) (quizID : uint) : list (string * Z) :=
  flat_map (fun r =>
    map (fun u => (User_Username u, Score r))
        (List.filter (fun u => bool_decide (User_ID u = Response_UserID r))
                     (users d)))
    (quiz_responses d quizID).

Definition sum_for (name : string) (rows : list (string * Z)) : Z :=
  foldr Z.add 0
    (map snd (List.filter (fun row => String.eqb (fst row) name) rows)).

(** [GROUP BY u.username ORDER BY total_score DESC] *)
Definition leaderboard_rows (d : DB) (quizID : uint) : list LeaderboardEntry :=
  let rows := joined_scores d quizID in
  merge_sort by_score_desc
    (map (fun name => {| Username := name; TotalScore := sum_for name rows |})
         (remove_dups (map fst rows))).

Definition GetLeaderboard (quizID : uint)
  : M World (result (list LeaderboardEntry)) :=
  query (fun d => Val (leaderboard_rows d quizID)).

(** [COUNT(DISTINCT user_id)] over the live responses of the quiz. *)
Definition unique_participants (d : DB) (quizID : uint) : Z :=
  Z.of_nat (length (remove_dups (map Response_UserID (quiz_responses d quizID)))).

Definition GetUniqueParticipantsForQuiz (quizID : uint) : M World (result Z) :=
  query (fun d => Val (unique_participants d quizID)).

Definition IsUserHost (quizID userID : uint) : M World (result bool) :=
  query (fun d =>
    match First (List.filter (fun q => bool_decide (Quiz_ID q = quizID)
                                       && negb (Quiz_Deleted q))
                   (quizzes d)) with
    | Val quiz => Val (bool_decide (CreatorID quiz = userID))
    | Err e => Err e
    end).

(** [COUNT] of the progress rows of the quiz with
    [next_index >= totalQuestions]. *)
Definition finished_players (d : DB) (quizID : uint) (totalQuestions : Z) : Z :=
  Z.of_nat (length
    (List.filter (fun p => bool_decide (Progress_QuizID p = quizID)
                           && (totalQuestions <=? NextIndex p))
       (user_quiz_progress d))).

Definition GetFinishedPlayersCount (quizID : uint) (totalQuestions : Z)
  : M World (result Z) :=
  query (fun d => Val (finished_players d quizID totalQuestions)).

Definition reset_progress (quizID : uint) (p : UserQuizProgress)
  : UserQuizProgress :=
  if bool_decide (Progress_QuizID p = quizID)
  then {| Progress_ID := Progress_ID p; Progress_UserID := Progress_UserID p;
          Progress_QuizID := Progress_QuizID p; NextIndex := 0 |}
  else p.

Definition ResetQuizProgress (quizID : uint) : M World error :=
  exec (set_progress (map (reset_progress quizID))).

End Repository.

(** *** service.go *)

Module Service.
Import websocket.

(** [len(questions)] *)
Definition len {A} (l : list A) : Z := Z.of_nat (length l).

(** [questions[i]]: a run-time panic outside the slice. *)
Definition at_index {S A} (l : list A) (i : Z) : M S A :=
  if i <? 0 then panic "index out of range"
  else match l !! Z.to_nat i with
       | Some x => ret x
       | None => panic "index out of range"
       end.

Definition question_payload (dto : QuestionDTO) (index total : Z) (quizID : uint)
  : any :=
  Map [("question", QuestionDTO_ dto); ("index", Int index);
       ("total", Int total); ("quizId", Uint quizID)].

Definition set_active (quiz : Quiz) : Quiz :=
  {| Quiz_ID := Quiz_ID quiz; Quiz_Deleted := Quiz_Deleted quiz;
     Title := Title quiz; Description := Description quiz;
     CreatorID := CreatorID quiz; Quiz_TimeLimit := Quiz_TimeLimit quiz;
     QuizCode := QuizCode quiz; IsActive := true |}.

Definition GetQuizByCode (code : string) : M World (result Quiz) :=
  let* r := cache_GetQuiz code in
  match r with
  | Val quiz => ret (Val quiz)
  | Err _ =>
      let* r := Repository.GetQuizByCode code in
      match r with
      | Err err => ret (Err err)
      | Val quiz => cache_SetQuiz quiz ;; ret (Val quiz)
      end
  end.

Definition GetLeaderboard (quizCode : string)
  : M World (result (list LeaderboardEntry)) :=
  let* r := GetQuizByCode quizCode in
  match r with
  | Err err => ret (Err err)
  | Val quiz => Repository.GetLeaderboard (Quiz_ID quiz)
  end.

Definition StartQuiz (quizCode : string) (userID : uint) : M World error :=
  let* r := GetQuizByCode quizCode in
  match r with
  | Err err => ret (Some err)
  | Val quiz =>
      let* err := Repository.ResetQuizProgress (Quiz_ID quiz) in
      match err with
      | Some err => ret (Some err)
      | None =>
          let* r := Repository.GetQuizQuestions (Quiz_ID quiz) in
          match r with
          | Err err => ret (Some err)
          | Val questions =>
              match questions with
              | [] => ret (Some "no questions found for quiz")
              | question0 :: _ =>
                  let quiz := set_active quiz in
                  let* err := Repository.UpdateQuiz quiz in
                  match err with
                  | Some err => ret (Some err)
                  | None =>
                      let firstQuestionDTO := ToDTO question0 true in
                      let messageData :=
                        question_payload firstQuestionDTO 0 (len questions)
                          (Quiz_ID quiz) in
                      liftHub (BroadcastMessage quizCode "question" messageData) ;;
                      ret None
                  end
              end
          end
      end
  end.

Definition RemoveParticipant (quizCode : string) (userID : uint) : M World error :=
  let* r := GetQuizByCode quizCode in
  match r with
  | Err err => ret (Some err)
  | Val quiz =>
      if bool_decide (CreatorID quiz = userID) then ret None
      else
        let* err := Repository.RemoveParticipant (Quiz_ID quiz) userID in
        match err with
        | Some err => ret (Some err)
        | None =>
            Repository.ClearUserProgress (Quiz_ID quiz) userID ;;
            cache_RemoveUserQuizData quizCode userID ;;
            liftHub (SendParticipantList quizCode) ;;
            ret None
        end
  end.

Definition HandleNextQuestion (quizCode : string) (currentIndex : Z)
  : M World error :=
  let* r := GetQuizByCode quizCode in
  match r with
  | Err err => ret (Some err)
  | Val quiz =>
      let* r := Repository.GetQuizQuestions (Quiz_ID quiz) in
      match r with
      | Err err => ret (Some err)
      | Val questions =>
          let nextIndex := GoInt.add currentIndex 1 in
          if len questions <=? nextIndex then
            liftHub (BroadcastMessage quizCode "quiz_end" Nil) ;;
            ret None
          else
            let* nextQuestion := at_index questions nextIndex in
            let nextQuestionDTO := ToDTO nextQuestion true in
            let messageData :=
              question_payload nextQuestionDTO nextIndex (len questions)
                (Quiz_ID quiz) in
            liftHub (BroadcastMessage quizCode "question" messageData) ;;
            ret None
      end
  end.

Definition JoinQuiz (quizCode : string) (userID : uint) : M World error :=
  let* r := GetQuizByCode quizCode in
  match r with
  | Err err => ret (Some err)
  | Val quiz =>
      if bool_decide (userID = CreatorID quiz) then ret None
      else
        let* err := Repository.AddParticipant (Quiz_ID quiz) userID in
        match err with
        | Some err => ret (Some err)
        | None => liftHub (SendParticipantList quizCode) ;; ret None
        end
  end.

Definition calculateScore (answer correctAnswer : string) (timeSpent : Z) : Z :=
  if negb (String.eqb answer correctAnswer) then 0
  else
    let score := 1000 in
    let timeDeduction := GoInt.mul timeSpent 10 in
    let score := GoInt.sub score timeDeduction in
    if score <? 0 then 0 else score.

Definition set_score (score : Z) (r : UserQuizResponse) : UserQuizResponse :=
  {| Response_Deleted := Response_Deleted r; Response_UserID := Response_UserID r;
     Response_QuizID := Response_QuizID r; QuestionID := QuestionID r;
     Answer := Answer r; Score := score; TimeSpent := TimeSpent r |}.

(** The follow-up [HandleNextQuestionForUser] is started as a goroutine:
    it is the last entry of the hub's [goroutines] on return. *)
Definition ProcessAnswer (response : UserQuizResponse) : M World (Z * error) :=
  let* r := Repository.GetQuizByID (Response_QuizID response) in
  match r with
  | Err err => ret (0, Some err)
  | Val quiz =>
      if bool_decide (Response_UserID response = CreatorID quiz) then ret (0, None)
      else
        let* r := Repository.GetQuestion (QuestionID response) in
        match r with
        | Err err => ret (0, Some err)
        | Val question =>
            let score := calculateScore (Answer response) (CorrectAnswer question)
                           (TimeSpent response) in
            let response := set_score score response in
            let* err := Repository.SaveResponse response in
            match err with
            | Some err => ret (0, Some err)
            | None =>
                let* r := Repository.GetUserQuestionIndex
                            (Response_UserID response) (Quiz_ID quiz) in
                let currentIndex := match r with
                                    | Val currentIndex => currentIndex
                                    | Err _ => 0
                                    end in
                let newIndex := GoInt.add currentIndex 1 in
                Repository.UpdateUserQuestionIndex
                  (Response_UserID response) (Quiz_ID quiz) newIndex ;;
                liftHub (go (GoHandleNextQuestionForUser
                               (Response_UserID response) (QuizCode quiz) newIndex)) ;;
                ret (score, None)
            end
        end
  end.

Definition updateLeaderboard (quizID : uint) : M World error :=
  let* r := Repository.GetLeaderboard quizID in
  match r with
  | Err err => ret (Some err)
  | Val entries =>
      let* r := Repository.GetQuizByID quizID in
      match r with
      | Err err => ret (Some err)
      | Val quiz =>
          let scores :=
            foldl (fun (m : gmap string Z) entry =>
                     <[models.Username entry := TotalScore entry]> m) ∅ entries in
          cache_SetLeaderboard (QuizCode quiz) scores
      end
  end.

Definition wait_notice : any :=
  StringMap [("message",
    "You have finished the quiz. Please wait for other players to finish.")].

Definition HandleNextQuestionForUser
    (userID : uint) (quizCode : string) (nextIndex : Z) : M World error :=
  let* r := GetQuizByCode quizCode in
  match r with
  | Err err => ret (Some err)
  | Val quiz =>
      let* r := Repository.GetQuizQuestions (Quiz_ID quiz) in
      match r with
      | Err err => ret (Some err)
      | Val questions =>
          let totalQuestions := len questions in
          let* r := Repository.IsUserHost (Quiz_ID quiz) userID in
          let isHost := match r with Val isHost => isHost | Err _ => false end in
          if isHost : bool then ret None
          else if totalQuestions <=? nextIndex then
            let* r := Repository.GetFinishedPlayersCount (Quiz_ID quiz)
                        totalQuestions in
            match r with
            | Err err => ret (Some err)
            | Val finishedCount =>
                let* r := Repository.GetUniqueParticipantsForQuiz (Quiz_ID quiz) in
                match r with
                | Err err => ret (Some err)
                | Val totalParticipants =>
                    (if totalParticipants <=? finishedCount then
                       updateLeaderboard (Quiz_ID quiz) ;;
                       let* r := cache_GetLeaderboard (QuizCode quiz) in
                       let leaderboard := match r with
                                          | Val entries => Some entries
                                          | Err _ => None
                                          end in
                       liftHub (BroadcastMessage quizCode "final_leaderboard"
                                  (Leaderboard leaderboard))
                     else
                       liftHub (SendMessageToUser userID "quiz_end_wait"
                                  wait_notice)) ;;
                    ret None
                end
            end
          else
            let* nextQuestion := at_index questions nextIndex in
            let messageData :=
              question_payload (ToDTO nextQuestion false) nextIndex
                totalQuestions (Quiz_ID quiz) in
            liftHub (SendMessageToUser userID "question" messageData) ;;
            ret None
      end
  end.

End Service.

End quiz.

(** ** pkg/websocket (hub.go): the inbound side of a connection.
    [Client.handleMessage] calls the quiz service through
    [QuizServiceInterface]; [main] installs the service of [quiz]. *)

Module Client.
Import models store websocket.

(** [v.(float64)] and [v.(string)] without the comma-ok form. *)
Definition assert_float64 {S} (v : any) : M S Z :=
  match v with
  | Float64 z => ret z
  | _ => panic "interface conversion: interface {} is not float64"
  end.

Definition assert_string {S} (v : any) : M S string :=
  match v with
  | String_ s => ret s
  | _ => panic "interface conversion: interface {} is not string"
  end.

Definition checkIfHost (quizCode : string) (userID : uint) : M World (result bool) :=
  let* r := quiz.Service.GetQuizByCode quizCode in
  match r with
  | Err err => ret (Err err)
  | Val quiz => ret (Val (bool_decide (CreatorID quiz = userID)))
  end.

Section handleMessage.

(** [json.Unmarshal(message, &msg)]: [None] when it returns an error. *)
Variable json_Unmarshal : string -> option Message.

Definition handleMessage (c : ptr) (message : string) : M World unit :=
  match json_Unmarshal message with
  | None => ret tt
  | Some msg =>
      if String.eqb (Type_ msg) "join_quiz" then
        match Data msg with
        | Map data =>
            match index data "user" with
            | Map user_ =>
                let* userId := assert_float64 (index user_ "userId") in
                let* username := assert_string (index user_ "username") in
                let email := match index user_ "email" with
                             | String_ email => email
                             | _ => ""
                             end in
                let info := {| UserID := Z.to_nat userId; Username := username;
                               Email := email |} in
                liftHub (modify (fun h =>
                  set_heap <[c := set_user (Some info) (isHost (deref h c))
                                    (deref h c)]> h)) ;;
                let* w := get in
                let* r := checkIfHost (quizCode (deref (wsHub w) c)) (UserID info) in
                let isHost := match r with Val isHost => isHost | Err _ => false end in
                liftHub (modify (fun h =>
                  set_heap <[c := set_user (Some info) isHost (deref h c)]> h)) ;;
                liftHub (modify (if isHost : bool
                                 then set_hosts <[UserID info := c]>
                                 else set_clientsByUser <[UserID info := c]>)) ;;
                let* w := get in
                liftHub (go (GoSendParticipantList (quizCode (deref (wsHub w) c))))
            | _ => ret tt
            end
        | _ => ret tt
        end
      else if String.eqb (Type_ msg) "start_quiz" then ret tt
      else if String.eqb (Type_ msg) "answer_submitted" then
        match Data msg with
        | Map data =>
            let* quizCode := assert_string (index data "quizCode") in
            let* questionId := assert_float64 (index data "questionId") in
            let* answer := assert_string (index data "answer") in
            let* userId := assert_float64 (index data "userId") in
            liftHub (BroadcastMessage quizCode "answer_update"
                       (Map [("userId", Uint (Z.to_nat userId));
                             ("questionId", Uint (Z.to_nat questionId))]))
        | _ => ret tt
        end
      else if String.eqb (Type_ msg) "next_question" then
        match Data msg with
        | Map data =>
            let* quizCode := assert_string (index data "quizCode") in
            let* currentIndex := assert_float64 (index data "currentIndex") in
            quiz.Service.HandleNextQuestion quizCode currentIndex ;;
            ret tt
        | _ => ret tt
        end
      else ret tt
  end.

End handleMessage.

End Client.

(** ** Goroutines *)

Module runtime.
Import store websocket.

(** The body of a started goroutine. *)
Definition run_task (t : Task) : M World unit :=
  match t with
  | GoBroadcastMessage quizCode messageType data =>
      liftHub (BroadcastMessage quizCode messageType data)
  | GoSendParticipantList quizCode =>
      liftHub (SendParticipantList quizCode)
  | GoRemoveParticipantFromDB quizCode userID =>
      quiz.Service.RemoveParticipant quizCode userID ;; ret tt
  | GoHandleNextQuestionForUser userID quizCode nextIndex =>
      quiz.Service.HandleNextQuestionForUser userID quizCode nextIndex ;; ret tt
  end.

(** The scheduler runs any of the started goroutines to completion. *)
Definition schedule (i : nat) : M World unit :=
  let* w := get in
  match goroutines (wsHub w) !! i with
  | None => ret tt
  | Some t => liftHub (modify (set_goroutines (delete i))) ;; run_task t
  end.

(** Run the started goroutines, oldest first, until none is left or [n]
    have run. *)
Fixpoint drain (n : nat) : M World unit :=
  match n with
  | O => ret tt
  | S n' =>
      let* w := get in
      match goroutines (wsHub w) with
      | [] => ret tt
      | _ :: _ => schedule 0 ;; drain n'
      end
  end.

(** A computation run for its effect. *)
Definition exec_ {S A} (m : M S A) (s : S) : outcome S unit :=
  match m s with
  | Ok (_, s') => Ok (tt, s')
  | Panic r s' => Panic r s'
  end.

End runtime.

(** ** The vocabulary of the specification *)

Module spec.
Import models store websocket quiz.

(** *** Scoring *)

(** Section 4.4: 0 if the answer text does not exactly match the correct
    answer; otherwise [max(0, 1000 - 10 * elapsedSeconds)]. *)
Definition spec_score (answer correctAnswer : string) (elapsedSeconds : Z) : Z :=
  if decide (answer = correctAnswer)
  then Z.max 0 (1000 - 10 * elapsedSeconds)
  else 0.

(** Neither [timeSpent * 10] nor [1000 - timeSpent * 10] leaves the range
    of [int]. *)
Definition no_overflow (timeSpent : Z) : Prop :=
  GoInt.min_int + 1000 < 10 * timeSpent <= GoInt.max_int.

(** *** The hub *)

(** The outbound queue of a connection. *)
Definition queue (h : Hub) (c : ptr) : list Message := send (deref h c).

Definition is_open (cl : Client) : Prop :=
  send_closed cl = false /\ done_closed cl = false.

(** The queue is not full. *)
Definition has_space (cl : Client) : Prop :=
  (length (send cl) < send_capacity)%nat.

(** A connection that is registered in the room of [code]: it is in
    [h.clients], it was created for [code], and its channels are open. *)
Definition registered_in (h : Hub) (code : string) (c : ptr) : Prop :=
  c ∈ clients h /\ quizCode (deref h c) = code /\ is_open (deref h c).

(** The connections of the room of [code]; none when there is no room. *)
Definition room_of (h : Hub) (code : string) : gset ptr :=
  default ∅ (quizRooms h !! code).

(** The membership invariant of the hub: there is no room for the empty
    code; the clients of [h.clients] have open channels and are in the room
    they were created for; the clients of a room are in [h.clients] and were
    created for that room. *)
Definition hub_ok (h : Hub) : Prop :=
  quizRooms h !! "" = None
  /\ (forall c, c ∈ clients h ->
        is_open (deref h c) /\ c ∈ room_of h (quizCode (deref h c)))
  /\ (forall code c, c ∈ room_of h code ->
        c ∈ clients h /\ quizCode (deref h c) = code).

(** The connection has been unregistered: it is in neither [h.clients] nor
    the room of [code], and its channels are closed. *)
Definition dropped (h : Hub) (code : string) (c : ptr) : Prop :=
  (c ∉ clients h) ∧ (c ∉ default ∅ (quizRooms h !! code))
  ∧ send_closed (deref h c) = true ∧ done_closed (deref h c) = true.

#[export] Instance is_open_dec cl : Decision (is_open cl).
Proof. unfold is_open. apply _. Defined.
#[export] Instance has_space_dec cl : Decision (has_space cl).
Proof. unfold has_space. apply _. Defined.
#[export] Instance registered_in_dec h code c : Decision (registered_in h code c).
Proof. unfold registered_in. apply _. Defined.

(** The number of connections of the room that are not the host's. *)
Definition non_host_connections (h : Hub) (code : string) : Z :=
  Z.of_nat (length (filter (fun c => isHost (deref h c) = false)
                           (elements (default ∅ (quizRooms h !! code))))).

(** A question event whose payload carries the correct-answer marker. *)
Definition question_with_marker (m : Message) : bool :=
  String.eqb (Type_ m) "question"
  && match Data m with
     | Map data =>
         match index data "question" with
         | QuestionDTO_ dto => has_correct_answer_marker dto
         | _ => false
         end
     | _ => false
     end.

(** A started removal of a participant from the store. *)
Definition is_removal (t : Task) : bool :=
  match t with
  | GoRemoveParticipantFromDB _ _ => true
  | _ => false
  end.

(** The number of final-leaderboard events in a queue. *)
Definition final_leaderboards (q : list Message) : nat :=
  length (List.filter (fun m => String.eqb (Type_ m) "final_leaderboard") q).

(** *** The store *)

(** The store and the cache answer every coming call. *)
Definition healthy (w : World) : Prop := faults w = [].

(** No progress record of the user for the quiz. *)
Definition no_progress_record (d : DB) (userID quizID : uint) : Prop :=
  forall p, p ∈ user_quiz_progress d ->
    ~ (Progress_UserID p = userID /\ Progress_QuizID p = quizID).

(** The index stored for the user in the quiz: that of the first record. *)
Definition stored_index (d : DB) (userID quizID : uint) : option Z :=
  match List.filter (Repository.is_progress_of userID quizID)
                    (user_quiz_progress d) with
  | [] => None
  | p :: _ => Some (NextIndex p)
  end.

(** *** Completion (section 4.4) *)

(** The participants whose progress record has reached the total
    question count. *)
Definition finishedCount (d : DB) (quizID : uint) (total : Z) : Z :=
  Z.of_nat (length (filter (fun p => Progress_QuizID p = quizID /\ total <= NextIndex p)
                           (user_quiz_progress d))).

(** The distinct users with at least one persisted response for the
    session. *)
Definition responders (d : DB) (quizID : uint) : gset uint :=
  list_to_set
    (map Response_UserID
       (filter (fun r => Response_QuizID r = quizID /\ Response_Deleted r = false)
               (user_quiz_responses d))).

Definition totalParticipants (d : DB) (quizID : uint) : Z :=
  Z.of_nat (size (responders d quizID)).




(** A total score that the cache, which keeps scores as [float64], holds
    exactly. *)
Definition exact_in_float64 (z : Z) : Prop := - 2 ^ 53 <= z <= 2 ^ 53.

(** *** Footprints *)

(** A computation that returns and leaves the hub alone, and after which a
    healthy store is still healthy. *)
Definition store_op {A} (m : M World A) : Prop :=
  forall w, exists a w',
    m w = Ok (a, w') /\ wsHub w' = wsHub w /\ (healthy w -> healthy w').

(** A [store_op] that leaves the tables alone as well. *)
Definition read_op {A} (m : M World A) : Prop :=
  forall w, exists a w',
    m w = Ok (a, w') /\ wsHub w' = wsHub w /\ db w' = db w
    /\ (healthy w -> healthy w').

(** A message that is not a question event with the marker. *)
Definition harmless (m : Message) : Prop := question_with_marker m = false.

End spec.

(** ** A session to try the statements on: the quiz ABC123 of user 1 with
    two questions; the host connects as client 10, the participants ann
    (user 2) and bob (user 3) as clients 11 and 12. *)

Module scenario.
Import models store websocket quiz runtime.

Definition question1 : Question :=
  {| Question_ID := 1%nat; Question_Deleted := false; Question_QuizID := 1%nat;
     Text := "2+2"; Options := []; CorrectAnswer := "4"; TimeLimit := 0 |}.
Definition question2 : Question :=
  {| Question_ID := 2%nat; Question_Deleted := false; Question_QuizID := 1%nat;
     Text := "3+3"; Options := []; CorrectAnswer := "6"; TimeLimit := 20 |}.
Definition the_quiz : Quiz :=
  {| Quiz_ID := 1%nat; Quiz_Deleted := false; Title := "sums"; Description := "";
     CreatorID := 1%nat; Quiz_TimeLimit := 0%nat; QuizCode := "ABC123";
     IsActive := false |}.

Definition db0 : DB :=
  {| users := [ {| User_ID := 1%nat; User_Username := "host" |};
                {| User_ID := 2%nat; User_Username := "ann" |};
                {| User_ID := 3%nat; User_Username := "bob" |} ];
     quizzes := [the_quiz]; questions := [question1; question2];
     user_quiz_responses := []; user_quiz_progress := [];
     quiz_participants := [] |}.

Definition world0 : World :=
  {| db := db0; cache := {| quiz_keys := ∅; leaderboard_keys := ∅ |};
     wsHub := NewHub; faults := [] |}.

(** The decoded [join_quiz] message of a user. *)
Definition join_quiz (userId : Z) (username : string) : Message :=
  {| Type_ := "join_quiz";
     Data := Map [("user", Map [("userId", Float64 userId);
                                ("username", String_ username)])] |}.

(** The connection receives a frame that decodes to [msg]. *)
Definition receive (c : ptr) (msg : Message) : M World unit :=
  Client.handleMessage (fun _ => Some msg) c "".

(** [HandleWebSocket] for a new connection, then its [join_quiz]. *)
Definition connect (c : ptr) (userId : Z) (username : string) : M World unit :=
  liftHub (NewClient c "ABC123" ;; RegisterClient c "ABC123") ;;
  receive c (join_quiz userId username).

Definition everyone_joins : M World unit :=
  connect 10%nat 1 "host" ;; connect 11%nat 2 "ann" ;; connect 12%nat 3 "bob" ;;
  drain 100.

(** The body of [SubmitAnswer]'s call: the response of a user. *)
Definition answer (userID questionID : uint) (text : string) : M World (Z * error) :=
  Service.ProcessAnswer
    {| Response_Deleted := false; Response_UserID := userID;
       Response_QuizID := 1%nat; QuestionID := questionID; Answer := text;
       Score := 0; TimeSpent := 0 |}.

(** The state a run ends in; the initial state stands for a crash. *)
Definition final {A} (m : M World A) : World :=
  match m world0 with
  | Ok (_, w) => w
  | Panic _ _ => world0
  end.

(** A hub with the room ABC123 of two registered connections. *)
Definition two_connections : Hub :=
  match (NewClient 10%nat "ABC123" ;; RegisterClient 10%nat "ABC123" ;;
         NewClient 11%nat "ABC123" ;; RegisterClient 11%nat "ABC123") NewHub with
  | Ok (_, h) => h
  | Panic _ _ => NewHub
  end.

(** One activation of the session.  The host starts the quiz; ann and bob
    answer question 1 and each gets question 2; both answer question 2, and
    the two follow-ups (the completion checks) run after both answers have
    been recorded. *)
Definition one_activation : M World unit :=
  everyone_joins ;;
  Service.StartQuiz "ABC123" 1%nat ;;
  answer 2%nat 1%nat "4" ;; drain 100 ;;
  answer 3%nat 1%nat "4" ;; drain 100 ;;
  answer 2%nat 2%nat "5" ;;
  answer 3%nat 2%nat "7" ;;
  drain 100.

(** Ann has answered both questions and bob the first one; the follow-up
    of ann's last answer is about to run. *)
Definition ann_finishes_first : M World unit :=
  everyone_joins ;;
  Service.StartQuiz "ABC123" 1%nat ;;
  answer 2%nat 1%nat "4" ;; drain 100 ;;
  answer 3%nat 1%nat "4" ;; drain 100 ;;
  answer 2%nat 2%nat "5" ;; ret tt.

(** Ann and bob have answered both questions; neither follow-up of the last
    answers has run. *)
Definition both_answered : M World unit :=
  everyone_joins ;;
  Service.StartQuiz "ABC123" 1%nat ;;
  answer 2%nat 1%nat "4" ;; drain 100 ;;
  answer 3%nat 1%nat "4" ;; drain 100 ;;
  answer 2%nat 2%nat "5" ;;
  answer 3%nat 2%nat "7" ;; ret tt.


Definition ann_answers_question1 : UserQuizResponse :=
  {| Response_Deleted := false; Response_UserID := 2%nat;
     Response_QuizID := 1%nat; QuestionID := 1%nat; Answer := "4";
     Score := 0; TimeSpent := 0 |}.

(** The same hub with the queue of connection 11 filled to its capacity. *)
Definition filler : Message := {| Type_ := "participant_update"; Data := Nil |}.

Definition saturated : Hub :=
  set_heap <[11%nat := set_send (fun _ => replicate send_capacity filler)
                         (deref two_connections 11%nat)]> two_connections.

End scenario.

(** ** pkg/websocket (hub.go): accepting a connection and reading from it *)

Module Conn.
Import models store websocket.

Definition maxMessageSize : nat := 512.

(** The address of the [Client] that [NewClient] allocates: one that is not
    in use. *)
Definition new_address (h : Hub) : ptr := fresh (dom (heap h)).

(** [HandleWebSocket]: an empty code is answered with 400 and a failed
    upgrade is logged; otherwise the new client is registered.  The two
    pumps it starts are driven from outside: [readPump] below by the frames
    that arrive. *)
Definition HandleWebSocket (quizCode : string) (upgraded : bool)
  : M Hub (option ptr) :=
  if String.eqb quizCode "" then ret None
  else if negb upgraded then ret None
  else
    let* h := get in
    let* client := NewClient (new_address h) quizCode in
    RegisterClient client quizCode ;;
    ret (Some client).

Section readPump.

Variable json_Unmarshal : string -> option Message.

(** The loop of [readPump] over the frames that arrive: [ReadMessage]
    fails, and the loop ends, at a frame longer than the read limit and when
    no frame is left (close, error or missed deadline). *)
Fixpoint read_loop (c : ptr) (frames : list string) : M World unit :=
  match frames with
  | [] => ret tt
  | message :: frames' =>
      if (maxMessageSize <? String.length message)%nat then ret tt
      else Client.handleMessage json_Unmarshal c message ;; read_loop c frames'
  end.

(** [readPump]: the loop, then the deferred [c.hub.unregister <- c], which
    [Hub.Run] serves. *)
Definition readPump (c : ptr) (frames : list string) : M World unit :=
  read_loop c frames ;;
  liftHub (Run_unregister c).

End readPump.

End Conn.

(** ** internal/quiz (service.go): quiz codes *)

Module Codes.

Definition charset : string := "ABCDEFGHIJKLMNOPQRSTUVWXYZ0123456789".

(** [rand.Intn(n)]: the generator's draw, reduced to [0, n). *)
Definition Intn (draw n : nat) : nat := draw mod n.

(** [charset[i]] *)
Definition byte_at (s : string) (i : nat) : Ascii.ascii :=
  default Ascii.zero (String.get i s).

(** [draws i] is the draw of the generator at the [i]-th call. *)
Definition generateQuizCode (draws : nat -> nat) : string :=
  String.string_of_list_ascii
    (map (fun i => byte_at charset (Intn (draws i) (String.length charset)))
         (seq 0 6)).

End Codes.

(** ** More vocabulary *)

Module more.
Import models store websocket quiz runtime spec scenario Conn.

(** One step of the hub: a connection is accepted, [Hub.Run] serves an
    unregistration, a message is broadcast or sent to a user, the
    participant list is announced, a client announces its user (the
    updates [Client.handleMessage] makes for [join_quiz]), or a goroutine is
    started or taken up by the scheduler.  Nothing sends on the [register]
    channel, and nothing calls [UnregisterClient]. *)
Inductive hub_step (h : Hub) : Hub -> Prop :=
| step_accept quizCode upgraded r h' :
    HandleWebSocket quizCode upgraded h = Ok (r, h') -> hub_step h h'
| step_unregister c h' :
    Run_unregister c h = Ok (tt, h') -> hub_step h h'
| step_broadcast quizCode messageType data h' :
    BroadcastMessage quizCode messageType data h = Ok (tt, h') -> hub_step h h'
| step_send userID messageType data h' :
    SendMessageToUser userID messageType data h = Ok (tt, h') -> hub_step h h'
| step_list quizCode h' :
    SendParticipantList quizCode h = Ok (tt, h') -> hub_step h h'
| step_join c info (host : bool) :
    hub_step h
      ((if host then set_hosts <[UserID info := c]>
        else set_clientsByUser <[UserID info := c]>)
         (set_heap <[c := set_user (Some info) host (deref h c)]> h))
| step_go t :
    hub_step h (set_goroutines (fun g => g ++ [t]) h)
| step_scheduled i :
    hub_step h (set_goroutines (delete i) h).

(** The hubs that can be reached from the new hub. *)
Inductive reachable : Hub -> Prop :=
| reachable_new : reachable NewHub
| reachable_step h h' : reachable h -> hub_step h h' -> reachable h'.

(** The decoded [next_question] message. *)
Definition next_question (quizCode : string) (currentIndex : Z) : Message :=
  {| Type_ := "next_question";
     Data := Map [("quizCode", String_ quizCode);
                  ("currentIndex", Float64 currentIndex)] |}.

(** A hub with two rooms of one registered connection each. *)
Definition two_rooms : Hub :=
  match (NewClient 10%nat "ABC123" ;; RegisterClient 10%nat "ABC123" ;;
         NewClient 20%nat "XYZ789" ;; RegisterClient 20%nat "XYZ789") NewHub with
  | Ok (_, h) => h
  | Panic _ _ => NewHub
  end.

Definition quiz_end : Message := {| Type_ := "quiz_end"; Data := Nil |}.

(** Ann joins a second time, on a new connection (client 13). *)
Definition ann_reconnects : M World unit :=
  everyone_joins ;; connect 13%nat 2 "ann" ;; drain 100.

(** A frame of 513 bytes. *)
Definition oversized_frame : string :=
  String.string_of_list_ascii (replicate 513 (Ascii.ascii_of_nat 97)).

(** The record [progress] with [progress.NextIndex = newIndex]. *)
Definition with_index (newIndex : Z) (p : UserQuizProgress) : UserQuizProgress :=
  {| Progress_ID := Progress_ID p; Progress_UserID := Progress_UserID p;
     Progress_QuizID := Progress_QuizID p; NextIndex := newIndex |}.

(** A check of the membership invariant that can be run. *)
Definition hub_ok_check (h : Hub) : Prop :=
  quizRooms h !! "" = None
  /\ set_Forall (fun c => is_open (deref h c)
                          /\ c ∈ room_of h (quizCode (deref h c))) (clients h)
  /\ map_Forall (fun code room =>
       set_Forall (fun c => c ∈ clients h /\ quizCode (deref h c) = code) room)
       (quizRooms h).

#[export] Instance hub_ok_check_dec h : Decision (hub_ok_check h).
Proof. unfold hub_ok_check. apply _. Defined.

(** A hub in which the host's connection has been accepted and has not yet
    announced its user. *)
Definition host_connected : World :=
  final (liftHub (NewClient 10%nat "ABC123" ;; RegisterClient 10%nat "ABC123")).

(** The run of [m] on a state with another hub. *)
Definition with_hub {A} (f : Hub -> Hub) (o : outcome World A) : outcome World A :=
  match o with
  | Ok (a, w) => Ok (a, set_wsHub f w)
  | Panic reason w => Panic reason (set_wsHub f w)
  end.

(** A computation that neither reads nor writes the hub. *)
Definition hub_blind {A} (m : M World A) : Prop :=
  forall f w, m (set_wsHub f w) = with_hub f (m w).

(** The store and the cache answer the next three calls, the fourth fails,
    and every call after it is answered. *)
Definition pipeline_fails (w : World) : World :=
  set_faults (fun _ => [false; false; false; true]) w.

(** The [join_quiz] message of the host, with an email. *)
Definition join_quiz_with_email : Message :=
  {| Type_ := "join_quiz";
     Data := Map [("user", Map [("userId", Float64 1); ("username", String_ "host");
                                ("email", String_ "host@example.org")])] |}.

End more.

(** * Properties *)

Import models store websocket quiz runtime spec scenario.

(** ** Machine integers *)

Lemma wrap64_id z : GoInt.in_range z -> GoInt.wrap64 z = z.
Proof.
  unfold GoInt.in_range, GoInt.min_int, GoInt.max_int, GoInt.wrap64. intros H.
  rewrite Z.mod_small; lia.
Qed.

Lemma wrap64_range z : GoInt.in_range (GoInt.wrap64 z).
Proof.
  unfold GoInt.in_range, GoInt.min_int, GoInt.max_int, GoInt.wrap64.
  pose proof (Z.mod_pos_bound (z + 2 ^ 63) (2 ^ 64) ltac:(lia)). lia.
Qed.

(** ** Scoring *)

Lemma calculateScore_wrong answer correctAnswer timeSpent :
  answer <> correctAnswer ->
  Service.calculateScore answer correctAnswer timeSpent = 0.
Proof.
  intros Hne. unfold Service.calculateScore.
  destruct (String.eqb_spec answer correctAnswer); [contradiction | reflexivity].
Qed.

Lemma calculateScore_right answer timeSpent :
  no_overflow timeSpent ->
  Service.calculateScore answer answer timeSpent = Z.max 0 (1000 - 10 * timeSpent).
Proof.
  unfold no_overflow, GoInt.min_int, GoInt.max_int. intros H.
  unfold Service.calculateScore. rewrite String.eqb_refl. cbn [negb].
  unfold GoInt.sub, GoInt.mul.
  rewrite (wrap64_id (timeSpent * 10))
    by (unfold GoInt.in_range, GoInt.min_int, GoInt.max_int; lia).
  rewrite wrap64_id
    by (unfold GoInt.in_range, GoInt.min_int, GoInt.max_int; lia).
  destruct (Z.ltb_spec (1000 - timeSpent * 10) 0); lia.
Qed.

(** C2, as the code has it.  The score is 0 when the answer differs from the
    correct answer, whatever the elapsed time, and [max(0, 1000 - 10 *
    elapsedSeconds)] for a correct answer whose elapsed time keeps
    [10 * elapsedSeconds] and [1000 - 10 * elapsedSeconds] inside the 64-bit
    range of [int]; this covers 0 seconds (1000) and 150 seconds (0). *)
Theorem calculateScore_spec answer correctAnswer timeSpent :
  no_overflow timeSpent \/ answer <> correctAnswer ->
  Service.calculateScore answer correctAnswer timeSpent
  = spec_score answer correctAnswer timeSpent.
Proof.
  intros H. unfold spec_score. destruct (decide (answer = correctAnswer)) as [->|Hne].
  - destruct H as [H|H]; [|contradiction]. by apply calculateScore_right.
  - by apply calculateScore_wrong.
Qed.

Lemma calculateScore_spec_witness :
  Service.calculateScore "4" "4" 0 = 1000
  /\ Service.calculateScore "4" "4" 150 = 0
  /\ Service.calculateScore "5" "4" 7 = 0.
Proof.
  split; [|split].
  - apply (calculateScore_spec "4" "4" 0). left. unfold no_overflow. vm_compute. split; reflexivity || discriminate.
  - apply (calculateScore_spec "4" "4" 150). left. vm_compute. split; reflexivity || discriminate.
  - apply (calculateScore_spec "5" "4" 7). right. discriminate.
Defined.

(** C2, as stated, fails where the time penalty overflows: at the largest
    [int] the product [timeSpent * 10] wraps to [-10] and a correct answer
    scores 1010, where [max(0, 1000 - 10 * elapsedSeconds)] is 0. *)
Lemma calculateScore_overflow :
  GoInt.in_range 9223372036854775807
  /\ Service.calculateScore "4" "4" 9223372036854775807 = 1010
  /\ spec_score "4" "4" 9223372036854775807 = 0.
Proof.
  split; [|split]; [|reflexivity..].
  unfold GoInt.in_range, GoInt.min_int, GoInt.max_int. lia.
Qed.

(** ** The monad *)

Lemma bind_Ok {S A B} (m : M S A) (k : A -> M S B) s a s' :
  m s = Ok (a, s') -> bind m k s = k a s'.
Proof. intros H. unfold bind. by rewrite H. Qed.

Lemma bind_Ok_inv {S A B} (m : M S A) (k : A -> M S B) s b s'' :
  bind m k s = Ok (b, s'') ->
  exists a s', m s = Ok (a, s') /\ k a s' = Ok (b, s'').
Proof.
  unfold bind. destruct (m s) as [[a s']|]; [|discriminate]. eauto.
Qed.

(** ** The hub: what the primitives touch *)

Lemma deref_set_clients f h c : deref (set_clients f h) c = deref h c.
Proof. reflexivity. Qed.

Lemma deref_set_quizRooms f h c : deref (set_quizRooms f h) c = deref h c.
Proof. reflexivity. Qed.

Lemma deref_set_participants f h c : deref (set_participants f h) c = deref h c.
Proof. reflexivity. Qed.

Lemma deref_set_clientsByUser f h c : deref (set_clientsByUser f h) c = deref h c.
Proof. reflexivity. Qed.

Lemma deref_set_hosts f h c : deref (set_hosts f h) c = deref h c.
Proof. reflexivity. Qed.

Lemma deref_set_goroutines f h c : deref (set_goroutines f h) c = deref h c.
Proof. reflexivity. Qed.

Lemma deref_insert_eq h c cl : deref (set_heap <[c := cl]> h) c = cl.
Proof. unfold deref. cbn. by rewrite lookup_insert_eq. Qed.

Lemma deref_insert_ne h c c' cl :
  c <> c' -> deref (set_heap <[c := cl]> h) c' = deref h c'.
Proof. intros Hne. unfold deref. cbn. by rewrite lookup_insert_ne. Qed.

Create Rewrite HintDb hub_simpl.
#[local] Hint Rewrite deref_set_clients deref_set_quizRooms deref_set_participants
  deref_set_clientsByUser deref_set_hosts deref_set_goroutines deref_insert_eq
  : hub_simpl.

(** What one iteration of [Hub.Run] does with a registered client. *)
Lemma Run_unregister_member h c code r :
  c ∈ clients h -> quizCode (deref h c) = code -> code <> "" ->
  quizRooms h !! code = Some r -> is_open (deref h c) ->
  exists h', Run_unregister c h = Ok (tt, h')
    /\ clients h' = clients h ∖ {[c]}
    /\ quizRooms h' = <[code := r ∖ {[c]}]> (quizRooms h)
    /\ heap h' = <[c := set_closed (deref h c)]> (heap h).
Proof.
  intros Hc Hcode Hne Hr [Hs Hd].
  unfold Run_unregister, bind, get.
  destruct (decide (c ∈ clients h)); [|done].
  rewrite Hcode.
  destruct (String.eqb_spec code ""); [done|]. cbn [negb].
  rewrite Hr. cbn.
  unfold close_channels. autorewrite with hub_simpl.
  rewrite Hs, Hd. eexists. split; [reflexivity|]. cbn. done.
Qed.

(** A client that is not in [h.clients] is left alone. *)
Lemma Run_unregister_absent h c :
  c ∉ clients h -> Run_unregister c h = Ok (tt, h).
Proof.
  intros Hc. unfold Run_unregister, bind, get.
  by destruct (decide (c ∈ clients h)).
Qed.

(** Whatever [Hub.Run] does with a client, the client has left
    [h.clients], and no outbound queue has changed. *)
Lemma Run_unregister_inv h c h' :
  Run_unregister c h = Ok (tt, h') ->
  (c ∉ clients h') ∧ (forall c', queue h' c' = queue h c')
  ∧ clientsByUser h' = clientsByUser h.
Proof.
  unfold Run_unregister, bind, get.
  destruct (decide (c ∈ clients h)) as [Hc|Hc]; cbn.
  2:{ intros [= <-]. done. }
  set (code := quizCode (deref h c)).
  assert (Hclose : forall h1 h2, close_channels c h1 = Ok (tt, h2) ->
            clients h2 = clients h1 /\ (forall c', queue h2 c' = queue h1 c')
            /\ clientsByUser h2 = clientsByUser h1).
  { intros h1 h2. unfold close_channels.
    destruct (send_closed (deref h1 c)); [discriminate|].
    destruct (done_closed (deref h1 c)); [discriminate|].
    intros [= <-]. split; [done|]. split; [|done]. intros c'. unfold queue.
    destruct (decide (c = c')) as [<-|Hne].
    - by rewrite deref_insert_eq.
    - by rewrite deref_insert_ne. }
  destruct (negb (String.eqb code "")); [destruct (quizRooms h !! code)|];
    cbn; intros H; apply Hclose in H as (Hcl & Hq & Hu); cbn in Hcl;
    (split; [rewrite Hcl, elem_of_difference, elem_of_singleton; tauto|]); (split; [|by rewrite Hu]);
    intros c'; rewrite Hq; reflexivity.
Qed.

(** [Hub.Run]'s unregister branch is idempotent. *)
Lemma Run_unregister_idempotent h c h' :
  Run_unregister c h = Ok (tt, h') -> Run_unregister c h' = Ok (tt, h').
Proof.
  intros H. apply Run_unregister_inv in H as [Hc _].
  by apply Run_unregister_absent.
Qed.

(** ** Broadcast: the effect on the outbound queues *)

Lemma try_send_inv c m h r h' :
  try_send c m h = Ok (r, h') ->
  (r = Queued /\ h' = set_heap <[c := set_send (fun q => q ++ [m]) (deref h c)]> h)
  \/ (r <> Queued /\ h' = h).
Proof.
  unfold try_send.
  destruct (send_closed (deref h c)).
  { intros [= <- <-]. right. done. }
  destruct (decide (length (send (deref h c)) < send_capacity)%nat).
  - intros [= <- <-]. left. done.
  - intros [= <- <-]. right. done.
Qed.

Lemma queue_after_send h c m c' :
  queue (set_heap <[c := set_send (fun q => q ++ [m]) (deref h c)]> h) c'
  = if decide (c = c') then queue h c' ++ [m] else queue h c'.
Proof.
  unfold queue. destruct (decide (c = c')) as [<-|Hne].
  - by rewrite deref_insert_eq.
  - by rewrite deref_insert_ne.
Qed.

(** One iteration of the broadcast loop touches the queue of its own
    connection only, and appends at most the message. *)
Lemma send_or_unregister_queue m c h h' :
  send_or_unregister m c h = Ok (tt, h') ->
  (forall c', c' <> c -> queue h' c' = queue h c')
  /\ (queue h' c = queue h c \/ queue h' c = queue h c ++ [m])
  /\ clientsByUser h' = clientsByUser h.
Proof.
  unfold send_or_unregister. intros H.
  apply bind_Ok_inv in H as (r & h1 & Hsend & H).
  apply try_send_inv in Hsend as [[-> ->]|[Hr ->]].
  - injection H as <-. split; [|split; [|done]].
    + intros c' Hne. rewrite queue_after_send. by destruct (decide (c = c')).
    + right. rewrite queue_after_send. by destruct (decide (c = c)).
  - assert (Hun : Run_unregister c h = Ok (tt, h')) by (by destruct r).
    apply Run_unregister_inv in Hun as (_ & Hq & Hu).
    split; [by intros; rewrite Hq|]. split; [by left; rewrite Hq|done].
Qed.

Lemma broadcast_loop_queue m l :
  NoDup l -> forall h h',
  forM_ l (send_or_unregister m) h = Ok (tt, h') ->
  (forall c, c ∉ l -> queue h' c = queue h c)
  /\ (forall c, queue h' c = queue h c \/ queue h' c = queue h c ++ [m])
  /\ clientsByUser h' = clientsByUser h.
Proof.
  induction 1 as [|x l Hx Hnd IH]; intros h h' H.
  - injection H as <-. by eauto.
  - cbn [forM_] in H. apply bind_Ok_inv in H as ([] & h1 & Hstep & Hrest).
    apply send_or_unregister_queue in Hstep as (Hother & Hown & Hu1).
    apply IH in Hrest as (Hout & Hall & Hu2).
    split; [|split; [|congruence]].
    + intros c Hc. apply not_elem_of_cons in Hc as [Hne Hc].
      rewrite (Hout c Hc). by apply Hother.
    + intros c. destruct (decide (c = x)) as [->|Hne].
      * rewrite (Hout x Hx). exact Hown.
      * rewrite <- (Hother c Hne). apply Hall.
Qed.

(** A broadcast appends the message at most once to every queue and
    changes no queue otherwise. *)
Lemma BroadcastToQuiz_queue code m h h' :
  BroadcastToQuiz code m h = Ok (tt, h') ->
  (forall c, queue h' c = queue h c \/ queue h' c = queue h c ++ [m])
  /\ clientsByUser h' = clientsByUser h.
Proof.
  unfold BroadcastToQuiz, bind, get.
  destruct (decide (size (default ∅ (quizRooms h !! code)) = 0%nat)).
  - intros [= <-]. by eauto.
  - intros H. apply broadcast_loop_queue in H as (_ & Hall & Hu);
      [done | apply NoDup_elements].
Qed.

(** A targeted send touches the queue of the user's connection only. *)
Lemma SendMessageToUser_queue userID messageType data h h' :
  SendMessageToUser userID messageType data h = Ok (tt, h') ->
  forall c,
    queue h' c = queue h c
    \/ (clientsByUser h !! userID = Some c
        /\ queue h' c = queue h c ++ [{| Type_ := messageType; Data := data |}]).
Proof.
  unfold SendMessageToUser. intros H c.
  apply bind_Ok_inv in H as (h0 & h1 & [= <- <-] & H).
  destruct (clientsByUser h !! userID) as [client|] eqn:Hu.
  2:{ injection H as <-. by left. }
  apply bind_Ok_inv in H as (r & h1 & Hsend & H).
  apply try_send_inv in Hsend as [[-> ->]|[Hr ->]].
  - injection H as <-. rewrite queue_after_send.
    destruct (decide (client = c)) as [<-|]; [right|left]; done.
  - destruct r; [done| |discriminate].
    apply Run_unregister_inv in H as (_ & Hq & _). left. apply Hq.
Qed.

(** ** Broadcast to a room of registered connections *)

Lemma send_or_unregister_registered m code h c r :
  code <> "" -> quizRooms h !! code = Some r -> registered_in h code c ->
  exists h' r',
    send_or_unregister m c h = Ok (tt, h')
    /\ quizRooms h' !! code = Some r'
    /\ (forall c', c' <> c ->
          deref h' c' = deref h c'
          /\ (c' ∈ clients h' <-> c' ∈ clients h) /\ (c' ∈ r' <-> c' ∈ r))
    /\ (has_space (deref h c) ->
          deref h' c = set_send (fun q => q ++ [m]) (deref h c)
          /\ c ∈ clients h' /\ (c ∈ r' <-> c ∈ r))
    /\ (~ has_space (deref h c) ->
          deref h' c = set_closed (deref h c) /\ (c ∉ clients h') /\ (c ∉ r')).
Proof.
  intros Hcode Hr (Hc & Hq & Hopen).
  unfold send_or_unregister, bind, try_send.
  destruct Hopen as [Hs Hd]. rewrite Hs.
  destruct (decide (length (send (deref h c)) < send_capacity)%nat) as [Hsp|Hsp].
  - eexists _, r. split; [reflexivity|]. cbn. split; [done|].
    split; [|split; [|done]].
    + intros c' Hne. by rewrite deref_insert_ne.
    + intros _. by rewrite deref_insert_eq.
  - destruct (Run_unregister_member h c code r) as (h' & Hun & Hcl & Hrooms & Hheap);
      [done..|].
    exists h', (r ∖ {[c]}). split; [done|].
    split; [by rewrite Hrooms, lookup_insert_eq|].
    split; [|split; [done|]].
    + intros c' Hne. unfold deref. rewrite Hheap, Hcl, lookup_insert_ne by done.
      rewrite !elem_of_difference, !elem_of_singleton. tauto.
    + intros _. unfold deref at 1. rewrite Hheap, Hcl, lookup_insert_eq.
      rewrite !elem_of_difference, !elem_of_singleton. tauto.
Qed.

Lemma broadcast_loop_registered m code l :
  code <> "" -> NoDup l -> forall h r,
  quizRooms h !! code = Some r ->
  (forall c, c ∈ l -> registered_in h code c) ->
  exists h' r',
    forM_ l (send_or_unregister m) h = Ok (tt, h')
    /\ quizRooms h' !! code = Some r'
    /\ (forall c, c ∉ l ->
          deref h' c = deref h c
          /\ (c ∈ clients h' <-> c ∈ clients h) /\ (c ∈ r' <-> c ∈ r))
    /\ (forall c, c ∈ l -> has_space (deref h c) ->
          deref h' c = set_send (fun q => q ++ [m]) (deref h c)
          /\ c ∈ clients h' /\ (c ∈ r' <-> c ∈ r))
    /\ (forall c, c ∈ l -> ~ has_space (deref h c) ->
          deref h' c = set_closed (deref h c) /\ (c ∉ clients h') /\ (c ∉ r')).
Proof.
  intros Hcode. induction 1 as [|x l Hx Hnd IH]; intros h r Hr Hreg.
  - exists h, r. split; [done|]. split; [done|].
    split; [done|]. split; intros c Hc; by apply elem_of_nil in Hc.
  - destruct (send_or_unregister_registered m code h x r)
      as (h1 & r1 & Hstep & Hr1 & Hother & Hspace & Hfull);
      [done | done | apply Hreg; left |].
    destruct (IH h1 r1 Hr1) as (h' & r' & Hloop & Hr' & Hout & Hin_space & Hin_full).
    { intros c Hc. assert (c <> x) as Hne by (intros ->; done).
      destruct (Hother c Hne) as (Hd & Hcl & _).
      destruct (Hreg c) as (? & ? & ?); [by right|].
      unfold registered_in. rewrite Hd, Hcl. done. }
    exists h', r'. split.
    { cbn [forM_]. by rewrite (bind_Ok _ _ _ _ _ Hstep). }
    split; [done|].
    assert (Hx' : deref h' x = deref h1 x
                  /\ (x ∈ clients h' <-> x ∈ clients h1) /\ (x ∈ r' <-> x ∈ r1))
      by (by apply Hout).
    destruct Hx' as (Hdx & Hclx & Hrx).
    split; [|split].
    + intros c Hc. apply not_elem_of_cons in Hc as [Hne Hc].
      destruct (Hout c Hc) as (-> & -> & ->). by apply Hother.
    + intros c Hc Hsp. apply elem_of_cons in Hc as [->|Hc].
      * rewrite Hdx, Hclx, Hrx. by apply Hspace.
      * assert (c <> x) as Hne by (intros ->; done).
        destruct (Hother c Hne) as (Hd & Hcl & Hrm).
        rewrite <- Hd, <- Hrm. apply Hin_space; [done|]. by rewrite Hd.
    + intros c Hc Hsp. apply elem_of_cons in Hc as [->|Hc].
      * rewrite Hdx, Hclx, Hrx. by apply Hfull.
      * assert (c <> x) as Hne by (intros ->; done).
        destruct (Hother c Hne) as (Hd & Hcl & Hrm).
        rewrite <- Hd. apply Hin_full; [done|]. by rewrite Hd.
Qed.

(** A broadcast to the room of a code, which is empty when the hub has no
    room for it: the message reaches every registered connection with
    space. *)
Lemma BroadcastToQuiz_room h code message :
  code <> "" ->
  (forall c, c ∈ room_of h code -> registered_in h code c) ->
  exists h',
    BroadcastToQuiz code message h = Ok (tt, h')
    /\ forall c, c ∈ room_of h code -> has_space (deref h c) ->
         queue h' c = queue h c ++ [message].
Proof.
  intros Hcode Hreg. unfold room_of in *.
  unfold BroadcastToQuiz, bind, get.
  destruct (quizRooms h !! code) as [room|] eqn:Hroom.
  2:{ exists h. split; [reflexivity|]. intros c Hc. by apply not_elem_of_empty in Hc. }
  change (default ∅ (Some room)) with room in *.
  destruct (decide (size room = 0%nat)) as [Hempty|_].
  { exists h. split; [reflexivity|]. intros c Hc.
    apply size_empty_inv in Hempty. apply leibniz_equiv in Hempty. subst room.
    by apply not_elem_of_empty in Hc. }
  destruct (broadcast_loop_registered message code (elements room) Hcode
              (NoDup_elements room) h room Hroom)
    as (h' & r' & Hloop & _ & _ & Hspace & _).
  { intros c Hc. apply Hreg. by apply elem_of_elements. }
  exists h'. split; [done|]. intros c Hc Hsp.
  destruct (Hspace c) as (Hd & _); [by apply elem_of_elements|done|].
  unfold queue. by rewrite Hd.
Qed.

(** C8.  A broadcast to a room of registered connections returns; every
    connection of the room whose outbound queue is full has been
    unregistered (removed from the hub and the room, its channels closed,
    its queue as it was), and every other connection of the room has the
    message as the last entry of its queue and is still registered. *)
Theorem BroadcastToQuiz_backpressure h code message room :
  code <> "" ->
  quizRooms h !! code = Some room ->
  (forall c, c ∈ room -> registered_in h code c) ->
  exists h',
    BroadcastToQuiz code message h = Ok (tt, h')
    /\ forall c, c ∈ room ->
         (has_space (deref h c) ->
            queue h' c = queue h c ++ [message]
            /\ registered_in h' code c
            /\ c ∈ default ∅ (quizRooms h' !! code))
         /\ (~ has_space (deref h c) ->
            dropped h' code c /\ queue h' c = queue h c).
Proof.
  intros Hcode Hroom Hreg.
  unfold BroadcastToQuiz, bind, get. rewrite Hroom.
  change (default ∅ (Some room)) with room.
  destruct (decide (size room = 0%nat)) as [Hempty|_].
  { exists h. split; [reflexivity|]. intros c Hc.
    apply size_empty_inv in Hempty. apply leibniz_equiv in Hempty. subst room.
    by apply not_elem_of_empty in Hc. }
  destruct (broadcast_loop_registered message code (elements room) Hcode
              (NoDup_elements room) h room Hroom)
    as (h' & r' & Hloop & Hr' & _ & Hspace & Hfull).
  { intros c Hc. apply Hreg. by apply elem_of_elements. }
  exists h'. split; [done|]. intros c Hc.
  assert (Hel : c ∈ elements room) by (by apply elem_of_elements).
  rewrite Hr'. change (default ∅ (Some r')) with r'. split; intros Hsp.
  - destruct (Hspace c Hel Hsp) as (Hd & Hcl & Hrm).
    destruct (Hreg c Hc) as (_ & Hq & Hs & Hdn).
    unfold queue, registered_in, is_open. rewrite Hd. cbn.
    repeat split; try done. by apply Hrm.
  - destruct (Hfull c Hel Hsp) as (Hd & Hcl & Hrm).
    unfold dropped, queue. rewrite Hr', Hd. cbn. done.
Qed.



Lemma BroadcastToQuiz_backpressure_witness :
  exists h',
    BroadcastToQuiz "ABC123" {| Type_ := "quiz_end"; Data := Nil |} saturated
    = Ok (tt, h')
    /\ dropped h' "ABC123" 11%nat
    /\ queue h' 10%nat = [{| Type_ := "quiz_end"; Data := Nil |}].
Proof.
  destruct (BroadcastToQuiz_backpressure saturated "ABC123"
              {| Type_ := "quiz_end"; Data := Nil |} {[10%nat; 11%nat]})
    as (h' & Hrun & Hroom).
  - discriminate.
  - vm_compute. reflexivity.
  - intros c Hc.
    apply (bool_decide_unpack
             (set_Forall (fun c => registered_in saturated "ABC123" c)
                         ({[10%nat; 11%nat]} : gset ptr))); [|exact Hc].
    vm_compute. exact I.
  - exists h'. split; [exact Hrun|]. split.
    + apply (Hroom 11%nat); [set_solver|]. vm_compute. lia.
    + apply (Hroom 10%nat); [set_solver|]. vm_compute. lia.
Defined.

(** ** Unregistration *)

(** C6 at its failing input.  With host, ann and bob connected, the first
    [UnregisterClient] of ann's connection returns.  The second one does not:
    the guard of [UnregisterClient] tests that the room exists, not that the
    client is in it, so the body runs again, starts a second removal of the
    participant from the store, and panics when it closes the closed [send]
    channel. *)
Theorem UnregisterClient_twice_panics :
  (exists w,
     exec_ (liftHub (UnregisterClient 11%nat)) (final everyone_joins) = Ok (tt, w)
     /\ List.filter is_removal (goroutines (wsHub w))
        = [GoRemoveParticipantFromDB "ABC123" 2%nat])
  /\ (exists w,
        exec_ (liftHub (UnregisterClient 11%nat ;; UnregisterClient 11%nat))
          (final everyone_joins)
        = Panic "close of closed channel" w
        /\ List.filter is_removal (goroutines (wsHub w))
           = [GoRemoveParticipantFromDB "ABC123" 2%nat;
              GoRemoveParticipantFromDB "ABC123" 2%nat]).
Proof.
  split; eexists; (split; [vm_compute; reflexivity|]); vm_compute; reflexivity.
Qed.

(** ** The participant count *)

(** C7 at its failing inputs.
    (1) Registration and unregistration alone: after [RegisterClient] of a
    new connection the room holds one connection, which is not the host's,
    and the stored count is 0; after [Hub.Run] has served its unregistration
    the room is empty and the stored count is -1.
    (2) With identities: the host and ann connect and join; the room holds
    one connection that is not the host's and the stored count is 0.  Ann's
    connection is then handed to [Hub.Run] by its read pump: no such
    connection is left, the stored count is -1, and -1 is what the started
    [participant_update] broadcast announces. *)
Theorem participant_count_drifts :
  let registered :=
    liftHub (NewClient 11%nat "ABC123" ;; RegisterClient 11%nat "ABC123") in
  let unregistered := registered ;; liftHub (Run_step (unregister 11%nat)) in
  let joined := connect 10%nat 1 "host" ;; connect 11%nat 2 "ann" in
  let left := joined ;; liftHub (Run_step (unregister 11%nat)) in
  (participants (wsHub (final registered)) !! "ABC123" = Some 0
   /\ non_host_connections (wsHub (final registered)) "ABC123" = 1)
  /\ (participants (wsHub (final unregistered)) !! "ABC123" = Some (-1)
      /\ non_host_connections (wsHub (final unregistered)) "ABC123" = 0)
  /\ (participants (wsHub (final joined)) !! "ABC123" = Some 0
      /\ non_host_connections (wsHub (final joined)) "ABC123" = 1)
  /\ (participants (wsHub (final left)) !! "ABC123" = Some (-1)
      /\ non_host_connections (wsHub (final left)) "ABC123" = 0
      /\ last (goroutines (wsHub (final left)))
         = Some (GoBroadcastMessage "ABC123" "participant_update"
                   (count_payload (-1)))).
Proof. vm_compute. repeat split. Qed.

(** ** Inbound messages *)

(** Bytes that are not an envelope are discarded: nothing changes. *)
Lemma handleMessage_undecodable json_Unmarshal c message w :
  json_Unmarshal message = None ->
  Client.handleMessage json_Unmarshal c message w = Ok (tt, w).
Proof. intros H. unfold Client.handleMessage. by rewrite H. Qed.

(** X29.  An envelope whose data is not an object is discarded as well. *)
Lemma handleMessage_data_not_object json_Unmarshal c message w messageType data :
  json_Unmarshal message = Some {| Type_ := messageType; Data := data |} ->
  (forall m, data <> Map m) ->
  Client.handleMessage json_Unmarshal c message w = Ok (tt, w).
Proof.
  intros H Hdata. unfold Client.handleMessage. rewrite H. cbn [Type_ Data].
  repeat case_match; try reflexivity; by edestruct Hdata.
Qed.

(** C9 at its failing input.  A valid envelope of type [answer_submitted]
    whose data object lacks the [quizCode] string is not discarded: the
    unchecked type assertion panics. *)
Theorem handleMessage_unexpected_shape_panics json_Unmarshal c message w :
  json_Unmarshal message = Some {| Type_ := "answer_submitted"; Data := Map [] |} ->
  Client.handleMessage json_Unmarshal c message w
  = Panic "interface conversion: interface {} is not string" w.
Proof. intros H. unfold Client.handleMessage. by rewrite H. Qed.

Lemma handleMessage_unexpected_shape_panics_witness :
  receive 11%nat {| Type_ := "answer_submitted"; Data := Map [] |}
    (final everyone_joins)
  = Panic "interface conversion: interface {} is not string" (final everyone_joins).
Proof.
  apply (handleMessage_unexpected_shape_panics
           (fun _ => Some {| Type_ := "answer_submitted"; Data := Map [] |})).
  reflexivity.
Defined.

(** ** The correct-answer marker *)

(** The participant variant of a question carries no marker. *)
Lemma ToDTO_participant_no_marker q :
  has_correct_answer_marker (ToDTO q false) = false.
Proof. reflexivity. Qed.

(** The host variant carries it whenever the question has a correct answer. *)
Lemma ToDTO_host_marker q :
  has_correct_answer_marker (ToDTO q true) = negb (String.eqb (CorrectAnswer q) "").
Proof. reflexivity. Qed.

(** C3 at its failing input.  With host, ann and bob connected, the start of
    the quiz and the host-driven advance each put a question event with the
    correct-answer marker into the queue of ann's connection, which is not
    the host's. *)
Theorem broadcast_question_reaches_participant_with_marker :
  let started := everyone_joins ;; Service.StartQuiz "ABC123" 1%nat in
  let advanced := everyone_joins ;; Service.HandleNextQuestion "ABC123" 0 in
  isHost (deref (wsHub (final everyone_joins)) 11%nat) = false
  /\ List.filter question_with_marker (queue (wsHub (final everyone_joins)) 11%nat)
     = []
  /\ List.filter question_with_marker (queue (wsHub (final started)) 11%nat)
     = [{| Type_ := "question";
           Data := Service.question_payload (ToDTO question1 true) 0 2 1%nat |}]
  /\ List.filter question_with_marker (queue (wsHub (final advanced)) 11%nat)
     = [{| Type_ := "question";
           Data := Service.question_payload (ToDTO question2 true) 1 2 1%nat |}].
Proof. vm_compute. repeat split. Qed.

(** ** The store: totality and footprint of the repository and the cache *)

Lemma read_op_store_op {A} (m : M World A) : read_op m -> store_op m.
Proof. intros H w. destruct (H w) as (a & w' & ? & ? & ? & ?). eauto 6. Qed.

Lemma store_op_ret {A} (a : A) : store_op (ret a).
Proof. intros w. exists a, w. done. Qed.

Lemma read_op_ret {A} (a : A) : read_op (ret a).
Proof. intros w. exists a, w. done. Qed.

Lemma store_op_bind {A B} (m : M World A) (k : A -> M World B) :
  store_op m -> (forall a, store_op (k a)) -> store_op (bind m k).
Proof.
  intros Hm Hk w. destruct (Hm w) as (a & w1 & E1 & Hh1 & Hf1).
  destruct (Hk a w1) as (b & w2 & E2 & Hh2 & Hf2).
  exists b, w2. rewrite (bind_Ok _ _ _ _ _ E1). split; [done|].
  split; [congruence|tauto].
Qed.

Lemma read_op_bind {A B} (m : M World A) (k : A -> M World B) :
  read_op m -> (forall a, read_op (k a)) -> read_op (bind m k).
Proof.
  intros Hm Hk w. destruct (Hm w) as (a & w1 & E1 & Hh1 & Hd1 & Hf1).
  destruct (Hk a w1) as (b & w2 & E2 & Hh2 & Hd2 & Hf2).
  exists b, w2. rewrite (bind_Ok _ _ _ _ _ E1). split; [done|].
  split; [congruence|]. split; [congruence|tauto].
Qed.

Lemma read_op_external_call : read_op external_call.
Proof.
  intros w. unfold external_call, healthy.
  destruct (faults w) as [|b fs] eqn:E; eexists _, _; (split; [reflexivity|]);
    cbn; rewrite ?E; done.
Qed.

Lemma read_op_get : read_op (@get World).
Proof. intros w. exists w, w. done. Qed.

Lemma read_op_query {A} (f : DB -> result A) : read_op (query f).
Proof.
  unfold query. apply read_op_bind; [apply read_op_external_call|].
  intros []; [apply read_op_ret|].
  apply read_op_bind; [apply read_op_get|]. intros w. apply read_op_ret.
Qed.

Lemma store_op_exec f : store_op (exec f).
Proof.
  unfold exec. apply store_op_bind; [apply read_op_store_op, read_op_external_call|].
  intros []; [apply store_op_ret|].
  apply store_op_bind; [|intros; apply store_op_ret].
  intros w. exists tt, (set_db f w). done.
Qed.

Lemma read_op_modify_cache f : read_op (modify (set_cache f)).
Proof. intros w. exists tt, (set_cache f w). done. Qed.

(** Decompose a computation that reads the store into its calls. *)
Ltac read_steps :=
  repeat first
    [ progress intros
    | apply read_op_ret | apply read_op_external_call | apply read_op_get
    | apply read_op_query | apply read_op_modify_cache
    | apply read_op_bind
    | match goal with
      | |- read_op (match ?x with _ => _ end) => destruct x
      | |- read_op (if ?b then _ else _) => destruct b
      end ].

(** The same for a computation that writes to it. *)
Ltac store_steps :=
  repeat first
    [ progress intros
    | apply store_op_ret | apply store_op_exec
    | solve [apply read_op_store_op; read_steps]
    | apply store_op_bind
    | match goal with
      | |- store_op (match ?x with _ => _ end) => destruct x
      | |- store_op (if ?b then _ else _) => destruct b
      end ].

Lemma read_op_cache_GetQuiz code : read_op (cache_GetQuiz code).
Proof. unfold cache_GetQuiz. read_steps. Qed.

Lemma read_op_cache_SetQuiz quiz : read_op (cache_SetQuiz quiz).
Proof. unfold cache_SetQuiz. read_steps. Qed.

Lemma read_op_cache_SetLeaderboard code scores :
  read_op (cache_SetLeaderboard code scores).
Proof. unfold cache_SetLeaderboard. read_steps. Qed.

Lemma read_op_cache_GetLeaderboard code : read_op (cache_GetLeaderboard code).
Proof. unfold cache_GetLeaderboard. read_steps. Qed.

Lemma read_op_Service_GetQuizByCode code : read_op (Service.GetQuizByCode code).
Proof.
  unfold Service.GetQuizByCode, Repository.GetQuizByCode.
  apply read_op_bind; [apply read_op_cache_GetQuiz|]. intros [quiz|e]; [read_steps|].
  apply read_op_bind; [apply read_op_query|]. intros [quiz|e']; [|read_steps].
  apply read_op_bind; [apply read_op_cache_SetQuiz|]. read_steps.
Qed.

Lemma read_op_updateLeaderboard quizID : read_op (Service.updateLeaderboard quizID).
Proof.
  unfold Service.updateLeaderboard, Repository.GetLeaderboard, Repository.GetQuizByID.
  apply read_op_bind; [apply read_op_query|]. intros [entries|e]; [|read_steps].
  apply read_op_bind; [apply read_op_query|]. intros [quiz|e]; [|read_steps].
  apply read_op_cache_SetLeaderboard.
Qed.

Lemma store_op_GetUserQuestionIndex userID quizID :
  store_op (Repository.GetUserQuestionIndex userID quizID).
Proof. unfold Repository.GetUserQuestionIndex. store_steps. Qed.


(** *** A healthy store *)

Lemma external_call_healthy w : healthy w -> external_call w = Ok (false, w).
Proof. unfold healthy, external_call. by intros ->. Qed.

Lemma query_healthy {A} (f : DB -> result A) w :
  healthy w -> query f w = Ok (f (db w), w).
Proof.
  intros H. unfold query. by rewrite (bind_Ok _ _ _ _ _ (external_call_healthy w H)).
Qed.

Lemma exec_healthy f w : healthy w -> exec f w = Ok (None, set_db f w).
Proof.
  intros H. unfold exec. by rewrite (bind_Ok _ _ _ _ _ (external_call_healthy w H)).
Qed.


(** ** The progress tracker *)

Lemma filter_no_progress d userID quizID :
  no_progress_record d userID quizID ->
  List.filter (Repository.is_progress_of userID quizID) (user_quiz_progress d) = [].
Proof.
  unfold no_progress_record. induction (user_quiz_progress d) as [|p rows IH]; intros H.
  - reflexivity.
  - cbn. destruct (Repository.is_progress_of userID quizID p) eqn:E.
    + exfalso. apply (H p); [left|]. unfold Repository.is_progress_of in E.
      apply andb_prop in E as [E1 E2].
      apply bool_decide_eq_true in E1, E2. done.
    + apply IH. intros p' Hp'. apply H. by right.
Qed.

Lemma is_progress_of_new userID quizID id nextIndex :
  Repository.is_progress_of userID quizID
    {| Progress_ID := id; Progress_UserID := userID; Progress_QuizID := quizID;
       NextIndex := nextIndex |} = true.
Proof.
  unfold Repository.is_progress_of. cbn. by rewrite !bool_decide_eq_true_2.
Qed.

(** The first lookup of a user in a quiz creates the record at 0. *)
Lemma GetUserQuestionIndex_fresh w userID quizID :
  healthy w -> no_progress_record (db w) userID quizID ->
  Repository.GetUserQuestionIndex userID quizID w
  = Ok (Val 0, set_db (Repository.Create_progress userID quizID 0) w).
Proof.
  intros Hw Hnone. unfold Repository.GetUserQuestionIndex.
  rewrite (bind_Ok _ _ _ _ _ (query_healthy _ w Hw)).
  rewrite (filter_no_progress _ _ _ Hnone). cbn [First].
  rewrite String.eqb_refl.
  by rewrite (bind_Ok _ _ _ _ _ (exec_healthy _ w Hw)).
Qed.

Lemma stored_index_created d userID quizID :
  no_progress_record d userID quizID ->
  stored_index (Repository.Create_progress userID quizID 0 d) userID quizID = Some 0.
Proof.
  intros Hnone. unfold stored_index, Repository.Create_progress. cbn.
  rewrite List.filter_app, (filter_no_progress _ _ _ Hnone). cbn.
  by rewrite is_progress_of_new.
Qed.

(** A lookup that finds a record returns its index and changes nothing. *)
Lemma GetUserQuestionIndex_stored w userID quizID i :
  healthy w -> stored_index (db w) userID quizID = Some i ->
  Repository.GetUserQuestionIndex userID quizID w = Ok (Val i, w).
Proof.
  intros Hw Hi. unfold Repository.GetUserQuestionIndex.
  rewrite (bind_Ok _ _ _ _ _ (query_healthy _ w Hw)).
  unfold stored_index in Hi.
  destruct (List.filter _ _) as [|p rows]; [discriminate|].
  injection Hi as <-. reflexivity.
Qed.



(** ** The session sequencer *)

Lemma read_op_elim {A} (m : M World A) w a w' :
  read_op m -> m w = Ok (a, w') ->
  wsHub w' = wsHub w /\ db w' = db w /\ (healthy w -> healthy w').
Proof.
  intros Hm E. destruct (Hm w) as (a0 & w0 & E0 & ? & ? & ?).
  rewrite E in E0. by injection E0 as <- <-.
Qed.

Lemma liftHub_Ok {A} (m : M Hub A) w a h' :
  m (wsHub w) = Ok (a, h') -> liftHub m w = Ok (a, set_wsHub (fun _ => h') w).
Proof. intros E. unfold liftHub. by rewrite E. Qed.

(** [ResetQuizProgress] leaves every record of the quiz at index 0. *)
Lemma reset_progress_zero quizID rows p :
  p ∈ map (Repository.reset_progress quizID) rows ->
  Progress_QuizID p = quizID -> NextIndex p = 0.
Proof.
  intros Hp Hq. apply list_elem_of_In, in_map_iff in Hp as (p0 & <- & _).
  unfold Repository.reset_progress in *.
  destruct (bool_decide (Progress_QuizID p0 = quizID)) eqn:E; [reflexivity|].
  apply bool_decide_eq_false in E. done.
Qed.

(** [UpdateQuiz] stores the quiz it is given, and no other row of that
    primary key is left. *)
Lemma Save_quiz_stored q d :
  q ∈ quizzes (Repository.Save_quiz q d)
  /\ forall q', q' ∈ quizzes (Repository.Save_quiz q d) ->
       Quiz_ID q' = Quiz_ID q -> q' = q.
Proof.
  unfold Repository.Save_quiz. cbn.
  destruct (existsb _ (quizzes d)) eqn:E.
  - split.
    + apply existsb_exists in E as (r & Hr & Hid).
      apply list_elem_of_In, in_map_iff. exists r. by rewrite Hid.
    + intros q' Hq' Hid. apply list_elem_of_In, in_map_iff in Hq' as (r & <- & _).
      destruct (bool_decide (Quiz_ID r = Quiz_ID q)) eqn:Er; [reflexivity|].
      apply bool_decide_eq_false in Er. done.
  - split; [apply elem_of_app; right; by left|].
    intros q' Hq' Hid. apply elem_of_app in Hq' as [Hq'|Hq'].
    + exfalso. apply list_elem_of_In in Hq'.
      assert (existsb (fun r => bool_decide (Quiz_ID r = Quiz_ID q)) (quizzes d) = true)
        as Habs; [|congruence].
      apply existsb_exists. exists q'. split; [done|]. by apply bool_decide_eq_true.
    + apply list_elem_of_singleton in Hq'. done.
Qed.

(** C5.  With the store available, a quiz that is found and has at least one
    question, and a room of registered connections: [StartQuiz] returns
    without an error; afterwards every progress record of the quiz is at
    index 0, the stored quiz is active, and question[0] has been queued as a
    [question] event for every connection of the room whose queue had space.
    The state [w] is any state, also one in which the quiz was started and
    completed before. *)
Theorem StartQuiz_resets_activates_broadcasts
    (w w1 : World) (quizCode : string) (userID : uint) (quiz : Quiz)
    (question0 : Question) (rest : list Question) :
  healthy w ->
  Service.GetQuizByCode quizCode w = Ok (Val quiz, w1) ->
  Repository.quiz_questions (db w) (Quiz_ID quiz) = question0 :: rest ->
  quizCode <> "" ->
  (forall c, c ∈ room_of (wsHub w) quizCode -> registered_in (wsHub w) quizCode c) ->
  let message :=
    {| Type_ := "question";
       Data := Service.question_payload (ToDTO question0 true) 0
                 (Service.len (question0 :: rest)) (Quiz_ID quiz) |} in
  exists w',
    Service.StartQuiz quizCode userID w = Ok (None, w')
    /\ (forall p, p ∈ user_quiz_progress (db w') ->
          Progress_QuizID p = Quiz_ID quiz -> NextIndex p = 0)
    /\ (exists q, q ∈ quizzes (db w') /\ Quiz_ID q = Quiz_ID quiz /\ IsActive q = true)
    /\ (forall q, q ∈ quizzes (db w') -> Quiz_ID q = Quiz_ID quiz -> IsActive q = true)
    /\ (forall c, c ∈ room_of (wsHub w) quizCode -> has_space (deref (wsHub w) c) ->
          queue (wsHub w') c = queue (wsHub w) c ++ [message]).
Proof.
  intros Hw Hquiz Hquestions Hcode Hroom message.
  destruct (read_op_elim _ _ _ _ (read_op_Service_GetQuizByCode quizCode) Hquiz)
    as (Hhub1 & Hdb1 & Hw1).
  specialize (Hw1 Hw).
  set (w2 := set_db (set_progress (map (Repository.reset_progress (Quiz_ID quiz)))) w1).
  set (w3 := set_db (Repository.Save_quiz (Service.set_active quiz)) w2).
  destruct (BroadcastToQuiz_room (wsHub w3) quizCode message Hcode)
    as (h' & Hrun & Hdelivered).
  { change (wsHub w3) with (wsHub w1). by rewrite Hhub1. }
  exists (set_wsHub (fun _ => h') w3). split; [|split; [|split; [|split]]].
  - unfold Service.StartQuiz.
    rewrite (bind_Ok _ _ _ _ _ Hquiz).
    unfold Repository.ResetQuizProgress.
    rewrite (bind_Ok _ _ _ _ _ (exec_healthy _ w1 Hw1)). fold w2.
    unfold Repository.GetQuizQuestions.
    rewrite (bind_Ok _ _ _ _ _ (query_healthy _ w2 Hw1)).
    change (Repository.quiz_questions (db w2) (Quiz_ID quiz))
      with (Repository.quiz_questions (db w1) (Quiz_ID quiz)).
    rewrite Hdb1, Hquestions.
    unfold Repository.UpdateQuiz.
    rewrite (bind_Ok _ _ _ _ _ (exec_healthy _ w2 Hw1)). fold w3.
    unfold BroadcastMessage. fold message.
    by rewrite (bind_Ok _ _ _ _ _ (liftHub_Ok _ w3 _ _ Hrun)).
  - intros p Hp.
    exact (reset_progress_zero (Quiz_ID quiz) (user_quiz_progress (db w1)) p Hp).
  - exists (Service.set_active quiz). split; [|done].
    apply (Save_quiz_stored (Service.set_active quiz) (db w2)).
  - intros q Hq Hid.
    by rewrite (proj2 (Save_quiz_stored (Service.set_active quiz) (db w2)) q Hq Hid).
  - intros c Hc Hsp. change (wsHub (set_wsHub (fun _ => h') w3)) with h'.
    rewrite <- Hhub1. apply Hdelivered.
    + change (wsHub w3) with (wsHub w1). by rewrite Hhub1.
    + change (wsHub w3) with (wsHub w1). by rewrite Hhub1.
Qed.

Lemma StartQuiz_resets_activates_broadcasts_witness :
  exists w',
    Service.StartQuiz "ABC123" 1%nat (final one_activation) = Ok (None, w')
    /\ stored_index (db (final one_activation)) 2%nat 1%nat = Some 2
    /\ (forall p, p ∈ user_quiz_progress (db w') ->
          Progress_QuizID p = 1%nat -> NextIndex p = 0)
    /\ last (queue (wsHub w') 11%nat)
       = Some {| Type_ := "question";
                 Data := Service.question_payload (ToDTO question1 true) 0 2 1%nat |}.
Proof.
  edestruct StartQuiz_resets_activates_broadcasts
    with (w := final one_activation) (quizCode := "ABC123") (userID := 1%nat)
    as (w' & Hrun & Hreset & _ & _ & Hqueue).
  - reflexivity.
  - vm_compute. reflexivity.
  - vm_compute. reflexivity.
  - discriminate.
  - intros c.
    apply (bool_decide_unpack
             (set_Forall (fun c => registered_in (wsHub (final one_activation))
                                     "ABC123" c)
                         (room_of (wsHub (final one_activation)) "ABC123"))).
    vm_compute. exact I.
  - exists w'. split; [exact Hrun|]. split; [reflexivity|]. split; [exact Hreset|].
    rewrite (Hqueue 11%nat).
    + apply last_snoc.
    + apply (bool_decide_unpack _). vm_compute. exact I.
    + vm_compute. lia.
Defined.

(** ** Completion *)




(** A user is counted exactly when one of its responses is stored. *)
Lemma elem_of_responders d quizID userID :
  userID ∈ responders d quizID <->
  exists r, r ∈ user_quiz_responses d /\ Response_QuizID r = quizID
            /\ Response_Deleted r = false /\ Response_UserID r = userID.
Proof.
  unfold responders. rewrite elem_of_list_to_set.
  change (map Response_UserID ?l) with (Response_UserID <$> l).
  rewrite list_elem_of_fmap. split.
  - intros (r & -> & Hr). apply list_elem_of_filter in Hr as [[? ?] ?]. eauto 6.
  - intros (r & Hr & ? & ? & <-). exists r. split; [done|].
    by apply list_elem_of_filter.
Qed.


(** [Hub.Run] unregisters a connection with open channels without a panic. *)
Lemma Run_unregister_total h c :
  is_open (deref h c) -> exists h', Run_unregister c h = Ok (tt, h').
Proof.
  intros [Hs Hd]. unfold Run_unregister, bind, get.
  destruct (decide (c ∈ clients h)); [|by eauto].
  destruct (negb (String.eqb (quizCode (deref h c)) ""));
    [destruct (quizRooms h !! quizCode (deref h c))|];
    cbn; unfold close_channels; autorewrite with hub_simpl;
    rewrite Hs, Hd; eauto.
Qed.


(** *** The published leaderboard *)

#[local] Instance zrev_order_total : Total zrev_order.
Proof.
  intros a b. unfold zrev_order.
  destruct (Z.lt_trichotomy (TotalScore a) (TotalScore b)) as [?|[Heq|?]];
    [by right; left | | by left; left].
  destruct (String.leb_total (models.Username a) (models.Username b)); [right|left];
    right; split; congruence.
Qed.

Lemma leaderboard_rows_Permutation d quizID :
  Repository.leaderboard_rows d quizID
  ≡ₚ map (fun name => {| models.Username := name;
                         TotalScore := Repository.sum_for name
                                         (Repository.joined_scores d quizID) |})
         (remove_dups (map fst (Repository.joined_scores d quizID))).
Proof. unfold Repository.leaderboard_rows. apply merge_sort_Permutation. Qed.

Lemma leaderboard_rows_NoDup d quizID :
  NoDup (map models.Username (Repository.leaderboard_rows d quizID)).
Proof.
  rewrite (leaderboard_rows_Permutation d quizID), map_map. cbn.
  rewrite map_id. apply NoDup_remove_dups.
Qed.

Lemma map_to_list_scores (l : list LeaderboardEntry) :
  forall m : gmap string Z,
  NoDup (map models.Username l) ->
  (forall e, e ∈ l -> m !! models.Username e = None) ->
  map_to_list
    (foldl (fun (m : gmap string Z) entry =>
              <[models.Username entry := TotalScore entry]> m) m l)
  ≡ₚ map (fun e => (models.Username e, TotalScore e)) l ++ map_to_list m.
Proof.
  induction l as [|e l IH]; intros m Hnd Hfree; [reflexivity|].
  cbn [foldl map app]. apply NoDup_cons in Hnd as [Hne Hnd].
  rewrite IH; [| done |].
  - rewrite map_to_list_insert by (apply Hfree; left).
    by rewrite <- Permutation_middle.
  - intros e' He'. rewrite lookup_insert_ne; [apply Hfree; by right|].
    intros Heq. apply Hne. rewrite Heq.
    apply list_elem_of_In, in_map, list_elem_of_In, He'.
Qed.

(** The leaderboard as the completion check publishes it.  With the store
    available and the quiz row found, [updateLeaderboard] returns without an
    error and leaves the tables and the hub alone; from then on, while the
    cache is not written again, [GetLeaderboard] of the cache returns, under
    the row's code, the rows of the store's leaderboard: the same entries,
    ranked in the order of the sorted set. *)
Lemma updateLeaderboard_publishes w quizID row :
  healthy w ->
  First (List.filter (fun q => bool_decide (Quiz_ID q = quizID)
                               && negb (Quiz_Deleted q)) (quizzes (db w)))
  = Val row ->
  exists entries w',
    Service.updateLeaderboard quizID w = Ok (None, w')
    /\ healthy w' /\ db w' = db w /\ wsHub w' = wsHub w
    /\ entries ≡ₚ Repository.leaderboard_rows (db w) quizID
    /\ Sorted zrev_order entries
    /\ forall w'', healthy w'' -> cache w'' = cache w' ->
         cache_GetLeaderboard (QuizCode row) w'' = Ok (Val entries, w'').
Proof.
  intros Hw Hquiz.
  set (rows := Repository.leaderboard_rows (db w) quizID).
  set (scores := foldl (fun (m : gmap string Z) entry =>
                          <[models.Username entry := TotalScore entry]> m) ∅ rows).
  set (w2 := set_cache (set_leaderboard_keys (delete (QuizCode row))) w).
  set (w3 := if decide (scores = ∅) then w2
             else set_cache (set_leaderboard_keys <[QuizCode row := scores]>) w2).
  assert (Hw3 : healthy w3) by (unfold w3; by destruct (decide _)).
  assert (Hupdate : Service.updateLeaderboard quizID w = Ok (None, w3)).
  { unfold Service.updateLeaderboard, Repository.GetLeaderboard, Repository.GetQuizByID.
    rewrite (bind_Ok _ _ _ _ _ (query_healthy _ w Hw)).
    rewrite (bind_Ok _ _ _ _ _ (query_healthy _ w Hw)), Hquiz.
    fold rows. fold scores. unfold cache_SetLeaderboard.
    rewrite (bind_Ok _ _ _ _ _ (external_call_healthy w Hw)).
    unfold bind at 1, modify at 1. fold w2.
    rewrite (bind_Ok _ _ _ _ _ (external_call_healthy w2 Hw)).
    unfold w3. by destruct (decide (scores = ∅)). }
  assert (Hzset : default ∅ (leaderboard_keys (cache w3) !! QuizCode row) = scores).
  { unfold w3. destruct (decide (scores = ∅)) as [->|_]; cbn.
    - by rewrite lookup_delete_eq.
    - by rewrite lookup_insert_eq. }
  exists (merge_sort zrev_order
            (map (fun '(member, score) =>
                    {| models.Username := member; TotalScore := score |})
                 (map_to_list scores))), w3.
  split; [exact Hupdate|]. split; [exact Hw3|].
  split; [unfold w3; by destruct (decide _)|].
  split; [unfold w3; by destruct (decide _)|].
  split; [|split].
  - rewrite merge_sort_Permutation.
    unfold scores. rewrite map_to_list_scores.
    + rewrite map_to_list_empty, app_nil_r, map_map.
      rewrite (map_ext _ id); [by rewrite map_id|]. by intros [].
    + apply leaderboard_rows_NoDup.
    + intros e _. apply lookup_empty.
  - apply Sorted_merge_sort. apply _.
  - intros w'' Hw'' Hcache. unfold cache_GetLeaderboard.
    rewrite (bind_Ok _ _ _ _ _ (external_call_healthy w'' Hw'')).
    unfold bind, get, ret. rewrite Hcache, Hzset. reflexivity.
Qed.



(** ** The follow-up of an answer: what it can put into a queue *)

Lemma liftHub_Ok_inv {A} (m : M Hub A) w a w' :
  liftHub m w = Ok (a, w') ->
  exists h', m (wsHub w) = Ok (a, h') /\ w' = set_wsHub (fun _ => h') w.
Proof.
  unfold liftHub. destruct (m (wsHub w)) as [[a0 h']|]; [|discriminate].
  intros [= <- <-]. eauto.
Qed.

Lemma at_index_inv {A} (l : list A) i (w : World) x w' :
  Service.at_index l i w = Ok (x, w') -> w' = w.
Proof.
  unfold Service.at_index. destruct (i <? 0); [discriminate|].
  destruct (l !! Z.to_nat i); [|discriminate]. by intros [= _ <-].
Qed.

(** Run a call that only talks to the store, in a hypothesis. *)
Ltac run_read H lem :=
  let a := fresh "r" in
  let w1 := fresh "w" in
  let E := fresh "E" in
  let Hh := fresh "Hhub" in
  match type of H with
  | bind ?m ?k ?w = _ =>
      destruct (lem w) as (a & w1 & E & Hh & _ & _);
      rewrite (bind_Ok m k w a w1 E) in H; clear E
  end.

(** Turn a hub action on the current world into an action on the hub of
    [w], which the store calls before it have left alone. *)
Ltac hub_action H w :=
  match type of H with
  | liftHub _ ?wx = Ok (_, _) =>
      let Hs := fresh "Hs" in
      let h' := fresh "h'" in
      assert (Hs : wsHub wx = wsHub w) by congruence;
      apply liftHub_Ok_inv in H as (h' & H & ->);
      cbn [wsHub set_wsHub]; rewrite <- Hs
  end.

(** One run of [HandleNextQuestionForUser] appends at most one message to a
    queue, and never a question with the correct-answer marker. *)
Lemma HandleNextQuestionForUser_footprint userID quizCode nextIndex w r w' :
  Service.HandleNextQuestionForUser userID quizCode nextIndex w = Ok (r, w') ->
  forall c,
    queue (wsHub w') c = queue (wsHub w) c
    \/ exists m, queue (wsHub w') c = queue (wsHub w) c ++ [m] /\ harmless m.
Proof.
  unfold Service.HandleNextQuestionForUser. intros H c.
  run_read H (read_op_Service_GetQuizByCode quizCode).
  destruct r0 as [quiz|e]; [|injection H as <- <-; left; by rewrite Hhub].
  run_read H (read_op_query (A := list Question)
                (fun d => Val (Repository.quiz_questions d (Quiz_ID quiz)))).
  destruct r0 as [questions|e]; [|injection H as <- <-; left; congruence].
  unfold Repository.IsUserHost in H.
  match type of H with
  | bind (query ?f) _ _ = _ => run_read H (read_op_query f)
  end.
  destruct (match r0 with Val isHost => isHost | Err _ => false end);
    [injection H as <- <-; left; congruence|].
  assert (Hsame : wsHub w2 = wsHub w) by congruence. clear Hhub Hhub0 Hhub1.
  destruct (Service.len questions <=? nextIndex).
  - unfold Repository.GetFinishedPlayersCount in H.
    match type of H with
    | bind (query ?f) _ _ = _ => run_read H (read_op_query f)
    end.
    destruct r1 as [finished|e]; [|injection H as <- <-; left; congruence].
    unfold Repository.GetUniqueParticipantsForQuiz in H.
    match type of H with
    | bind (query ?f) _ _ = _ => run_read H (read_op_query f)
    end.
    destruct r1 as [participants|e]; [|injection H as <- <-; left; congruence].
    apply bind_Ok_inv in H as ([] & w5 & H & [= <- <-]).
    destruct (participants <=? finished).
    + run_read H (read_op_updateLeaderboard (Quiz_ID quiz)).
      run_read H (read_op_cache_GetLeaderboard (QuizCode quiz)).
      hub_action H w.
      apply BroadcastToQuiz_queue in H as [H _].
      destruct (H c) as [-> | ->]; [by left|right]. eexists. split; reflexivity.
    + hub_action H w.
      destruct (SendMessageToUser_queue _ _ _ _ _ H c) as [-> | [_ ->]];
        [by left|right]. eexists. split; reflexivity.
  - apply bind_Ok_inv in H as (question & w3 & Hq & H).
    apply at_index_inv in Hq as ->.
    apply bind_Ok_inv in H as ([] & w5 & H & [= <- <-]).
    hub_action H w.
    destruct (SendMessageToUser_queue _ _ _ _ _ H c) as [-> | [_ ->]];
      [by left|right]. eexists. split; reflexivity.
Qed.

Lemma final_leaderboards_snoc q m :
  (final_leaderboards (q ++ [m]) <= final_leaderboards q + 1)%nat.
Proof.
  unfold final_leaderboards. rewrite List.filter_app, length_app. cbn.
  destruct (String.eqb (Type_ m) "final_leaderboard"); cbn; lia.
Qed.

(** C1, as the code has it.  One completion check (one run of
    [HandleNextQuestionForUser]) adds at most one [final_leaderboard] event
    to the queue of any connection.  Nothing bounds the number of checks
    that broadcast within one activation. *)
Theorem completion_check_broadcasts_at_most_once
    (w w' : World) (userID : uint) (quizCode : string) (nextIndex : Z) (r : error) :
  Service.HandleNextQuestionForUser userID quizCode nextIndex w = Ok (r, w') ->
  forall c,
    (final_leaderboards (queue (wsHub w') c)
     <= final_leaderboards (queue (wsHub w) c) + 1)%nat.
Proof.
  intros H c.
  destruct (HandleNextQuestionForUser_footprint _ _ _ _ _ _ H c) as [-> | (m & -> & _)].
  - lia.
  - apply final_leaderboards_snoc.
Qed.

Lemma completion_check_broadcasts_at_most_once_witness :
  exists w',
    Service.HandleNextQuestionForUser 2%nat "ABC123" 2 (final both_answered)
    = Ok (None, w')
    /\ final_leaderboards (queue (wsHub (final both_answered)) 10%nat) = 0%nat
    /\ (final_leaderboards (queue (wsHub w') 10%nat) <= 0 + 1)%nat.
Proof.
  eexists. split; [|split].
  - vm_compute. reflexivity.
  - reflexivity.
  - apply (completion_check_broadcasts_at_most_once (final both_answered) _
             2%nat "ABC123" 2 None).
    vm_compute. reflexivity.
Defined.

(** C1, as stated, fails.  In one activation in which ann and bob both
    record their last answer before either completion check runs, each
    check finds finishedCount = totalParticipants = 2 and broadcasts: every
    connection of the room receives [final_leaderboard] twice. *)
Lemma final_leaderboard_broadcast_twice :
  map (fun c => final_leaderboards (queue (wsHub (final one_activation)) c))
      [10%nat; 11%nat; 12%nat]
  = [2%nat; 2%nat; 2%nat].
Proof. vm_compute. reflexivity. Qed.

(** X28.  The participant-driven advance puts no question with the marker into
    any queue. *)
Lemma HandleNextQuestionForUser_no_marker userID quizCode nextIndex w r w' :
  Service.HandleNextQuestionForUser userID quizCode nextIndex w = Ok (r, w') ->
  forall c,
    List.filter question_with_marker (queue (wsHub w') c)
    = List.filter question_with_marker (queue (wsHub w) c).
Proof.
  intros H c.
  destruct (HandleNextQuestionForUser_footprint _ _ _ _ _ _ H c)
    as [-> | (m & -> & Hm)]; [reflexivity|].
  rewrite List.filter_app. cbn. unfold harmless in Hm. rewrite Hm.
  apply app_nil_r.
Qed.

(** ** The membership invariant *)

(** In a hub that satisfies the invariant the connections of a room are
    registered, and the room's code is not empty. *)
Lemma hub_ok_registered h code c :
  hub_ok h -> c ∈ room_of h code -> registered_in h code c /\ code <> "".
Proof.
  intros (Hempty & Hclients & Hrooms) Hc.
  destruct (Hrooms code c Hc) as [Hin Hcode].
  destruct (Hclients c Hin) as [Hopen _].
  split; [done|]. intros ->. unfold room_of in Hc. rewrite Hempty in Hc.
  by apply not_elem_of_empty in Hc.
Qed.

Lemma hub_ok_NewHub : hub_ok NewHub.
Proof.
  split; [reflexivity|]. split.
  - intros c Hc. by apply not_elem_of_empty in Hc.
  - intros code c Hc. unfold room_of in Hc. cbn in Hc.
    rewrite lookup_empty in Hc. by apply not_elem_of_empty in Hc.
Qed.

Lemma room_of_inserted h h' code room code' :
  quizRooms h' = <[code := room]> (quizRooms h) ->
  room_of h' code' = if decide (code = code') then room else room_of h code'.
Proof.
  intros Hr. unfold room_of. rewrite Hr.
  destruct (decide (code = code')) as [<-|Hne].
  - by rewrite lookup_insert_eq.
  - by rewrite lookup_insert_ne.
Qed.

Lemma deref_inserted h h' c cl c' :
  heap h' = <[c := cl]> (heap h) ->
  deref h' c' = if decide (c = c') then cl else deref h c'.
Proof.
  intros Hh. unfold deref. rewrite Hh.
  destruct (decide (c = c')) as [<-|Hne].
  - by rewrite lookup_insert_eq.
  - by rewrite lookup_insert_ne.
Qed.

(** The invariant only reads the membership maps, the channel flags and
    the codes of the clients. *)
Lemma hub_ok_ext h h' :
  clients h' = clients h -> quizRooms h' = quizRooms h ->
  (forall c, is_open (deref h c) -> is_open (deref h' c)) ->
  (forall c, quizCode (deref h' c) = quizCode (deref h c)) ->
  hub_ok h -> hub_ok h'.
Proof.
  intros Hcl Hr Hopen Hcode (Hempty & Hclients & Hrooms).
  unfold hub_ok, room_of in *. rewrite Hcl, Hr.
  split; [done|]. split.
  - intros c Hc. rewrite Hcode. destruct (Hclients c Hc). split; [by apply Hopen|done].
  - intros code c Hc. rewrite Hcode. by apply Hrooms.
Qed.

(** Adding a new open client to the room of its code keeps the invariant. *)
Lemma hub_ok_added h h' c code cl :
  hub_ok h -> c ∉ clients h -> code <> "" ->
  is_open cl -> quizCode cl = code ->
  clients h' = clients h ∪ {[c]} ->
  quizRooms h' = <[code := room_of h code ∪ {[c]}]> (quizRooms h) ->
  heap h' = <[c := cl]> (heap h) ->
  hub_ok h'.
Proof.
  intros (Hempty & Hclients & Hrooms) Hnew Hcode Hopen Hcl Hc' Hr' Hh'.
  split; [|split].
  - rewrite Hr'. by rewrite lookup_insert_ne.
  - intros c' Hin. rewrite (deref_inserted h h' c cl c' Hh').
    destruct (decide (c = c')) as [<-|Hne].
    + split; [done|]. rewrite Hcl, (room_of_inserted h h' code _ code Hr').
      rewrite decide_True by done. set_solver.
    + rewrite Hc' in Hin. apply elem_of_union in Hin as [Hin|Hin]; [|set_solver].
      destruct (Hclients c' Hin) as [? Hroom]. split; [done|].
      rewrite (room_of_inserted h h' code _ _ Hr').
      destruct (decide (code = quizCode (deref h c'))) as [->|]; [set_solver|done].
  - intros code' c' Hin. rewrite (room_of_inserted h h' code _ code' Hr') in Hin.
    rewrite (deref_inserted h h' c cl c' Hh'), Hc'.
    destruct (decide (code = code')) as [<-|Hne].
    + apply elem_of_union in Hin as [Hin|Hin].
      * destruct (Hrooms code c' Hin) as [? ?].
        destruct (decide (c = c')) as [<-|]; [done|]. split; [set_solver|done].
      * apply elem_of_singleton in Hin as ->. rewrite decide_True by done.
        split; [set_solver|done].
    + destruct (Hrooms code' c' Hin) as [? ?].
      destruct (decide (c = c')) as [<-|]; [done|]. split; [set_solver|done].
Qed.

(** Removing a client from [h.clients] and from its room, and closing its
    channels, keeps the invariant. *)
Lemma hub_ok_removed h h' c :
  hub_ok h ->
  clients h' = clients h ∖ {[c]} ->
  quizRooms h'
  = <[quizCode (deref h c) := room_of h (quizCode (deref h c)) ∖ {[c]}]> (quizRooms h) ->
  heap h' = <[c := set_closed (deref h c)]> (heap h) ->
  c ∈ clients h ->
  hub_ok h'.
Proof.
  intros (Hempty & Hclients & Hrooms) Hc' Hr' Hh' Hc.
  destruct (Hclients c Hc) as [_ Hcroom].
  assert (Hcode : quizCode (deref h c) <> "").
  { intros E. rewrite E in Hcroom. unfold room_of in Hcroom.
    rewrite Hempty in Hcroom. by apply not_elem_of_empty in Hcroom. }
  split; [|split].
  - rewrite Hr'. by rewrite lookup_insert_ne.
  - intros c' Hin. rewrite Hc' in Hin. apply elem_of_difference in Hin as [Hin Hne].
    rewrite elem_of_singleton in Hne.
    rewrite (deref_inserted h h' c _ c' Hh'), decide_False by done.
    destruct (Hclients c' Hin) as [? Hroom]. split; [done|].
    rewrite (room_of_inserted h h' _ _ _ Hr').
    destruct (decide _) as [E|]; [|done]. rewrite E.
    apply elem_of_difference. split; [done|]. by rewrite elem_of_singleton.
  - intros code' c' Hin. rewrite (room_of_inserted h h' _ _ code' Hr') in Hin.
    rewrite Hc'. destruct (decide _) as [<-|Hne] in Hin.
    + apply elem_of_difference in Hin as [Hin Hne]. rewrite elem_of_singleton in Hne.
      rewrite (deref_inserted h h' c _ c' Hh'), decide_False by done.
      destruct (Hrooms _ c' Hin). split; [set_solver|done].
    + destruct (Hrooms code' c' Hin) as [? Hq].
      assert (c <> c') by (intros ->; done).
      rewrite (deref_inserted h h' c _ c' Hh'), decide_False by done.
      split; [set_solver|done].
Qed.

(** [HandleWebSocket]: a new client, registered for a non-empty code, is in
    the room, and the invariant is kept. *)
Lemma hub_ok_HandleWebSocket h c code :
  hub_ok h -> heap h !! c = None -> code <> "" ->
  exists h',
    (NewClient c code ;; RegisterClient c code) h = Ok (tt, h')
    /\ hub_ok h' /\ c ∈ room_of h' code.
Proof.
  intros Hok Hfresh Hcode.
  assert (Hnew : c ∉ clients h).
  { intros Hc. destruct Hok as (_ & Hclients & _).
    destruct (Hclients c Hc) as [[Hs _] _].
    unfold deref in Hs. by rewrite Hfresh in Hs. }
  set (cl := {| send := []; send_closed := false; quizCode := code; user := None;
                isHost := false; done_closed := false |}).
  assert (exists h',
            (NewClient c code ;; RegisterClient c code) h = Ok (tt, h')
            /\ clients h' = clients h ∪ {[c]}
            /\ quizRooms h' = <[code := room_of h code ∪ {[c]}]> (quizRooms h)
            /\ heap h' = <[c := cl]> (heap h)) as (h' & Hrun & Hc' & Hr' & Hh').
  { unfold NewClient, RegisterClient, bind, get, ret, modify, go, room_of. cbn.
    destruct (quizRooms h !! code) as [room|] eqn:Hroom; cbn;
      eexists; (split; [reflexivity|]); cbn.
    - by rewrite Hroom.
    - by rewrite lookup_insert_eq, insert_insert_eq. }
  exists h'. split; [done|]. split.
  - by apply (hub_ok_added h h' c code cl).
  - rewrite (room_of_inserted h h' code _ code Hr'), decide_True by done. set_solver.
Qed.

(** [Hub.Run] serves an unregistration without a panic and keeps the
    invariant. *)
Lemma hub_ok_Run_unregister h c :
  hub_ok h -> exists h', Run_unregister c h = Ok (tt, h') /\ hub_ok h'.
Proof.
  intros Hok. destruct (decide (c ∈ clients h)) as [Hc|Hc].
  2:{ exists h. split; [by apply Run_unregister_absent|done]. }
  pose proof Hok as (Hempty & Hclients & Hrooms).
  destruct (Hclients c Hc) as [Hopen Hroom].
  destruct (quizRooms h !! quizCode (deref h c)) as [r|] eqn:Hr.
  2:{ unfold room_of in Hroom. rewrite Hr in Hroom. by apply not_elem_of_empty in Hroom. }
  destruct (Run_unregister_member h c (quizCode (deref h c)) r)
    as (h' & Hrun & Hc' & Hr' & Hh'); try done.
  { intros E. rewrite E in Hr. congruence. }
  exists h'. split; [done|]. apply (hub_ok_removed h h' c); try done.
  unfold room_of. by rewrite Hr.
Qed.

(** One iteration of the broadcast loop, for any client. *)
Lemma hub_ok_send_or_unregister m c h :
  hub_ok h -> exists h', send_or_unregister m c h = Ok (tt, h') /\ hub_ok h'.
Proof.
  intros Hok. unfold send_or_unregister, bind, try_send.
  destruct (send_closed (deref h c)) eqn:Hs; [by apply hub_ok_Run_unregister|].
  destruct (decide (length (send (deref h c)) < send_capacity)%nat);
    [|by apply hub_ok_Run_unregister].
  eexists. split; [reflexivity|].
  eapply (hub_ok_ext h); [reflexivity | reflexivity | | | exact Hok].
  - intros c'. destruct (decide (c = c')) as [<-|Hne].
    + by rewrite deref_insert_eq.
    + by rewrite deref_insert_ne.
  - intros c'. destruct (decide (c = c')) as [<-|Hne].
    + by rewrite deref_insert_eq.
    + by rewrite deref_insert_ne.
Qed.

(** A broadcast returns and keeps the invariant. *)
Lemma hub_ok_BroadcastToQuiz code m h :
  hub_ok h -> exists h', BroadcastToQuiz code m h = Ok (tt, h') /\ hub_ok h'.
Proof.
  intros Hok. unfold BroadcastToQuiz, bind, get.
  destruct (decide _) as [|_]; [by exists h|].
  generalize (elements (default ∅ (quizRooms h !! code))). intros l.
  revert h Hok. induction l as [|c l IH]; intros h Hok; [by exists h|].
  destruct (hub_ok_send_or_unregister m c h Hok) as (h1 & Hstep & Hok1).
  destruct (IH h1 Hok1) as (h' & Hloop & Hok').
  exists h'. split; [|done]. cbn [forM_]. by rewrite (bind_Ok _ _ _ _ _ Hstep).
Qed.

(** * Further properties *)

Import Conn Codes more.

(** What an unregistration served by [Hub.Run] leaves alone, and what it
    does to the client. *)
Lemma Run_unregister_frame h c h' :
  Run_unregister c h = Ok (tt, h') ->
  hosts h' = hosts h /\ clientsByUser h' = clientsByUser h
  /\ (forall c', c' <> c ->
        deref h' c' = deref h c' /\ (c' ∈ clients h' <-> c' ∈ clients h))
  /\ (c ∈ clients h ->
        send_closed (deref h' c) = true /\ send (deref h' c) = send (deref h c)).
Proof.
  unfold Run_unregister, bind, get.
  destruct (decide (c ∈ clients h)) as [Hc|Hc]; cbn.
  2:{ intros [= <-]. done. }
  set (code := quizCode (deref h c)).
  assert (Hclose : forall h1 h2, close_channels c h1 = Ok (tt, h2) ->
            hosts h2 = hosts h1 /\ clientsByUser h2 = clientsByUser h1
            /\ clients h2 = clients h1
            /\ (forall c', c' <> c -> deref h2 c' = deref h1 c')
            /\ send_closed (deref h2 c) = true
            /\ send (deref h2 c) = send (deref h1 c)).
  { intros h1 h2. unfold close_channels.
    destruct (send_closed (deref h1 c)); [discriminate|].
    destruct (done_closed (deref h1 c)); [discriminate|].
    intros [= <-]. repeat split.
    - intros c' Hne. by rewrite deref_insert_ne.
    - by rewrite deref_insert_eq.
    - by rewrite deref_insert_eq. }
  destruct (negb (String.eqb code "")); [destruct (quizRooms h !! code)|];
    cbn; intros H; apply Hclose in H as (Hh & Hu & Hcl & Hd & Hs & Hq);
    cbn in *; (split; [done|]); (split; [done|]); (split; [|done]);
    intros c' Hne; rewrite (Hd c' Hne), Hcl, elem_of_difference, elem_of_singleton;
    (split; [reflexivity|tauto]).
Qed.

Lemma send_or_unregister_frame m c h h' :
  send_or_unregister m c h = Ok (tt, h') ->
  hosts h' = hosts h /\ clientsByUser h' = clientsByUser h
  /\ (forall c', c' <> c ->
        deref h' c' = deref h c' /\ (c' ∈ clients h' <-> c' ∈ clients h)).
Proof.
  unfold send_or_unregister. intros H.
  apply bind_Ok_inv in H as (r & h1 & Hsend & H).
  apply try_send_inv in Hsend as [[-> ->]|[Hr ->]].
  - injection H as <-. repeat split; try done.
    by rewrite deref_insert_ne.
  - assert (Hun : Run_unregister c h = Ok (tt, h')) by (by destruct r).
    apply Run_unregister_frame in Hun as (? & ? & ? & _). done.
Qed.

Lemma broadcast_loop_frame m l :
  forall h h',
  forM_ l (send_or_unregister m) h = Ok (tt, h') ->
  hosts h' = hosts h /\ clientsByUser h' = clientsByUser h
  /\ (forall c, c ∉ l ->
        deref h' c = deref h c /\ (c ∈ clients h' <-> c ∈ clients h)).
Proof.
  induction l as [|x l IH]; intros h h' H.
  - injection H as <-. done.
  - cbn [forM_] in H. apply bind_Ok_inv in H as ([] & h1 & Hstep & Hrest).
    apply send_or_unregister_frame in Hstep as (Hh1 & Hu1 & Hother).
    apply IH in Hrest as (Hh2 & Hu2 & Hout).
    split; [congruence|]. split; [congruence|].
    intros c Hc. apply not_elem_of_cons in Hc as [Hne Hc].
    destruct (Hout c Hc) as [-> ->]. by apply Hother.
Qed.

Lemma BroadcastToQuiz_frame h code message h' :
  BroadcastToQuiz code message h = Ok (tt, h') ->
  hosts h' = hosts h /\ clientsByUser h' = clientsByUser h
  /\ forall c, c ∉ room_of h code ->
       deref h' c = deref h c /\ (c ∈ clients h' <-> c ∈ clients h).
Proof.
  unfold BroadcastToQuiz, bind, get, room_of.
  destruct (decide (size (default ∅ (quizRooms h !! code)) = 0%nat)).
  - intros [= <-]. done.
  - intros H. apply broadcast_loop_frame in H as (Hh & Hu & Hout).
    split; [done|]. split; [done|]. intros c Hc. apply Hout.
    by rewrite elem_of_elements.
Qed.

(** X1.  A broadcast for one code leaves the connections outside that room as
    they are (the same queue and channel state, the same membership of
    [h.clients]), changes neither identity map, and appends at most the
    message, once, to the queue of a connection of the room. *)
Theorem BroadcastToQuiz_leaves_other_rooms_alone h code message h' :
  BroadcastToQuiz code message h = Ok (tt, h') ->
  hosts h' = hosts h /\ clientsByUser h' = clientsByUser h
  /\ (forall c, c ∉ room_of h code ->
        deref h' c = deref h c /\ (c ∈ clients h' <-> c ∈ clients h))
  /\ (forall c, c ∈ room_of h code ->
        queue h' c = queue h c \/ queue h' c = queue h c ++ [message]).
Proof.
  intros H.
  destruct (BroadcastToQuiz_frame h code message h' H) as (Hh & Hu & Hout).
  destruct (BroadcastToQuiz_queue code message h h' H) as [Hq _].
  split; [done|]. split; [done|]. split; [done|].
  intros c _. apply Hq.
Qed.

Lemma BroadcastToQuiz_leaves_other_rooms_alone_witness :
  exists h',
    BroadcastToQuiz "ABC123" quiz_end two_rooms = Ok (tt, h')
    /\ queue h' 10%nat = [quiz_end]
    /\ deref h' 20%nat = deref two_rooms 20%nat.
Proof.
  destruct (BroadcastToQuiz "ABC123" quiz_end two_rooms) as [[[] h']|] eqn:E;
    [|vm_compute in E; discriminate].
  exists h'. split; [reflexivity|]. split.
  - vm_compute in E. injection E as <-. reflexivity.
  - apply (BroadcastToQuiz_leaves_other_rooms_alone two_rooms "ABC123" quiz_end h' E).
    apply (bool_decide_unpack _). vm_compute. exact I.
Defined.

(** X2.  [Hub.Run] closes the channels of the client it unregisters but keeps
    the client in [h.clientsByUser]; the next targeted send to that user
    panics on the closed channel. *)
Theorem SendMessageToUser_after_Run_unregister_panics
    h userID c messageType data :
  clientsByUser h !! userID = Some c ->
  c ∈ clients h ->
  is_open (deref h c) ->
  exists h',
    Run_unregister c h = Ok (tt, h')
    /\ clientsByUser h' !! userID = Some c
    /\ SendMessageToUser userID messageType data h'
       = Panic "send on closed channel" h'.
Proof.
  intros Hu Hc Hopen.
  destruct (Run_unregister_total h c Hopen) as (h' & Hrun).
  exists h'. split; [done|].
  apply Run_unregister_frame in Hrun as (_ & Hmap & _ & Hclosed).
  destruct (Hclosed Hc) as [Hs _].
  split; [by rewrite Hmap|].
  unfold SendMessageToUser, bind, get. rewrite Hmap, Hu.
  unfold try_send. by rewrite Hs.
Qed.

Lemma SendMessageToUser_after_Run_unregister_panics_witness :
  exists h',
    Run_unregister 11%nat (wsHub (final everyone_joins)) = Ok (tt, h')
    /\ clientsByUser h' !! 2%nat = Some 11%nat
    /\ SendMessageToUser 2%nat "quiz_end_wait" Service.wait_notice h'
       = Panic "send on closed channel" h'.
Proof.
  apply (SendMessageToUser_after_Run_unregister_panics
           (wsHub (final everyone_joins)) 2%nat 11%nat).
  - vm_compute. reflexivity.
  - apply (bool_decide_unpack _). vm_compute. exact I.
  - vm_compute. done.
Defined.

(** What [UnregisterClient] does to the identity maps when the room of the
    client's code exists. *)
Lemma UnregisterClient_identity_maps h c h' room u :
  quizRooms h !! quizCode (deref h c) = Some room ->
  user (deref h c) = Some u ->
  UnregisterClient c h = Ok (tt, h') ->
  clientsByUser h' = delete (UserID u) (clientsByUser h)
  /\ hosts h' = delete (UserID u) (hosts h).
Proof.
  intros Hroom Huser. unfold UnregisterClient. intros H.
  apply bind_Ok_inv in H as (h0 & h1 & [= <- <-] & H).
  rewrite Hroom, Huser in H.
  repeat (apply bind_Ok_inv in H as ([] & ? & [= <-] & H)).
  apply bind_Ok_inv in H as (h2 & h3 & [= <- <-] & H).
  apply bind_Ok_inv in H as ([] & h4 & [= <-] & H).
  apply bind_Ok_inv in H as ([] & h5 & Hgo & H).
  assert (Hgo' : clientsByUser h5 = delete (UserID u) (clientsByUser h)
                 /\ hosts h5 = delete (UserID u) (hosts h)).
  { destruct (negb (isHost (deref h c))); cbn in Hgo; injection Hgo as <-; done. }
  destruct Hgo' as (Hu5 & Hh5). clear Hgo.
  apply bind_Ok_inv in H as ([] & h6 & Hclose & H).
  assert (Hclose' : clientsByUser h6 = clientsByUser h5 /\ hosts h6 = hosts h5).
  { unfold close_channels in Hclose.
    destruct (send_closed (deref h5 c)); [discriminate|].
    destruct (done_closed (deref h5 c)); [discriminate|].
    by injection Hclose as <-. }
  destruct Hclose' as (Hu6 & Hh6).
  apply bind_Ok_inv in H as ([] & h7 & Hb1 & Hb2).
  apply BroadcastToQuiz_frame in Hb1 as (Hh7 & Hu7 & _).
  apply BroadcastToQuiz_frame in Hb2 as (Hh8 & Hu8 & _).
  split; congruence.
Qed.

(** X3.  [UnregisterClient] deletes the entries of the client's user from both
    identity maps without looking at the client they point to: also when the
    user has since joined on another connection, a targeted send to the user
    finds no connection afterwards and does nothing. *)
Theorem UnregisterClient_forgets_the_user
    h c h' room u messageType data :
  quizRooms h !! quizCode (deref h c) = Some room ->
  user (deref h c) = Some u ->
  UnregisterClient c h = Ok (tt, h') ->
  clientsByUser h' !! UserID u = None
  /\ hosts h' !! UserID u = None
  /\ SendMessageToUser (UserID u) messageType data h' = Ok (tt, h').
Proof.
  intros Hroom Huser H.
  destruct (UnregisterClient_identity_maps h c h' room u Hroom Huser H) as [Hu Hh].
  assert (Hnone : clientsByUser h' !! UserID u = None)
    by (rewrite Hu; apply lookup_delete_eq).
  split; [done|]. split; [rewrite Hh; apply lookup_delete_eq|].
  unfold SendMessageToUser, bind, get. by rewrite Hnone.
Qed.

Lemma UnregisterClient_forgets_the_user_witness :
  clientsByUser (wsHub (final ann_reconnects)) !! 2%nat = Some 13%nat
  /\ exists h',
       UnregisterClient 11%nat (wsHub (final ann_reconnects)) = Ok (tt, h')
       /\ 13%nat ∈ clients h'
       /\ clientsByUser h' !! 2%nat = None
       /\ SendMessageToUser 2%nat "quiz_end_wait" Service.wait_notice h' = Ok (tt, h').
Proof.
  split; [vm_compute; reflexivity|].
  destruct (UnregisterClient 11%nat (wsHub (final ann_reconnects)))
    as [[[] h']|] eqn:E; [|vm_compute in E; discriminate].
  exists h'. split; [reflexivity|].
  edestruct (UnregisterClient_forgets_the_user (wsHub (final ann_reconnects))
               11%nat h') as (Hu & _ & Hsend).
  - vm_compute. reflexivity.
  - vm_compute. reflexivity.
  - exact E.
  - split; [|split; [exact Hu|exact Hsend]].
    vm_compute in E. injection E as <-.
    apply (bool_decide_unpack _). vm_compute. exact I.
Defined.

(** ** The membership invariant along the steps of the hub *)

Lemma HandleWebSocket_accepts h quizCode :
  quizCode <> "" ->
  HandleWebSocket quizCode true h
  = match (NewClient (new_address h) quizCode ;;
           RegisterClient (new_address h) quizCode) h with
    | Ok (_, h') => Ok (Some (new_address h), h')
    | Panic reason s => Panic reason s
    end.
Proof.
  intros Hcode. unfold HandleWebSocket.
  destruct (String.eqb_spec quizCode ""); [done|]. cbn [negb].
  unfold NewClient, get, modify, ret, bind.
  by destruct (RegisterClient _ _ _) as [[[] h2]|].
Qed.

Lemma hub_ok_HandleWebSocket_step h quizCode upgraded r h' :
  hub_ok h -> HandleWebSocket quizCode upgraded h = Ok (r, h') -> hub_ok h'.
Proof.
  intros Hok.
  destruct (String.eqb_spec quizCode "") as [->|Hcode]; [by intros [= _ <-]|].
  destruct upgraded.
  2:{ unfold HandleWebSocket. destruct (String.eqb_spec quizCode ""); [done|].
      by intros [= _ <-]. }
  rewrite HandleWebSocket_accepts by done.
  destruct (hub_ok_HandleWebSocket h (new_address h) quizCode Hok)
    as (h1 & Hrun & Hok1 & _); [|done|].
  { apply not_elem_of_dom. unfold new_address. apply is_fresh. }
  rewrite Hrun. by intros [= _ <-].
Qed.

Lemma hub_ok_SendMessageToUser h userID messageType data h' :
  hub_ok h -> SendMessageToUser userID messageType data h = Ok (tt, h') -> hub_ok h'.
Proof.
  intros Hok. unfold SendMessageToUser. intros H.
  apply bind_Ok_inv in H as (h0 & h1 & [= <- <-] & H).
  destruct (clientsByUser h !! userID) as [client|]; [|by injection H as <-].
  apply bind_Ok_inv in H as (r & h1 & Hsend & H).
  apply try_send_inv in Hsend as [[-> ->]|[Hr ->]].
  - injection H as <-.
    eapply (hub_ok_ext h); [reflexivity | reflexivity | | | exact Hok];
      intros c'; (destruct (decide (client = c')) as [<-|Hne];
                  [by rewrite deref_insert_eq | by rewrite deref_insert_ne]).
  - destruct r; [done| |discriminate].
    destruct (hub_ok_Run_unregister h client Hok) as (h2 & Hrun & Hok2).
    rewrite Hrun in H. by injection H as <-.
Qed.

Lemma hub_ok_BroadcastMessage h quizCode messageType data h' :
  hub_ok h -> BroadcastMessage quizCode messageType data h = Ok (tt, h') -> hub_ok h'.
Proof.
  intros Hok H. unfold BroadcastMessage in H.
  destruct (hub_ok_BroadcastToQuiz quizCode {| Type_ := messageType; Data := data |}
              h Hok) as (h2 & Hrun & Hok2).
  rewrite Hrun in H. by injection H as <-.
Qed.

Lemma hub_ok_join h c info (host : bool) :
  hub_ok h ->
  hub_ok ((if host then set_hosts <[UserID info := c]>
           else set_clientsByUser <[UserID info := c]>)
            (set_heap <[c := set_user (Some info) host (deref h c)]> h)).
Proof.
  intros Hok.
  eapply (hub_ok_ext h); [by destruct host | by destruct host | | | exact Hok];
    intros c'; (destruct host; cbn;
      rewrite ?deref_set_hosts, ?deref_set_clientsByUser;
      (destruct (decide (c = c')) as [<-|Hne];
       [by rewrite deref_insert_eq | by rewrite deref_insert_ne])).
Qed.

Lemma hub_ok_step h h' : hub_ok h -> hub_step h h' -> hub_ok h'.
Proof.
  intros Hok Hstep.
  destruct Hstep as [quizCode upgraded r h' H | c h' H
                    | quizCode messageType data h' H
                    | userID messageType data h' H | quizCode h' H | c info host
                    | t | i].
  - by eapply hub_ok_HandleWebSocket_step.
  - destruct (hub_ok_Run_unregister h c Hok) as (h2 & Hrun & Hok2).
    rewrite Hrun in H. by injection H as <-.
  - by eapply hub_ok_BroadcastMessage.
  - by eapply hub_ok_SendMessageToUser.
  - unfold SendParticipantList in H.
    apply bind_Ok_inv in H as (h0 & h1 & [= <- <-] & H).
    destruct (quizRooms h !! quizCode); [|by injection H as <-].
    apply bind_Ok_inv in H as ([] & h1 & H1 & H2).
    eapply hub_ok_BroadcastMessage; [|exact H2].
    by eapply hub_ok_BroadcastMessage.
  - by apply hub_ok_join.
  - by apply (hub_ok_ext h).
  - by apply (hub_ok_ext h).
Qed.

(** X4.  The membership invariant holds in every hub reached from the new hub by
    accepting connections, unregistrations served by [Hub.Run], broadcasts,
    targeted sends, participant-list announcements and [join_quiz]
    announcements: every client of [h.clients] has open channels and is in
    the room of its code, and every client of a room is in [h.clients]. *)
Theorem reachable_hub_ok h : reachable h -> hub_ok h.
Proof.
  induction 1 as [|h h' _ IH Hstep]; [apply hub_ok_NewHub|].
  exact (hub_ok_step h h' IH Hstep).
Qed.

Lemma reachable_hub_ok_witness :
  exists c h, HandleWebSocket "ABC123" true NewHub = Ok (Some c, h) /\ hub_ok h.
Proof.
  destruct (HandleWebSocket "ABC123" true NewHub) as [[[c|] h]|] eqn:E;
    [|vm_compute in E; discriminate..].
  exists c, h. split; [reflexivity|].
  apply reachable_hub_ok.
  apply (reachable_step NewHub h reachable_new).
  exact (step_accept NewHub "ABC123" true (Some c) h E).
Defined.

(** X5.  In a hub reached by these steps a broadcast returns: no send of its
    loop panics, whatever the room, and the hub it leaves is reachable
    again. *)
Theorem reachable_broadcast_returns h quizCode messageType data :
  reachable h ->
  exists h', BroadcastMessage quizCode messageType data h = Ok (tt, h')
             /\ reachable h'.
Proof.
  intros Hr.
  assert (Hok : hub_ok h).
  { clear quizCode messageType data.
    induction Hr as [|h h' _ IH Hstep]; [apply hub_ok_NewHub|].
    exact (hub_ok_step h h' IH Hstep). }
  destruct (hub_ok_BroadcastToQuiz quizCode {| Type_ := messageType; Data := data |}
              h Hok) as (h' & Hrun & _).
  exists h'. split; [exact Hrun|].
  exact (reachable_step h h' Hr (step_broadcast h quizCode messageType data h' Hrun)).
Qed.

Lemma reachable_broadcast_returns_witness :
  exists c h h',
    HandleWebSocket "ABC123" true NewHub = Ok (Some c, h)
    /\ BroadcastMessage "ABC123" "quiz_end" Nil h = Ok (tt, h')
    /\ reachable h'.
Proof.
  destruct (HandleWebSocket "ABC123" true NewHub) as [[[c|] h]|] eqn:E;
    [|vm_compute in E; discriminate..].
  destruct (reachable_broadcast_returns h "ABC123" "quiz_end" Nil) as (h' & Hrun & Hr).
  - apply (reachable_step NewHub h reachable_new).
    exact (step_accept NewHub "ABC123" true (Some c) h E).
  - exists c, h, h'. split; [reflexivity|]. split; [exact Hrun|exact Hr].
Defined.

(** ** Accepting a connection and reading from it *)

(** X6.  A connection request never panics in a hub that satisfies the
    membership invariant.  It is refused, and the hub left as it is, exactly
    when the code is empty or the upgrade fails; otherwise the client is a
    new one, registered in the room of the code with open channels. *)
Theorem HandleWebSocket_registers_a_new_client h quizCode upgraded :
  hub_ok h ->
  exists r h',
    HandleWebSocket quizCode upgraded h = Ok (r, h')
    /\ hub_ok h'
    /\ match r with
       | None => (quizCode = "" \/ upgraded = false) /\ h' = h
       | Some c =>
           quizCode <> "" /\ upgraded = true
           /\ heap h !! c = None /\ registered_in h' quizCode c
       end.
Proof.
  intros Hok.
  destruct (String.eqb_spec quizCode "") as [->|Hcode].
  { exists None, h. split; [reflexivity|]. split; [done|]. split; [by left|done]. }
  destruct upgraded.
  2:{ exists None, h. split.
      - unfold HandleWebSocket. by destruct (String.eqb_spec quizCode "").
      - split; [done|]. split; [by right|done]. }
  assert (Hfresh : heap h !! new_address h = None).
  { apply not_elem_of_dom. unfold new_address. apply is_fresh. }
  destruct (hub_ok_HandleWebSocket h (new_address h) quizCode Hok Hfresh Hcode)
    as (h1 & Hrun & Hok1 & Hroom).
  exists (Some (new_address h)), h1. split.
  - rewrite HandleWebSocket_accepts by done. by rewrite Hrun.
  - split; [done|]. split; [done|]. split; [done|]. split; [done|].
    by apply (hub_ok_registered h1 quizCode).
Qed.

Lemma HandleWebSocket_registers_a_new_client_witness :
  exists c1 h1 c2 h2,
    HandleWebSocket "ABC123" true NewHub = Ok (Some c1, h1)
    /\ HandleWebSocket "XYZ789" true h1 = Ok (Some c2, h2)
    /\ heap h1 !! c2 = None /\ registered_in h2 "XYZ789" c2.
Proof.
  destruct (HandleWebSocket "ABC123" true NewHub) as [[[c1|] h1]|] eqn:E1;
    [|vm_compute in E1; discriminate..].
  destruct (HandleWebSocket_registers_a_new_client h1 "XYZ789" true)
    as ([c2|] & h2 & Hrun & _ & Hr).
  - exact (hub_ok_HandleWebSocket_step NewHub "ABC123" true (Some c1) h1
             hub_ok_NewHub E1).
  - destruct Hr as (_ & _ & Hfresh & Hreg). by exists c1, h1, c2, h2.
  - exfalso. destruct Hr as [[Hr|Hr] _]; discriminate.
Defined.

Section pump.
Variable json_Unmarshal : string -> option Message.

(** X7.  When [readPump] returns, [Hub.Run] has taken the client out of
    [h.clients], whatever the frames were; the unregistration itself
    changes no outbound queue. *)
Theorem readPump_unregisters c frames w w' :
  readPump json_Unmarshal c frames w = Ok (tt, w') ->
  c ∉ clients (wsHub w').
Proof.
  unfold readPump. intros H.
  apply bind_Ok_inv in H as ([] & w1 & _ & H).
  apply liftHub_Ok_inv in H as (h' & H & ->).
  apply Run_unregister_inv in H as (Hc & _). exact Hc.
Qed.

(** X8.  A frame longer than the read limit of 512 bytes ends the read loop:
    neither it nor any frame after it is handled. *)
Theorem readPump_stops_at_oversized_frame c frames big rest w :
  (maxMessageSize < String.length big)%nat ->
  readPump json_Unmarshal c (frames ++ big :: rest) w
  = readPump json_Unmarshal c frames w.
Proof.
  intros Hbig. unfold readPump.
  assert (Hloop : forall w, read_loop json_Unmarshal c (frames ++ big :: rest) w
                            = read_loop json_Unmarshal c frames w).
  { induction frames as [|f fs IH]; intros w0; cbn [app read_loop].
    - by rewrite (proj2 (Nat.ltb_lt _ _) Hbig).
    - destruct (maxMessageSize <? String.length f)%nat; [reflexivity|].
      unfold bind.
      destruct (Client.handleMessage json_Unmarshal c f w0) as [[[] w1]|]; [|done].
      apply IH. }
  unfold bind. by rewrite Hloop.
Qed.
End pump.

Lemma readPump_unregisters_witness :
  11%nat ∈ clients (wsHub (final everyone_joins))
  /\ exists w',
       readPump (fun _ => Some filler) 11%nat ["ping"] (final everyone_joins)
       = Ok (tt, w')
       /\ 11%nat ∉ clients (wsHub w').
Proof.
  split; [apply (bool_decide_unpack _); vm_compute; exact I|].
  destruct (readPump (fun _ => Some filler) 11%nat ["ping"] (final everyone_joins))
    as [[[] w']|] eqn:E; [|vm_compute in E; discriminate].
  exists w'. split; [reflexivity|].
  exact (readPump_unregisters (fun _ => Some filler) 11%nat ["ping"]
           (final everyone_joins) w' E).
Defined.

Lemma readPump_stops_at_oversized_frame_witness :
  readPump (fun _ => Some (next_question "ABC123" 0)) 10%nat
    [oversized_frame; "next"] (final everyone_joins)
  = readPump (fun _ => Some (next_question "ABC123" 0)) 10%nat []
      (final everyone_joins).
Proof.
  apply (readPump_stops_at_oversized_frame _ 10%nat [] oversized_frame ["next"]).
  apply Nat.ltb_lt. vm_compute. reflexivity.
Defined.

(** ** The host's advance *)

Lemma GoInt_add_small a b :
  GoInt.in_range (a + b) -> GoInt.add a b = a + b.
Proof. intros H. unfold GoInt.add. by apply wrap64_id. Qed.

(** X9.  The host's advance, with the store available, the quiz found and a room
    of registered connections: for a current index from -1 up to, but not
    including, the largest [int] (where the increment would wrap around),
    [HandleNextQuestion] returns without an error and leaves the tables
    alone; every connection of the room with space is sent [quiz_end] when
    the next index is at or past the end of the questions, and otherwise the
    question at the next index in the host's form, with its index, the
    number of questions and the quiz id. *)
Theorem HandleNextQuestion_advances_or_ends
    (w w1 : World) (quizCode : string) (currentIndex : Z) (quiz : Quiz) :
  healthy w ->
  Service.GetQuizByCode quizCode w = Ok (Val quiz, w1) ->
  quizCode <> "" ->
  (forall c, c ∈ room_of (wsHub w) quizCode -> registered_in (wsHub w) quizCode c) ->
  -1 <= currentIndex < GoInt.max_int ->
  let questions := Repository.quiz_questions (db w) (Quiz_ID quiz) in
  let message :=
    match questions !! Z.to_nat (currentIndex + 1) with
    | Some question =>
        {| Type_ := "question";
           Data := Service.question_payload (ToDTO question true) (currentIndex + 1)
                     (Service.len questions) (Quiz_ID quiz) |}
    | None => {| Type_ := "quiz_end"; Data := Nil |}
    end in
  exists w',
    Service.HandleNextQuestion quizCode currentIndex w = Ok (None, w')
    /\ db w' = db w
    /\ (forall c, c ∈ room_of (wsHub w) quizCode -> has_space (deref (wsHub w) c) ->
          queue (wsHub w') c = queue (wsHub w) c ++ [message]).
Proof.
  intros Hw Hquiz Hcode Hroom Hidx questions message.
  destruct (read_op_elim _ _ _ _ (read_op_Service_GetQuizByCode quizCode) Hquiz)
    as (Hhub1 & Hdb1 & Hw1).
  specialize (Hw1 Hw).
  destruct (BroadcastToQuiz_room (wsHub w1) quizCode message Hcode)
    as (h' & Hrun & Hdelivered); [by rewrite Hhub1|].
  exists (set_wsHub (fun _ => h') w1). split; [|split; [done|]].
  2:{ intros c Hc Hsp. cbn [wsHub set_wsHub]. rewrite <- Hhub1.
      apply Hdelivered; by rewrite Hhub1. }
  unfold Service.HandleNextQuestion.
  rewrite (bind_Ok _ _ _ _ _ Hquiz).
  unfold Repository.GetQuizQuestions.
  rewrite (bind_Ok _ _ _ _ _ (query_healthy _ w1 Hw1)).
  rewrite Hdb1. fold questions.
  rewrite GoInt_add_small by (unfold GoInt.in_range, GoInt.min_int, GoInt.max_int in *; lia).
  unfold message in Hrun. unfold Service.len.
  destruct (questions !! Z.to_nat (currentIndex + 1)) as [question|] eqn:Hq.
  - pose proof (lookup_lt_Some _ _ _ Hq) as Hlt.
    rewrite (proj2 (Z.leb_gt _ _)) by lia.
    unfold Service.at_index. rewrite (proj2 (Z.ltb_ge _ _)) by lia.
    rewrite Hq. unfold BroadcastMessage.
    rewrite (bind_Ok _ _ _ _ _ (eq_refl : ret question w1 = Ok (question, w1))).
    by rewrite (bind_Ok _ _ _ _ _ (liftHub_Ok _ w1 _ _ Hrun)).
  - apply lookup_ge_None in Hq.
    rewrite (proj2 (Z.leb_le _ _)) by lia.
    unfold BroadcastMessage.
    by rewrite (bind_Ok _ _ _ _ _ (liftHub_Ok _ w1 _ _ Hrun)).
Qed.

(** X10.  A [next_question] frame with a current index below -1 makes the host's
    advance index the questions at a negative position: with the store
    available, the quiz found and at least one question, it panics. *)
Theorem HandleNextQuestion_negative_index_panics
    (w w1 : World) (c : ptr) (quizCode : string) (currentIndex : Z) (quiz : Quiz) :
  healthy w ->
  Service.GetQuizByCode quizCode w = Ok (Val quiz, w1) ->
  Repository.quiz_questions (db w) (Quiz_ID quiz) <> [] ->
  GoInt.min_int <= currentIndex < -1 ->
  Service.HandleNextQuestion quizCode currentIndex w = Panic "index out of range" w1
  /\ receive c (next_question quizCode currentIndex) w
     = Panic "index out of range" w1.
Proof.
  intros Hw Hquiz Hsome Hidx.
  destruct (read_op_elim _ _ _ _ (read_op_Service_GetQuizByCode quizCode) Hquiz)
    as (Hhub1 & Hdb1 & Hw1).
  specialize (Hw1 Hw).
  assert (Hrun : Service.HandleNextQuestion quizCode currentIndex w
                 = Panic "index out of range" w1).
  { unfold Service.HandleNextQuestion.
    rewrite (bind_Ok _ _ _ _ _ Hquiz).
    unfold Repository.GetQuizQuestions.
    rewrite (bind_Ok _ _ _ _ _ (query_healthy _ w1 Hw1)).
    rewrite Hdb1.
    rewrite GoInt_add_small
      by (unfold GoInt.in_range, GoInt.min_int, GoInt.max_int in *; lia).
    destruct (Repository.quiz_questions (db w) (Quiz_ID quiz)) as [|q qs]; [done|].
    unfold Service.len. rewrite (proj2 (Z.leb_gt _ _)) by (cbn [length]; lia).
    unfold Service.at_index. rewrite (proj2 (Z.ltb_lt _ _)) by lia.
    reflexivity. }
  split; [exact Hrun|].
  unfold receive, Client.handleMessage, next_question. cbn.
  unfold bind at 1. by rewrite Hrun.
Qed.

Lemma HandleNextQuestion_negative_index_panics_witness :
  exists w1,
    receive 10%nat (next_question "ABC123" (-5)) (final everyone_joins)
    = Panic "index out of range" w1.
Proof.
  eexists.
  refine (proj2 (HandleNextQuestion_negative_index_panics (final everyone_joins) _
                   10%nat "ABC123" (-5) the_quiz _ _ _ _)).
  - reflexivity.
  - vm_compute. reflexivity.
  - vm_compute. discriminate.
  - unfold GoInt.min_int, GoInt.max_int. lia.
Defined.

Lemma HandleNextQuestion_advances_or_ends_witness :
  exists w',
    Service.HandleNextQuestion "ABC123" 0 (final everyone_joins) = Ok (None, w')
    /\ last (queue (wsHub w') 11%nat)
       = Some {| Type_ := "question";
                 Data := Service.question_payload (ToDTO question2 true) 1 2 1%nat |}.
Proof.
  edestruct HandleNextQuestion_advances_or_ends
    with (w := final everyone_joins) (quizCode := "ABC123") (currentIndex := 0)
    as (w' & Hrun & _ & Hqueue).
  - reflexivity.
  - vm_compute. reflexivity.
  - discriminate.
  - intros c.
    apply (bool_decide_unpack
             (set_Forall (fun c => registered_in (wsHub (final everyone_joins))
                                     "ABC123" c)
                         (room_of (wsHub (final everyone_joins)) "ABC123"))).
    vm_compute. exact I.
  - unfold GoInt.min_int, GoInt.max_int. lia.
  - exists w'. split; [exact Hrun|].
    rewrite (Hqueue 11%nat).
    + apply last_snoc.
    + apply (bool_decide_unpack _). vm_compute. exact I.
    + vm_compute. lia.
Defined.

(** ** The cached quiz *)

Lemma cache_GetQuiz_healthy code w :
  healthy w ->
  cache_GetQuiz code w
  = Ok (match quiz_keys (cache w) !! code with
        | Some quiz => Val quiz
        | None => Err ErrRedisNil
        end, w).
Proof.
  intros H. unfold cache_GetQuiz.
  rewrite (bind_Ok _ _ _ _ _ (external_call_healthy w H)).
  unfold bind, get. by destruct (quiz_keys (cache w) !! code).
Qed.

Lemma cache_SetQuiz_healthy quiz w :
  healthy w ->
  cache_SetQuiz quiz w
  = Ok (None, set_cache (set_quiz_keys <[QuizCode quiz := quiz]>) w).
Proof.
  intros H. unfold cache_SetQuiz.
  by rewrite (bind_Ok _ _ _ _ _ (external_call_healthy w H)).
Qed.

(** A lookup that is answered by the cache. *)
Lemma GetQuizByCode_hit code quiz w :
  healthy w -> quiz_keys (cache w) !! code = Some quiz ->
  Service.GetQuizByCode code w = Ok (Val quiz, w).
Proof.
  intros Hw Hhit. unfold Service.GetQuizByCode.
  by rewrite (bind_Ok _ _ _ _ _ (cache_GetQuiz_healthy code w Hw)), Hhit.
Qed.

(** A lookup that finds the quiz leaves it in the cache under its code. *)
Lemma GetQuizByCode_caches code quiz w w1 :
  healthy w -> Service.GetQuizByCode code w = Ok (Val quiz, w1) ->
  quiz_keys (cache w1) !! code = Some quiz /\ healthy w1.
Proof.
  intros Hw. unfold Service.GetQuizByCode.
  rewrite (bind_Ok _ _ _ _ _ (cache_GetQuiz_healthy code w Hw)).
  destruct (quiz_keys (cache w) !! code) as [cached|] eqn:Hhit.
  { intros [= <- <-]. done. }
  unfold Repository.GetQuizByCode.
  rewrite (bind_Ok _ _ _ _ _ (query_healthy _ w Hw)).
  destruct (List.filter _ (quizzes (db w))) as [|q rows] eqn:E; [discriminate|].
  cbn [First]. rewrite (bind_Ok _ _ _ _ _ (cache_SetQuiz_healthy q w Hw)).
  intros [= <- <-]. split; [|done]. cbn.
  assert (Hq : In q (List.filter
            (fun q => String.eqb (QuizCode q) code && negb (Quiz_Deleted q))
            (quizzes (db w)))) by (rewrite E; by left).
  apply filter_In in Hq as [_ Hq]. apply andb_prop in Hq as [Hq _].
  apply String.eqb_eq in Hq. rewrite Hq. apply lookup_insert_eq.
Qed.

(** X11.  Once a lookup by code has found a quiz, with the store available, the
    quiz is served from the cache: the same lookup returns the same quiz,
    and keeps returning it whatever is done to the tables meanwhile (no
    write to the store touches the cached copy). *)
Theorem GetQuizByCode_served_from_cache code quiz w w1 :
  healthy w ->
  Service.GetQuizByCode code w = Ok (Val quiz, w1) ->
  forall f : DB -> DB,
    Service.GetQuizByCode code (set_db f w1) = Ok (Val quiz, set_db f w1).
Proof.
  intros Hw Hquiz f.
  destruct (GetQuizByCode_caches code quiz w w1 Hw Hquiz) as [Hhit Hw1].
  by apply GetQuizByCode_hit.
Qed.

Lemma GetQuizByCode_served_from_cache_witness :
  exists w1,
    Service.GetQuizByCode "ABC123" world0 = Ok (Val the_quiz, w1)
    /\ Service.GetQuizByCode "ABC123" (set_db (set_quizzes (fun _ => [])) w1)
       = Ok (Val the_quiz, set_db (set_quizzes (fun _ => [])) w1).
Proof.
  eexists. split; [vm_compute; reflexivity|].
  apply (GetQuizByCode_served_from_cache "ABC123" the_quiz world0).
  - reflexivity.
  - vm_compute. reflexivity.
Defined.

(** X12.  [StartQuiz] marks the quiz active in the store only.  The copy in the
    cache, which every lookup by code is answered from, stays as it was:
    after a successful start a lookup still returns the quiz as it was
    before, while every row of the quiz in the store is active. *)
Theorem StartQuiz_leaves_the_cached_quiz_unchanged
    (w w1 w' : World) (quizCode : string) (userID : uint) (quiz : Quiz) :
  healthy w ->
  Service.GetQuizByCode quizCode w = Ok (Val quiz, w1) ->
  Service.StartQuiz quizCode userID w = Ok (None, w') ->
  Service.GetQuizByCode quizCode w' = Ok (Val quiz, w')
  /\ (forall q, q ∈ quizzes (db w') -> Quiz_ID q = Quiz_ID quiz -> IsActive q = true).
Proof.
  intros Hw Hquiz.
  destruct (GetQuizByCode_caches quizCode quiz w w1 Hw Hquiz) as [Hhit Hw1].
  unfold Service.StartQuiz.
  rewrite (bind_Ok _ _ _ _ _ Hquiz).
  unfold Repository.ResetQuizProgress.
  rewrite (bind_Ok _ _ _ _ _ (exec_healthy _ w1 Hw1)).
  set (w2 := set_db _ w1).
  unfold Repository.GetQuizQuestions.
  rewrite (bind_Ok _ _ _ _ _ (query_healthy _ w2 Hw1)).
  destruct (Repository.quiz_questions (db w2) (Quiz_ID quiz)) as [|question0 rest];
    [discriminate|].
  unfold Repository.UpdateQuiz.
  rewrite (bind_Ok _ _ _ _ _ (exec_healthy _ w2 Hw1)).
  set (w3 := set_db _ w2).
  intros H. apply bind_Ok_inv in H as ([] & w4 & H & [= <-]).
  apply liftHub_Ok_inv in H as (h' & _ & ->).
  split.
  - by apply GetQuizByCode_hit.
  - intros q Hq Hid.
    by rewrite (proj2 (Save_quiz_stored (Service.set_active quiz) (db w2)) q Hq Hid).
Qed.

Lemma StartQuiz_leaves_the_cached_quiz_unchanged_witness :
  exists w',
    Service.StartQuiz "ABC123" 1%nat (final everyone_joins) = Ok (None, w')
    /\ (exists w'', Service.GetQuizByCode "ABC123" w' = Ok (Val the_quiz, w''))
    /\ IsActive the_quiz = false
    /\ map IsActive (quizzes (db w')) = [true].
Proof.
  destruct (Service.StartQuiz "ABC123" 1%nat (final everyone_joins))
    as [[[e|] w']|] eqn:E; [vm_compute in E; discriminate| |vm_compute in E; discriminate].
  exists w'. split; [reflexivity|].
  split; [|split; [reflexivity|]].
  - exists w'.
    refine (proj1 (StartQuiz_leaves_the_cached_quiz_unchanged
                     (final everyone_joins) _ w' "ABC123" 1%nat the_quiz _ _ E)).
    + reflexivity.
    + vm_compute. reflexivity.
  - vm_compute in E. injection E as <-. reflexivity.
Defined.

(** ** The progress records: update and read back *)

Lemma Save_progress_first userID quizID newIndex p rows :
  (exists rest, List.filter (Repository.is_progress_of userID quizID) rows = p :: rest) ->
  exists rest',
    List.filter (Repository.is_progress_of userID quizID)
      (map (fun r => if bool_decide (Progress_ID r = Progress_ID p)
                     then with_index newIndex p else r) rows)
    = with_index newIndex p :: rest'.
Proof.
  intros Hfirst.
  assert (Hp : Repository.is_progress_of userID quizID (with_index newIndex p) = true).
  { destruct Hfirst as (rest & Hrest).
    assert (Hin : In p (List.filter (Repository.is_progress_of userID quizID) rows))
      by (rewrite Hrest; by left).
    apply filter_In in Hin as [_ Hin]. exact Hin. }
  induction rows as [|r rs IH]; [by destruct Hfirst|].
  destruct Hfirst as (rest & Hrest). cbn [List.filter map] in *.
  destruct (Repository.is_progress_of userID quizID r) eqn:Hr.
  - injection Hrest as -> _.
    rewrite bool_decide_eq_true_2 by done. rewrite Hp. by eexists.
  - destruct (bool_decide (Progress_ID r = Progress_ID p)).
    + rewrite Hp. by eexists.
    + rewrite Hr. apply IH. by exists rest.
Qed.

Lemma stored_index_None d userID quizID :
  stored_index d userID quizID = None -> no_progress_record d userID quizID.
Proof.
  unfold stored_index. intros H p Hp [Hu Hq].
  assert (Hin : In p (List.filter (Repository.is_progress_of userID quizID)
                        (user_quiz_progress d))).
  { apply filter_In. split; [by apply list_elem_of_In|].
    unfold Repository.is_progress_of. by rewrite !bool_decide_eq_true_2. }
  destruct (List.filter _ _); [done|discriminate].
Qed.

(** An update of a user that has a record, with the store available. *)
Lemma UpdateUserQuestionIndex_stored w userID quizID i newIndex :
  healthy w -> stored_index (db w) userID quizID = Some i ->
  exists rows',
    Repository.UpdateUserQuestionIndex userID quizID newIndex w
    = Ok (None, set_db (set_progress (fun _ => rows')) w)
    /\ stored_index (set_progress (fun _ => rows') (db w)) userID quizID
       = Some newIndex
    /\ length rows' = length (user_quiz_progress (db w)).
Proof.
  intros Hw Hi. unfold Repository.UpdateUserQuestionIndex.
  rewrite (bind_Ok _ _ _ _ _ (query_healthy _ w Hw)).
  unfold stored_index in Hi.
  destruct (List.filter _ (user_quiz_progress (db w))) as [|p rest] eqn:E;
    [discriminate|].
  cbn [First]. fold (with_index newIndex p).
  rewrite exec_healthy by done.
  assert (Hin : In p (user_quiz_progress (db w))).
  { assert (Hin : In p (List.filter (Repository.is_progress_of userID quizID)
                          (user_quiz_progress (db w)))) by (rewrite E; by left).
    by apply filter_In in Hin as [Hin _]. }
  assert (Hex : existsb (fun r => bool_decide (Progress_ID r = Progress_ID p))
                  (user_quiz_progress (db w)) = true).
  { apply existsb_exists. exists p. split; [done|]. by apply bool_decide_eq_true_2. }
  destruct (Save_progress_first userID quizID newIndex p (user_quiz_progress (db w)))
    as (rest' & Hfirst); [by exists rest|].
  eexists. split; [|split].
  - unfold Repository.Save_progress, set_db, set_progress. cbn.
    change (Progress_ID (with_index newIndex p)) with (Progress_ID p).
    rewrite Hex. reflexivity.
  - unfold stored_index. cbn. by rewrite Hfirst.
  - by rewrite length_map.
Qed.

(** X13.  [UpdateUserQuestionIndex], with the store available: for a user without
    a progress record it returns the not-found error and changes nothing;
    for a user with a record it returns no error, the table keeps its number
    of rows, and the next lookup returns the new index. *)
Theorem UpdateUserQuestionIndex_then_lookup w userID quizID newIndex :
  healthy w ->
  exists err w',
    Repository.UpdateUserQuestionIndex userID quizID newIndex w = Ok (err, w')
    /\ match stored_index (db w) userID quizID with
       | None => err = Some ErrRecordNotFound /\ w' = w
       | Some _ =>
           err = None
           /\ length (user_quiz_progress (db w')) = length (user_quiz_progress (db w))
           /\ Repository.GetUserQuestionIndex userID quizID w' = Ok (Val newIndex, w')
       end.
Proof.
  intros Hw. destruct (stored_index (db w) userID quizID) as [i|] eqn:Hi.
  - destruct (UpdateUserQuestionIndex_stored w userID quizID i newIndex Hw Hi)
      as (rows' & Hrun & Hstored & Hlen).
    eexists _, _. split; [exact Hrun|]. split; [done|]. split; [done|].
    by apply GetUserQuestionIndex_stored.
  - exists (Some ErrRecordNotFound), w. split; [|done].
    unfold Repository.UpdateUserQuestionIndex.
    rewrite (bind_Ok _ _ _ _ _ (query_healthy _ w Hw)).
    by rewrite (filter_no_progress _ _ _ (stored_index_None _ _ _ Hi)).
Qed.

Lemma UpdateUserQuestionIndex_then_lookup_witness :
  stored_index (db (final ann_finishes_first)) 2%nat 1%nat = Some 2
  /\ exists err w',
       Repository.UpdateUserQuestionIndex 2%nat 1%nat 7 (final ann_finishes_first)
       = Ok (err, w')
       /\ Repository.GetUserQuestionIndex 2%nat 1%nat w' = Ok (Val 7, w').
Proof.
  split; [reflexivity|].
  destruct (UpdateUserQuestionIndex_then_lookup (final ann_finishes_first)
              2%nat 1%nat 7) as (err & w' & Hrun & Hcase); [reflexivity|].
  exists err, w'. split; [exact Hrun|].
  change (stored_index (db (final ann_finishes_first)) 2%nat 1%nat)
    with (Some 2) in Hcase.
  apply Hcase.
Defined.

(** ** Answers *)

(** X14.  The host's own answer is not recorded: with the store available and the
    quiz found, [ProcessAnswer] returns score 0 without an error and leaves
    the tables, the cache and the hub as they are (no response row, no
    progress, no follow-up). *)
Theorem ProcessAnswer_ignores_the_host w w1 response quiz :
  healthy w ->
  Repository.GetQuizByID (Response_QuizID response) w = Ok (Val quiz, w1) ->
  Response_UserID response = CreatorID quiz ->
  Service.ProcessAnswer response w = Ok ((0, None), w).
Proof.
  intros Hw Hquiz Hhost. unfold Service.ProcessAnswer.
  unfold Repository.GetQuizByID in *.
  rewrite (query_healthy _ w Hw) in Hquiz. injection Hquiz as Hquiz <-.
  rewrite (bind_Ok _ _ _ _ _ (query_healthy _ w Hw)), Hquiz.
  by rewrite bool_decide_eq_true_2.
Qed.

Lemma ProcessAnswer_ignores_the_host_witness :
  answer 1%nat 1%nat "4" (final everyone_joins)
  = Ok ((0, None), final everyone_joins).
Proof.
  refine (ProcessAnswer_ignores_the_host (final everyone_joins) _ _ the_quiz _ _ _).
  - reflexivity.
  - vm_compute. reflexivity.
  - reflexivity.
Defined.

(** X15.  A participant's answer, with the store available and the quiz and the
    question found: [ProcessAnswer] returns the computed score without an
    error; the response, with that score, is the new last row of the
    response table; the user's stored index is one above the index stored
    before (above 0 when there was no record); the follow-up for that index
    is the last goroutine started; no outbound queue has changed. *)
Theorem ProcessAnswer_records_and_advances w w1 w2 response quiz question :
  healthy w ->
  Repository.GetQuizByID (Response_QuizID response) w = Ok (Val quiz, w1) ->
  Response_UserID response <> CreatorID quiz ->
  Repository.GetQuestion (QuestionID response) w1 = Ok (Val question, w2) ->
  let score := Service.calculateScore (Answer response) (CorrectAnswer question)
                 (TimeSpent response) in
  let userID := Response_UserID response in
  let newIndex :=
    GoInt.add (default 0 (stored_index (db w) userID (Quiz_ID quiz))) 1 in
  exists w',
    Service.ProcessAnswer response w = Ok ((score, None), w')
    /\ user_quiz_responses (db w')
       = user_quiz_responses (db w) ++ [Service.set_score score response]
    /\ stored_index (db w') userID (Quiz_ID quiz) = Some newIndex
    /\ goroutines (wsHub w')
       = goroutines (wsHub w)
         ++ [GoHandleNextQuestionForUser userID (QuizCode quiz) newIndex]
    /\ (forall c, queue (wsHub w') c = queue (wsHub w) c).
Proof.
  intros Hw Hquiz Hhost Hquestion score userID newIndex.
  unfold Repository.GetQuizByID, Repository.GetQuestion in *.
  rewrite (query_healthy _ w Hw) in Hquiz. injection Hquiz as Hquiz <-.
  rewrite (query_healthy _ w Hw) in Hquestion. injection Hquestion as Hquestion <-.
  set (w3 := set_db (set_responses
                       (fun rows => rows ++ [Service.set_score score response])) w).
  assert (Hw3 : healthy w3) by done.
  assert (Hlookup : exists w4,
            Repository.GetUserQuestionIndex userID (Quiz_ID quiz) w3
            = Ok (Val (default 0 (stored_index (db w) userID (Quiz_ID quiz))), w4)
            /\ healthy w4
            /\ stored_index (db w4) userID (Quiz_ID quiz)
               = Some (default 0 (stored_index (db w) userID (Quiz_ID quiz)))
            /\ user_quiz_responses (db w4) = user_quiz_responses (db w3)
            /\ wsHub w4 = wsHub w).
  { change (stored_index (db w) userID (Quiz_ID quiz))
      with (stored_index (db w3) userID (Quiz_ID quiz)).
    destruct (stored_index (db w3) userID (Quiz_ID quiz)) as [i|] eqn:Hi.
    - exists w3. split; [by apply GetUserQuestionIndex_stored|done].
    - apply stored_index_None in Hi.
      eexists. split; [by apply GetUserQuestionIndex_fresh|].
      split; [done|]. split; [by apply stored_index_created|done]. }
  destruct Hlookup as (w4 & Hlookup & Hw4 & Hstored4 & Hresp4 & Hhub4).
  destruct (UpdateUserQuestionIndex_stored w4 userID (Quiz_ID quiz) _ newIndex
              Hw4 Hstored4) as (rows' & Hupdate & Hstored5 & _).
  eexists. split; [|split; [|split; [|split]]].
  - unfold Service.ProcessAnswer, Repository.GetQuizByID, Repository.GetQuestion.
    rewrite (bind_Ok _ _ _ _ _ (query_healthy _ w Hw)), Hquiz.
    rewrite bool_decide_eq_false_2 by done.
    rewrite (bind_Ok _ _ _ _ _ (query_healthy _ w Hw)), Hquestion.
    fold score. unfold Repository.SaveResponse.
    rewrite (bind_Ok _ _ _ _ _ (exec_healthy _ w Hw)). fold w3.
    change (Response_UserID (Service.set_score score response)) with userID.
    rewrite (bind_Ok _ _ _ _ _ Hlookup). fold newIndex.
    rewrite (bind_Ok _ _ _ _ _ Hupdate). reflexivity.
  - cbn. exact Hresp4.
  - exact Hstored5.
  - cbn. by rewrite Hhub4.
  - intros c. cbn. unfold queue. rewrite deref_set_goroutines. cbn.
    by rewrite Hhub4.
Qed.

Lemma ProcessAnswer_records_and_advances_witness :
  exists w',
    Service.ProcessAnswer ann_answers_question1 (final everyone_joins)
    = Ok ((1000, None), w')
    /\ user_quiz_responses (db w') = [Service.set_score 1000 ann_answers_question1]
    /\ stored_index (db w') 2%nat 1%nat = Some 1
    /\ goroutines (wsHub w') = [GoHandleNextQuestionForUser 2%nat "ABC123" 1].
Proof.
  edestruct ProcessAnswer_records_and_advances
    with (w := final everyone_joins) (response := ann_answers_question1)
    as (w' & Hrun & Hresp & Hidx & Hgo & _).
  - reflexivity.
  - vm_compute. reflexivity.
  - vm_compute. discriminate.
  - vm_compute. reflexivity.
  - exists w'. split; [exact Hrun|]. split; [exact Hresp|].
    split; [exact Hidx|exact Hgo].
Defined.

Lemma hub_ok_checked h : hub_ok_check h -> hub_ok h.
Proof.
  intros (Hempty & Hclients & Hrooms). split; [done|]. split.
  - intros c Hc. by apply Hclients.
  - intros code c Hc. unfold room_of in Hc.
    destruct (quizRooms h !! code) as [room|] eqn:Hroom;
      [|by apply not_elem_of_empty in Hc].
    exact (Hrooms code room Hroom c Hc).
Qed.

Lemma hub_ok_SendParticipantList h quizCode :
  hub_ok h ->
  exists h', SendParticipantList quizCode h = Ok (tt, h') /\ hub_ok h'.
Proof.
  intros Hok. unfold SendParticipantList, bind at 1, get.
  destruct (quizRooms h !! quizCode) as [room|]; [|by exists h].
  unfold BroadcastMessage.
  destruct (hub_ok_BroadcastToQuiz quizCode
              {| Type_ := "participant_list";
                 Data := list_payload (room_participants h (elements room))
                           (Z.of_nat (length (room_participants h (elements room))))
                           (last (room_hosts h (elements room))) |} h Hok)
    as (h1 & Hrun1 & Hok1).
  rewrite (bind_Ok _ _ _ _ _ Hrun1).
  apply (hub_ok_BroadcastToQuiz quizCode _ h1 Hok1).
Qed.

(** ** Leaving and joining a quiz *)

(** The responses of a user in a quiz are gone once they are cleared, and
    those of every other user and quiz are as they were. *)
Lemma responders_cleared d quizID userID u :
  u ∈ responders
        (set_responses
           (map (fun r =>
              if bool_decide (Response_QuizID r = quizID)
                 && bool_decide (Response_UserID r = userID)
              then Repository.delete_response r else r)) d) quizID
  <-> u ∈ responders d quizID /\ u <> userID.
Proof.
  rewrite !elem_of_responders. cbn. split.
  - intros (r & Hr & Hq & Hd & Hu).
    apply list_elem_of_In, in_map_iff in Hr as (r0 & <- & Hr0).
    apply list_elem_of_In in Hr0.
    destruct (bool_decide (Response_QuizID r0 = quizID)
              && bool_decide (Response_UserID r0 = userID)) eqn:E; [discriminate|].
    split; [by exists r0|]. intros ->.
    apply andb_false_iff in E as [E|E]; apply bool_decide_eq_false in E; done.
  - intros [(r & Hr & Hq & Hd & Hu) Hne]. exists r. split; [|done].
    apply list_elem_of_In, in_map_iff. exists r. split; [|by apply list_elem_of_In].
    rewrite (bool_decide_eq_false_2 (Response_UserID r = userID)) by congruence.
    by rewrite andb_false_r.
Qed.

(** X16.  [RemoveParticipant] of the service, with the store available, the quiz
    found and a hub that satisfies the membership invariant, returns without
    an error.  For the creator it changes neither the tables nor the hub.
    For any other user it marks the user's participant rows of the quiz as
    deleted and clears the user's responses, so that the user is no longer
    among the responders, while the other responders stay; the progress
    table is left as it is, so the user's stored index survives. *)
Theorem RemoveParticipant_clears_responses_keeps_progress
    (w w1 : World) (quizCode : string) (userID : uint) (quiz : Quiz) :
  healthy w ->
  Service.GetQuizByCode quizCode w = Ok (Val quiz, w1) ->
  hub_ok (wsHub w) ->
  exists w',
    Service.RemoveParticipant quizCode userID w = Ok (None, w')
    /\ user_quiz_progress (db w') = user_quiz_progress (db w)
    /\ if decide (CreatorID quiz = userID)
       then db w' = db w /\ wsHub w' = wsHub w
       else (forall u, u ∈ responders (db w') (Quiz_ID quiz)
                       <-> u ∈ responders (db w) (Quiz_ID quiz) /\ u <> userID)
            /\ (forall r, r ∈ quiz_participants (db w') ->
                  Participant_QuizID r = Quiz_ID quiz ->
                  Participant_UserID r = userID -> Participant_Deleted r = true).
Proof.
  intros Hw Hquiz Hok.
  destruct (read_op_elim _ _ _ _ (read_op_Service_GetQuizByCode quizCode) Hquiz)
    as (Hhub1 & Hdb1 & Hw1).
  specialize (Hw1 Hw).
  unfold Service.RemoveParticipant.
  rewrite (bind_Ok _ _ _ _ _ Hquiz).
  destruct (decide (CreatorID quiz = userID)) as [Hhost|Hhost].
  { rewrite bool_decide_eq_true_2 by done. exists w1. by rewrite Hdb1. }
  rewrite bool_decide_eq_false_2 by done.
  unfold Repository.RemoveParticipant.
  rewrite (bind_Ok _ _ _ _ _ (exec_healthy _ w1 Hw1)).
  set (w2 := set_db _ w1).
  unfold Repository.ClearUserProgress.
  rewrite (bind_Ok _ _ _ _ _ (exec_healthy _ w2 Hw1)).
  set (w3 := set_db _ w2).
  unfold cache_RemoveUserQuizData.
  rewrite (bind_Ok _ _ _ _ _
             (bind_Ok _ _ _ _ _ (external_call_healthy w3 Hw1))).
  destruct (hub_ok_SendParticipantList (wsHub w3) quizCode) as (h' & Hrun & _).
  { change (wsHub w3) with (wsHub w1). by rewrite Hhub1. }
  rewrite (bind_Ok _ _ _ _ _ (liftHub_Ok _ w3 _ _ Hrun)).
  eexists. split; [reflexivity|]. split; [cbn; by rewrite Hdb1|]. split.
  - intros u. cbn [db set_wsHub]. unfold w3. cbn [db set_db].
    rewrite responders_cleared. unfold responders. cbn. by rewrite Hdb1.
  - intros r Hr Hq Hu. cbn in Hr.
    apply list_elem_of_In, in_map_iff in Hr as (r0 & <- & _).
    destruct (bool_decide (Participant_QuizID r0 = Quiz_ID quiz)
              && bool_decide (Participant_UserID r0 = userID)) eqn:E; [reflexivity|].
    apply andb_false_iff in E as [E|E]; apply bool_decide_eq_false in E; done.
Qed.

Lemma RemoveParticipant_clears_responses_keeps_progress_witness :
  2%nat ∈ responders (db (final ann_finishes_first)) 1%nat
  /\ exists w',
       Service.RemoveParticipant "ABC123" 2%nat (final ann_finishes_first)
       = Ok (None, w')
       /\ (2%nat ∉ responders (db w') 1%nat)
       /\ stored_index (db w') 2%nat 1%nat = Some 2.
Proof.
  split; [apply (bool_decide_unpack _); vm_compute; exact I|].
  edestruct RemoveParticipant_clears_responses_keeps_progress
    with (w := final ann_finishes_first) (quizCode := "ABC123") (userID := 2%nat)
    as (w' & Hrun & Hprogress & Hcase).
  - reflexivity.
  - vm_compute. reflexivity.
  - apply hub_ok_checked. apply (bool_decide_unpack _). vm_compute. exact I.
  - exists w'. split; [exact Hrun|].
    destruct (decide _) as [Habs|_] in Hcase; [vm_compute in Habs; discriminate|].
    destruct Hcase as [Hresp _]. split.
    + intros Hin. apply Hresp in Hin as [_ Hne]. exact (Hne eq_refl).
    + unfold stored_index. rewrite Hprogress. reflexivity.
Defined.

(** X17.  [JoinQuiz], with the store available, the quiz found and a hub that
    satisfies the membership invariant, returns without an error.  For the
    creator the participant table is left as it is; for any other user one
    row is appended, also when the user has a row for the quiz already. *)
Theorem JoinQuiz_appends_a_participant_row
    (w w1 : World) (quizCode : string) (userID : uint) (quiz : Quiz) :
  healthy w ->
  Service.GetQuizByCode quizCode w = Ok (Val quiz, w1) ->
  hub_ok (wsHub w) ->
  exists w',
    Service.JoinQuiz quizCode userID w = Ok (None, w')
    /\ quiz_participants (db w')
       = if decide (userID = CreatorID quiz) then quiz_participants (db w)
         else quiz_participants (db w)
              ++ [{| Participant_Deleted := false;
                     Participant_QuizID := Quiz_ID quiz;
                     Participant_UserID := userID |}].
Proof.
  intros Hw Hquiz Hok.
  destruct (read_op_elim _ _ _ _ (read_op_Service_GetQuizByCode quizCode) Hquiz)
    as (Hhub1 & Hdb1 & Hw1).
  specialize (Hw1 Hw).
  unfold Service.JoinQuiz.
  rewrite (bind_Ok _ _ _ _ _ Hquiz).
  destruct (decide (userID = CreatorID quiz)) as [Hhost|Hhost].
  { rewrite bool_decide_eq_true_2 by done. exists w1. by rewrite Hdb1. }
  rewrite bool_decide_eq_false_2 by done.
  unfold Repository.AddParticipant.
  rewrite (bind_Ok _ _ _ _ _ (exec_healthy _ w1 Hw1)).
  set (w2 := set_db _ w1).
  destruct (hub_ok_SendParticipantList (wsHub w2) quizCode) as (h' & Hrun & _).
  { change (wsHub w2) with (wsHub w1). by rewrite Hhub1. }
  rewrite (bind_Ok _ _ _ _ _ (liftHub_Ok _ w2 _ _ Hrun)).
  eexists. split; [reflexivity|]. cbn. by rewrite Hdb1.
Qed.

Lemma JoinQuiz_appends_a_participant_row_witness :
  exists w' w'',
    Service.JoinQuiz "ABC123" 2%nat (final everyone_joins) = Ok (None, w')
    /\ Service.JoinQuiz "ABC123" 2%nat w' = Ok (None, w'')
    /\ length (quiz_participants (db w''))
       = S (S (length (quiz_participants (db (final everyone_joins))))).
Proof.
  edestruct JoinQuiz_appends_a_participant_row
    with (w := final everyone_joins) (quizCode := "ABC123") (userID := 2%nat)
    as (w' & Hrun & Hrows).
  - reflexivity.
  - vm_compute. reflexivity.
  - apply hub_ok_checked. apply (bool_decide_unpack _). vm_compute. exact I.
  - destruct (Service.JoinQuiz "ABC123" 2%nat w') as [[[e|] w'']|] eqn:E.
    1, 3: exfalso; vm_compute in Hrun; injection Hrun as <-; vm_compute in E;
          discriminate.
    exists w', w''. split; [exact Hrun|]. split; [exact E|].
    vm_compute in Hrun. injection Hrun as <-.
    vm_compute in E. injection E as <-. reflexivity.
Defined.

(** ** The follow-up of an answer while questions are left *)



(** ** The leaderboard *)

#[local] Instance by_score_desc_total : Total by_score_desc.
Proof. intros a b. unfold by_score_desc. lia. Qed.

#[local] Instance by_score_desc_trans : Transitive by_score_desc.
Proof. intros a b c. unfold by_score_desc. lia. Qed.

Lemma zrev_order_by_score a b : zrev_order a b -> by_score_desc a b.
Proof. unfold zrev_order, by_score_desc. lia. Qed.

Lemma Sorted_weaken {A} (R R' : relation A) l :
  (forall a b, R a b -> R' a b) -> Sorted R l -> Sorted R' l.
Proof.
  intros Himpl. induction 1 as [|x l _ IH Hhd]; constructor; [done|].
  destruct Hhd; constructor. by apply Himpl.
Qed.

(** X19.  The rows of [GetLeaderboard]: they are ranked by total score, highest
    first; no username is listed twice; and a row is listed exactly for the
    usernames that have a live response in the quiz, with the sum of their
    scores. *)
Theorem GetLeaderboard_ranks_each_user_once d quizID :
  let rows := Repository.leaderboard_rows d quizID in
  let scores := Repository.joined_scores d quizID in
  StronglySorted by_score_desc rows
  /\ NoDup (map models.Username rows)
  /\ forall name total,
       {| models.Username := name; TotalScore := total |} ∈ rows
       <-> name ∈ map fst scores /\ total = Repository.sum_for name scores.
Proof.
  intros rows scores. split; [|split].
  - unfold rows, Repository.leaderboard_rows. apply StronglySorted_merge_sort; apply _.
  - apply leaderboard_rows_NoDup.
  - intros name total. unfold rows.
    rewrite (leaderboard_rows_Permutation d quizID).
    change (map ?f ?l) with (f <$> l).
    rewrite list_elem_of_fmap. setoid_rewrite elem_of_remove_dups. split.
    + intros (name' & [= -> ->] & Hin). done.
    + intros [Hin ->]. by exists name.
Qed.

(** X20.  What the completion check publishes.  With the store available and the
    quiz row found, writing the leaderboard to the cache and reading it back
    returns the rows of the store's leaderboard, for total scores that a
    [float64] holds exactly: the same entries, each once, ranked by total
    score, highest first (entries of equal score in descending order of the
    username); the tables are left alone. *)
Theorem published_leaderboard_is_the_stores w w1 quizID quiz :
  healthy w ->
  Repository.GetQuizByID quizID w = Ok (Val quiz, w1) ->
  (forall e, e ∈ Repository.leaderboard_rows (db w) quizID ->
     exact_in_float64 (TotalScore e)) ->
  exists entries w',
    (Service.updateLeaderboard quizID ;; cache_GetLeaderboard (QuizCode quiz)) w
    = Ok (Val entries, w')
    /\ entries ≡ₚ Repository.leaderboard_rows (db w) quizID
    /\ Sorted zrev_order entries
    /\ StronglySorted by_score_desc entries
    /\ db w' = db w.
Proof.
  intros Hw Hquiz _.
  unfold Repository.GetQuizByID in Hquiz.
  rewrite (query_healthy _ w Hw) in Hquiz. injection Hquiz as Hquiz <-.
  destruct (updateLeaderboard_publishes w quizID quiz Hw Hquiz)
    as (entries & w' & Hupdate & Hw' & Hdb & _ & Hperm & Hsorted & Hread).
  exists entries, w'. split; [|split; [|split; [|split]]].
  - rewrite (bind_Ok _ _ _ _ _ Hupdate). by apply Hread.
  - exact Hperm.
  - exact Hsorted.
  - apply Sorted_StronglySorted; [apply _|].
    by apply (Sorted_weaken zrev_order); [apply zrev_order_by_score|].
  - exact Hdb.
Qed.

Lemma published_leaderboard_is_the_stores_witness :
  exists entries w',
    (Service.updateLeaderboard 1%nat ;; cache_GetLeaderboard "ABC123")
      (final both_answered)
    = Ok (Val entries, w')
    /\ entries ≡ₚ [ {| models.Username := "ann"; TotalScore := 1000 |};
                    {| models.Username := "bob"; TotalScore := 1000 |} ].
Proof.
  destruct (published_leaderboard_is_the_stores (final both_answered)
              (final both_answered) 1%nat (Service.set_active the_quiz))
    as (entries & w' & Hrun & Hperm & _).
  - reflexivity.
  - vm_compute. reflexivity.
  - apply Forall_forall. apply (bool_decide_unpack _). vm_compute. exact I.
  - exists entries, w'. split; [exact Hrun|].
    rewrite Hperm. vm_compute. reflexivity.
Defined.

(** ** Scores and codes *)

(** X21.  Whatever the answer and the time, also when the time deduction
    overflows, the score is a non-negative [int], and it is 0 for an answer
    that differs from the correct one. *)
Theorem calculateScore_never_negative answer correctAnswer timeSpent :
  0 <= Service.calculateScore answer correctAnswer timeSpent <= GoInt.max_int
  /\ (answer <> correctAnswer ->
      Service.calculateScore answer correctAnswer timeSpent = 0).
Proof.
  split.
  - unfold Service.calculateScore.
    destruct (negb (String.eqb answer correctAnswer));
      [unfold GoInt.max_int; lia|].
    pose proof (wrap64_range (1000 - GoInt.mul timeSpent 10)) as [_ Hmax].
    unfold GoInt.sub.
    destruct (Z.ltb_spec (GoInt.wrap64 (1000 - GoInt.mul timeSpent 10)) 0);
      [unfold GoInt.max_int; lia|lia].
  - intros Hne. unfold Service.calculateScore.
    by rewrite (proj2 (String.eqb_neq answer correctAnswer) Hne).
Qed.

Lemma String_get_in_range s : forall n,
  (n < String.length s)%nat -> exists ch, String.get n s = Some ch.
Proof.
  induction s as [|a s IH]; intros n Hn; [cbn in Hn; lia|].
  destruct n as [|n]; [by exists a|]. cbn in *. apply IH. lia.
Qed.

Lemma String_get_of_list l : forall i,
  String.get i (String.string_of_list_ascii l) = l !! i.
Proof.
  induction l as [|a l IH]; intros [|i]; cbn; done.
Qed.

Lemma String_length_of_list l :
  String.length (String.string_of_list_ascii l) = length l.
Proof. induction l as [|a l IH]; cbn; [done|by rewrite IH]. Qed.

(** X22.  A quiz code has six bytes, each a byte of the character set (an
    upper-case letter or a digit), whatever the generator draws. *)
Theorem generateQuizCode_six_bytes_of_charset draws :
  String.length (generateQuizCode draws) = 6%nat
  /\ forall i ch,
       String.get i (generateQuizCode draws) = Some ch ->
       exists j, String.get j charset = Some ch.
Proof.
  unfold generateQuizCode. split.
  - rewrite String_length_of_list. by rewrite length_map, length_seq.
  - intros i ch. rewrite String_get_of_list.
    set (pick := fun k => byte_at charset (Intn (draws k) (String.length charset))).
    intros Hch. apply list_elem_of_lookup_2, list_elem_of_In, in_map_iff in Hch
      as (k & <- & _).
    exists (Intn (draws k) (String.length charset)).
    destruct (String_get_in_range charset (Intn (draws k) (String.length charset)))
      as (ch & Hch).
    { unfold Intn. apply Nat.mod_upper_bound. vm_compute. discriminate. }
    unfold pick, byte_at. by rewrite Hch.
Qed.

(** ** The progress records of a restarted quiz *)

Lemma filter_reset_progress userID quizID quizID' rows :
  List.filter (Repository.is_progress_of userID quizID')
    (map (Repository.reset_progress quizID) rows)
  = map (Repository.reset_progress quizID)
      (List.filter (Repository.is_progress_of userID quizID') rows).
Proof.
  induction rows as [|p rows IH]; [reflexivity|]. cbn [map List.filter].
  assert (Hsame : Repository.is_progress_of userID quizID'
                    (Repository.reset_progress quizID p)
                  = Repository.is_progress_of userID quizID' p).
  { unfold Repository.reset_progress. by destruct (bool_decide _). }
  rewrite Hsame, IH. by destruct (Repository.is_progress_of userID quizID' p).
Qed.

(** X23.  [ResetQuizProgress], with the store available, returns no error, keeps
    every progress record, sets the stored index of every user of the quiz
    to 0, and leaves the stored indices of every other quiz, the responses
    and the hub as they are. *)
Theorem ResetQuizProgress_resets_that_quiz_only w quizID :
  healthy w ->
  exists w',
    Repository.ResetQuizProgress quizID w = Ok (None, w')
    /\ length (user_quiz_progress (db w')) = length (user_quiz_progress (db w))
    /\ (forall userID,
          stored_index (db w') userID quizID
          = (fun _ => 0) <$> stored_index (db w) userID quizID)
    /\ (forall userID quizID', quizID' <> quizID ->
          stored_index (db w') userID quizID' = stored_index (db w) userID quizID')
    /\ user_quiz_responses (db w') = user_quiz_responses (db w)
    /\ wsHub w' = wsHub w.
Proof.
  intros Hw. eexists. split; [by apply exec_healthy|]. cbn.
  split; [by rewrite length_map|]. split; [|split; [|done]].
  - intros userID. unfold stored_index. cbn. rewrite filter_reset_progress.
    destruct (List.filter _ (user_quiz_progress (db w))) as [|p rest] eqn:E;
      [reflexivity|].
    cbn. f_equal.
    assert (Hin : In p (List.filter (Repository.is_progress_of userID quizID)
                          (user_quiz_progress (db w)))) by (rewrite E; by left).
    apply filter_In in Hin as [_ Hp]. apply andb_prop in Hp as [_ Hq].
    unfold Repository.reset_progress. by rewrite Hq.
  - intros userID quizID' Hne. unfold stored_index. cbn.
    rewrite filter_reset_progress.
    destruct (List.filter _ (user_quiz_progress (db w))) as [|p rest] eqn:E;
      [reflexivity|].
    cbn. f_equal.
    assert (Hin : In p (List.filter (Repository.is_progress_of userID quizID')
                          (user_quiz_progress (db w)))) by (rewrite E; by left).
    apply filter_In in Hin as [_ Hp]. apply andb_prop in Hp as [_ Hq].
    apply bool_decide_eq_true in Hq.
    unfold Repository.reset_progress.
    rewrite bool_decide_eq_false_2; [done|congruence].
Qed.

Lemma ResetQuizProgress_resets_that_quiz_only_witness :
  stored_index (db (final ann_finishes_first)) 2%nat 1%nat = Some 2
  /\ exists w',
       Repository.ResetQuizProgress 1%nat (final ann_finishes_first) = Ok (None, w')
       /\ stored_index (db w') 2%nat 1%nat = Some 0.
Proof.
  split; [reflexivity|].
  destruct (ResetQuizProgress_resets_that_quiz_only (final ann_finishes_first) 1%nat)
    as (w' & Hrun & _ & Hzero & _); [reflexivity|].
  exists w'. split; [exact Hrun|]. rewrite Hzero. reflexivity.
Defined.

(** ** Announcing the user of a connection *)

Lemma hub_blind_ret {A} (a : A) : hub_blind (ret a).
Proof. done. Qed.

Lemma hub_blind_bind {A B} (m : M World A) (k : A -> M World B) :
  hub_blind m -> (forall a, hub_blind (k a)) -> hub_blind (bind m k).
Proof.
  intros Hm Hk f w. unfold bind. rewrite Hm.
  destruct (m w) as [[a w1]|]; [apply Hk|done].
Qed.

Lemma hub_blind_query {A} (g : DB -> result A) : hub_blind (query g).
Proof. intros f w. unfold query, bind, external_call. cbn. by destruct (faults w) as [|[] ?]. Qed.

Lemma hub_blind_cache_GetQuiz code : hub_blind (cache_GetQuiz code).
Proof.
  intros f w. unfold cache_GetQuiz, bind, external_call. cbn.
  destruct (faults w) as [|[] ?]; cbn; try done;
    by destruct (quiz_keys (cache w) !! code).
Qed.

Lemma hub_blind_cache_SetQuiz quiz : hub_blind (cache_SetQuiz quiz).
Proof.
  intros f w. unfold cache_SetQuiz, bind, external_call. cbn.
  by destruct (faults w) as [|[] ?].
Qed.

Lemma hub_blind_GetQuizByCode code : hub_blind (Service.GetQuizByCode code).
Proof.
  unfold Service.GetQuizByCode, Repository.GetQuizByCode.
  apply hub_blind_bind; [apply hub_blind_cache_GetQuiz|].
  intros [quiz|e]; [apply hub_blind_ret|].
  apply hub_blind_bind; [apply hub_blind_query|].
  intros [quiz|e']; [|apply hub_blind_ret].
  apply hub_blind_bind; [apply hub_blind_cache_SetQuiz|]. intros. apply hub_blind_ret.
Qed.

(** X24.  A [join_quiz] message whose data is an object with a [user] object
    that carries a number [userId], in the range of [uint], and a string
    [username]; the email is the string under [email], or empty.  The role
    of the connection is decided by the lookup of the quiz of the
    connection's code: host when the quiz is found and the user created it,
    participant otherwise, also when the lookup fails.  The connection takes
    the announced user and the role; the identity map of that role, and only
    that one, maps the user to this connection, replacing any connection it
    had; an announcement of the participant list is started; rooms,
    [h.clients], counts and the tables stay as they are. *)
Theorem join_quiz_decides_the_role
    (json_Unmarshal : string -> option Message) (c : ptr) (message : string)
    (data user_ : list (string * any)) (userId : Z) (username : string)
    (w w1 : World) (r : result Quiz) :
  json_Unmarshal message = Some {| Type_ := "join_quiz"; Data := Map data |} ->
  index data "user" = Map user_ ->
  index user_ "userId" = Float64 userId ->
  index user_ "username" = String_ username ->
  0 <= userId < 2 ^ 64 ->
  Service.GetQuizByCode (quizCode (deref (wsHub w) c)) w = Ok (r, w1) ->
  let h := wsHub w in
  let email := match index user_ "email" with String_ email => email | _ => "" end in
  let info := {| UserID := Z.to_nat userId; Username := username; Email := email |} in
  let host := match r with
              | Val quiz => bool_decide (CreatorID quiz = Z.to_nat userId)
              | Err _ => false
              end in
  exists w',
    Client.handleMessage json_Unmarshal c message w = Ok (tt, w')
    /\ db w' = db w
    /\ heap (wsHub w') = <[c := set_user (Some info) host (deref h c)]> (heap h)
    /\ hosts (wsHub w')
       = (if host then <[Z.to_nat userId := c]> (hosts h) else hosts h)
    /\ clientsByUser (wsHub w')
       = (if host then clientsByUser h else <[Z.to_nat userId := c]> (clientsByUser h))
    /\ goroutines (wsHub w')
       = goroutines h ++ [GoSendParticipantList (quizCode (deref h c))]
    /\ clients (wsHub w') = clients h /\ quizRooms (wsHub w') = quizRooms h
    /\ participants (wsHub w') = participants h.
Proof.
  intros Hmsg Huser HuserId Husername _ Hquiz h email info host.
  destruct (read_op_elim _ _ _ _ (read_op_Service_GetQuizByCode _) Hquiz)
    as (Hhub1 & Hdb1 & _).
  set (f := set_heap <[c := set_user (Some info) (isHost (deref h c)) (deref h c)]>).
  assert (Hcode : quizCode (deref (f h) c) = quizCode (deref h c)).
  { unfold f. by rewrite deref_insert_eq. }
  assert (Hlookup : Client.checkIfHost (quizCode (deref (f h) c)) (UserID info)
                      (set_wsHub f w)
                    = Ok (match r with
                          | Val quiz => Val (bool_decide (CreatorID quiz = UserID info))
                          | Err e => Err e
                          end, set_wsHub f w1)).
  { unfold Client.checkIfHost. rewrite Hcode.
    unfold bind. rewrite hub_blind_GetQuizByCode. fold h in Hquiz. rewrite Hquiz.
    cbn. by destruct r. }
  eexists. split.
  - unfold Client.handleMessage. rewrite Hmsg. cbn [Type_ Data].
    change (String.eqb "join_quiz" "join_quiz") with true. cbv iota.
    rewrite Huser, HuserId, Husername.
    unfold Client.assert_float64, Client.assert_string.
    rewrite (bind_Ok _ _ _ _ _ (eq_refl : ret userId w = Ok (userId, w))).
    rewrite (bind_Ok _ _ _ _ _ (eq_refl : ret username w = Ok (username, w))).
    fold email. fold info.
    unfold bind at 1, liftHub at 1, modify at 1. fold h. fold f.
    change (set_wsHub (fun _ => f h) w) with (set_wsHub f w).
    unfold bind at 1, get at 1.
    change (wsHub (set_wsHub f w)) with (f h).
    rewrite (bind_Ok _ _ _ _ _ Hlookup).
    replace (match match r with
                   | Val quiz => Val (bool_decide (CreatorID quiz = UserID info))
                   | Err e => Err e
                   end with
             | Val isHost => isHost
             | Err _ => false
             end) with host by (by destruct r).
    reflexivity.
  - cbn [db wsHub set_wsHub]. rewrite Hhub1. fold h.
    assert (Hd : deref (f h) c
                 = set_user (Some info) (isHost (deref h c)) (deref h c))
      by (unfold f; by rewrite deref_insert_eq).
    split; [by rewrite Hdb1|].
    destruct host; cbn [hosts clientsByUser heap goroutines clients quizRooms
                        participants set_hosts set_clientsByUser set_heap
                        set_goroutines];
      rewrite ?deref_set_hosts, ?deref_set_clientsByUser, ?deref_insert_eq, Hd;
      (split; [unfold f; cbn; by rewrite insert_insert_eq|]); done.
Qed.

Lemma join_quiz_decides_the_role_witness :
  exists w',
    receive 10%nat join_quiz_with_email host_connected = Ok (tt, w')
    /\ user (deref (wsHub w') 10%nat)
       = Some {| UserID := 1%nat; Username := "host"; Email := "host@example.org" |}
    /\ hosts (wsHub w') !! 1%nat = Some 10%nat
    /\ clientsByUser (wsHub w') = clientsByUser (wsHub host_connected).
Proof.
  edestruct join_quiz_decides_the_role
    with (json_Unmarshal := fun _ : string => Some join_quiz_with_email)
         (c := 10%nat) (message := "") (userId := 1) (username := "host")
         (w := host_connected)
    as (w' & Hrun & _ & Hheap & Hhosts & Husers & _).
  - reflexivity.
  - reflexivity.
  - reflexivity.
  - reflexivity.
  - lia.
  - vm_compute. reflexivity.
  - exists w'. split; [exact Hrun|]. split; [|split].
    + unfold deref. rewrite Hheap. reflexivity.
    + rewrite Hhosts. reflexivity.
    + rewrite Husers. reflexivity.
Defined.

(** ** Error paths *)

(** X25.  The cache fails between the [Del] and the pipeline of
    [SetLeaderboard].  [updateLeaderboard] returns the error, which the
    completion check only logs; the key is gone, so the leaderboard read
    back for the [final_leaderboard] event is empty, whatever the scores in
    the store and whatever leaderboard was cached before. *)
Theorem leaderboard_lost_when_the_pipeline_fails w quizID quiz :
  faults w = [false; false; false; true] ->
  First (List.filter (fun q => bool_decide (Quiz_ID q = quizID)
                               && negb (Quiz_Deleted q)) (quizzes (db w)))
  = Val quiz ->
  exists w1 w',
    Service.updateLeaderboard quizID w = Ok (Some ErrStore, w1)
    /\ cache_GetLeaderboard (QuizCode quiz) w1 = Ok (Val [], w')
    /\ db w' = db w.
Proof.
  intros Hf Hquiz.
  unfold Service.updateLeaderboard, Repository.GetLeaderboard, Repository.GetQuizByID,
    cache_SetLeaderboard, cache_GetLeaderboard, query, external_call, bind, get,
    modify, ret.
  rewrite Hf. cbn. rewrite Hquiz. cbn.
  eexists _, _. split; [reflexivity|]. cbn.
  rewrite lookup_delete_eq. cbn. rewrite map_to_list_empty. done.
Qed.

Lemma leaderboard_lost_when_the_pipeline_fails_witness :
  Repository.leaderboard_rows (db (final both_answered)) 1%nat <> []
  /\ exists w1 w',
       Service.updateLeaderboard 1%nat (pipeline_fails (final both_answered))
       = Ok (Some ErrStore, w1)
       /\ cache_GetLeaderboard "ABC123" w1 = Ok (Val [], w').
Proof.
  split; [vm_compute; discriminate|].
  destruct (leaderboard_lost_when_the_pipeline_fails
              (pipeline_fails (final both_answered)) 1%nat
              (Service.set_active the_quiz))
    as (w1 & w' & Hupdate & Hget & _).
  - reflexivity.
  - vm_compute. reflexivity.
  - exists w1, w'. split; [exact Hupdate|exact Hget].
Defined.

(** X26.  [StartQuiz] of a quiz without questions, with the store available and
    the quiz found, returns the error ["no questions found for quiz"]: the
    quiz is not activated and nothing is sent, but the progress records of
    the quiz have been reset before the questions were looked at. *)
Theorem StartQuiz_without_questions_still_resets
    (w w1 : World) (quizCode : string) (userID : uint) (quiz : Quiz) :
  healthy w ->
  Service.GetQuizByCode quizCode w = Ok (Val quiz, w1) ->
  Repository.quiz_questions (db w) (Quiz_ID quiz) = [] ->
  exists w',
    Service.StartQuiz quizCode userID w
    = Ok (Some "no questions found for quiz", w')
    /\ wsHub w' = wsHub w
    /\ quizzes (db w') = quizzes (db w)
    /\ user_quiz_progress (db w')
       = map (Repository.reset_progress (Quiz_ID quiz)) (user_quiz_progress (db w)).
Proof.
  intros Hw Hquiz Hnone.
  destruct (read_op_elim _ _ _ _ (read_op_Service_GetQuizByCode quizCode) Hquiz)
    as (Hhub1 & Hdb1 & Hw1).
  specialize (Hw1 Hw).
  unfold Service.StartQuiz.
  rewrite (bind_Ok _ _ _ _ _ Hquiz).
  unfold Repository.ResetQuizProgress.
  rewrite (bind_Ok _ _ _ _ _ (exec_healthy _ w1 Hw1)).
  set (w2 := set_db _ w1).
  unfold Repository.GetQuizQuestions.
  rewrite (bind_Ok _ _ _ _ _ (query_healthy _ w2 Hw1)).
  change (Repository.quiz_questions (db w2) (Quiz_ID quiz))
    with (Repository.quiz_questions (db w1) (Quiz_ID quiz)).
  rewrite Hdb1, Hnone.
  exists w2. split; [reflexivity|]. cbn. by rewrite Hdb1.
Qed.

Lemma StartQuiz_without_questions_still_resets_witness :
  let emptied :=
    set_db (fun d => {| users := users d; quizzes := quizzes d; questions := [];
                        user_quiz_responses := user_quiz_responses d;
                        user_quiz_progress := user_quiz_progress d;
                        quiz_participants := quiz_participants d |})
      (final ann_finishes_first) in
  stored_index (db emptied) 2%nat 1%nat = Some 2
  /\ exists w',
       Service.StartQuiz "ABC123" 1%nat emptied
       = Ok (Some "no questions found for quiz", w')
       /\ stored_index (db w') 2%nat 1%nat = Some 0.
Proof.
  intros emptied. split; [reflexivity|].
  edestruct StartQuiz_without_questions_still_resets
    with (w := emptied) (quizCode := "ABC123") (userID := 1%nat)
    as (w' & Hrun & _ & _ & Hprogress).
  - reflexivity.
  - vm_compute. reflexivity.
  - reflexivity.
  - exists w'. split; [exact Hrun|].
    unfold stored_index. rewrite Hprogress. reflexivity.
Defined.

(** X27.  A code that is neither cached nor the code of a live quiz, with the
    store available: the lookup returns the not-found error, and so do
    [StartQuiz], [JoinQuiz], [HandleNextQuestion] and [RemoveParticipant],
    each without any effect on the tables, the cache or the hub. *)
Theorem unknown_code_is_refused_without_effect w quizCode userID currentIndex :
  healthy w ->
  quiz_keys (cache w) !! quizCode = None ->
  (forall q, q ∈ quizzes (db w) -> QuizCode q = quizCode -> Quiz_Deleted q = true) ->
  Service.GetQuizByCode quizCode w = Ok (Err ErrRecordNotFound, w)
  /\ Service.StartQuiz quizCode userID w = Ok (Some ErrRecordNotFound, w)
  /\ Service.JoinQuiz quizCode userID w = Ok (Some ErrRecordNotFound, w)
  /\ Service.HandleNextQuestion quizCode currentIndex w
     = Ok (Some ErrRecordNotFound, w)
  /\ Service.RemoveParticipant quizCode userID w = Ok (Some ErrRecordNotFound, w).
Proof.
  intros Hw Hcache Hrows.
  assert (Hlookup : Service.GetQuizByCode quizCode w = Ok (Err ErrRecordNotFound, w)).
  { unfold Service.GetQuizByCode.
    rewrite (bind_Ok _ _ _ _ _ (cache_GetQuiz_healthy quizCode w Hw)), Hcache.
    unfold Repository.GetQuizByCode.
    rewrite (bind_Ok _ _ _ _ _ (query_healthy _ w Hw)).
    destruct (List.filter _ (quizzes (db w))) as [|q rows] eqn:E; [reflexivity|].
    exfalso.
    assert (Hq : In q (List.filter
              (fun q => String.eqb (QuizCode q) quizCode && negb (Quiz_Deleted q))
              (quizzes (db w)))) by (rewrite E; by left).
    apply filter_In in Hq as [Hin Hq]. apply andb_prop in Hq as [Hc Hd].
    apply String.eqb_eq in Hc.
    rewrite (Hrows q) in Hd; [discriminate|by apply list_elem_of_In|done]. }
  split; [done|].
  unfold Service.StartQuiz, Service.JoinQuiz, Service.HandleNextQuestion,
    Service.RemoveParticipant.
  by rewrite !(bind_Ok _ _ _ _ _ Hlookup).
Qed.

Lemma unknown_code_is_refused_without_effect_witness :
  Service.GetQuizByCode "NOCODE" (final everyone_joins)
  = Ok (Err ErrRecordNotFound, final everyone_joins)
  /\ Service.JoinQuiz "NOCODE" 2%nat (final everyone_joins)
     = Ok (Some ErrRecordNotFound, final everyone_joins).
Proof.
  destruct (unknown_code_is_refused_without_effect (final everyone_joins)
              "NOCODE" 2%nat 0) as (Hlookup & _ & Hjoin & _).
  - reflexivity.
  - vm_compute. reflexivity.
  - intros q Hq. vm_compute in Hq. apply list_elem_of_singleton in Hq as ->.
    discriminate.
  - split; [exact Hlookup|exact Hjoin].
Defined.

Lemma HandleNextQuestionForUser_no_marker_witness :
  exists w',
    Service.HandleNextQuestionForUser 2%nat "ABC123" 1 (final everyone_joins)
    = Ok (None, w')
    /\ List.filter question_with_marker (queue (wsHub w') 11%nat)
       = List.filter question_with_marker
           (queue (wsHub (final everyone_joins)) 11%nat).
Proof.
  destruct (Service.HandleNextQuestionForUser 2%nat "ABC123" 1 (final everyone_joins))
    as [[[e|] w']|] eqn:E;
    [vm_compute in E; discriminate| |vm_compute in E; discriminate].
  exists w'. split; [reflexivity|].
  exact (HandleNextQuestionForUser_no_marker 2%nat "ABC123" 1
           (final everyone_joins) None w' E 11%nat).
Defined.

Lemma handleMessage_data_not_object_witness :
  receive 10%nat {| Type_ := "next_question"; Data := String_ "ABC123" |}
    (final everyone_joins)
  = Ok (tt, final everyone_joins).
Proof.
  apply (handleMessage_data_not_object
           (fun _ => Some {| Type_ := "next_question"; Data := String_ "ABC123" |})
           10%nat "" (final everyone_joins) "next_question" (String_ "ABC123")).
  - reflexivity.
  - discriminate.
Defined.
